(** * GPU dynamic boosting: fold planning, permutation choice, leaf estimator
      bookkeeping and the fit loop

    A shallow embedding of [catboost/cuda/methods/dynamic_boosting.h]
    ([TDynamicBoosting]) and of the task bookkeeping of
    [catboost/cuda/methods/leaves_estimation/oblivious_tree_leaves_estimator.h]
    ([TObliviousTreeLeavesEstimator]).

    Conventions.
    - [ui32] and [ui64] values are integers of [Z]; every place where the
      32-bit arithmetic of the C++ can wrap is written with [wrap32].
    - [double] is the kernel's binary64 type [float]; comparisons and the
      product are the IEEE ones.
    - [CB_ENSURE] failures are the [Failed] outcome, and so are an index out
      of range, whether the C++ checks it ([at]) or not ([operator[]]), and
      an integer division by 0.
    - A [while] loop is a fixpoint on a fuel argument, and fuel exhaustion
      is the separate [OutOfFuel] outcome, shown unreachable where a theorem
      is about a returned value. *)

From Stdlib Require Import ZArith Lia List Bool Floats Uint63.
Import ListNotations.

Local Open Scope Z_scope.

(* ================================================================== *)
(** ** Machine integers *)

Definition wrap32 (x : Z) : Z := x mod 2 ^ 32.

(* ================================================================== *)
(** ** Configuration ([NCatboostOptions::TBoostingOptions], the fields read) *)

Inductive EBoostingType := Plain | Ordered.

Definition EBoostingType_eqb (a b : EBoostingType) : bool :=
  match a, b with
  | Plain, Plain | Ordered, Ordered => true
  | _, _ => false
  end.

Record TBoostingOptions := {
  PermutationBlockSize : Z;      (* ui32 *)
  PermutationCount : Z;          (* ui32 *)
  MinFoldSize : Z;               (* ui32 *)
  BoostingType : EBoostingType;
  LearningRate : float;
  FoldLenMultiplier : float
}.

(* ================================================================== *)
(** ** Outcomes of fallible code *)

(** One constructor per [CB_ENSURE] (or checked container access) of the
    embedded code, and one for the integer division by 0, which C++ leaves
    undefined and the processor answers by stopping the program. *)
Inductive TError :=
| NoDataProvider              (* CB_ENSURE(DataProvider) *)
| NoProgressTracker           (* CB_ENSURE(ProgressTracker) *)
| EmptyTargetSlice            (* CB_ENSURE(slice.Size()) *)
| PoolTooSmallForDevices      (* "pool has just ... groups or docs" *)
| MinLearnSizeNotPositive     (* "min learn size should be positive" *)
| GrowRateNotAboveOne         (* "grow rate should be > 1.0" *)
| NoPermutations              (* CB_ENSURE(permutationCount >= 1) *)
| PlainNeedsSingleFold        (* CB_ENSURE(taskFolds.size() == 1) *)
| CursorSliceMismatch         (* CB_ENSURE(cursor...GetObjectsSlice() == allSlice) *)
| IndexOutOfRange             (* TVector::at *)
| NoEstimationTask            (* CB_ENSURE(TaskHelpers.size()) *)
| NoTestCursor                (* Y_VERIFY(testCursor) *)
| SnapshotTruncated           (* reading past the end of the snapshot stream *)
| IntegerDivideByZero.        (* an integer division by 0 *)

Inductive outcome (A : Type) :=
| Returned (a : A)
| Failed (e : TError)
| OutOfFuel.
Arguments Returned {A} a.
Arguments Failed {A} e.
Arguments OutOfFuel {A}.

Definition bind {A B} (m : outcome A) (k : A -> outcome B) : outcome B :=
  match m with
  | Returned a => k a
  | Failed e => Failed e
  | OutOfFuel => OutOfFuel
  end.

Definition ensure (c : bool) (e : TError) : outcome unit :=
  if c then Returned tt else Failed e.

Declare Scope outcome_scope.
Delimit Scope outcome_scope with outcome.
Notation "x <- m ;; k" := (bind m (fun x => k))
  (at level 61, m at next level, right associativity) : outcome_scope.
Notation "m ;;; k" := (bind m (fun _ => k))
  (at level 61, right associativity) : outcome_scope.
Local Open Scope outcome_scope.

Definition fails {A} (m : outcome A) : Prop := exists e, m = Failed e.

(* ================================================================== *)
(** ** Helpers declared outside the two headers *)

(** Modelled from the spec: [NCB::IntLog2] (catboost/libs/helpers/math_utils.h)
    is not among the sources, and the spec does not say how it rounds.  It is
    the base-2 logarithm of a positive integer as an integer; the library
    rounds it up.  What is proved below of the code that calls it uses only
    that it lies between the logarithm rounded down and the logarithm
    rounded up ([IntLog2_between]), and so holds for either rounding. *)
Definition IntLog2 (values : Z) : Z := Z.log2_up values.

(** Modelled from the spec: [NHelpers::CeilDivide] is not among the sources;
    it is the quotient rounded up, [(x + y - 1) / y].  The division is an
    integer division: with the divisor 0 it has no result, and the program
    stops there. *)
Definition CeilDivide (x y : Z) : outcome Z :=
  if y =? 0 then Failed IntegerDivideByZero else Returned ((x + y - 1) / y).

(** The mathematical ceiling of [a / b], stated without division. *)
Definition is_ceil_quotient (q a b : Z) : Prop := (q - 1) * b < a <= q * b.

(* ================================================================== *)
(** ** [GetPermutationBlockSize] *)

(** The loop [while (suggestedBlockSize * 128 > sampleCount)
    suggestedBlockSize >>= 1;] on [ui32] values.  Every turn drops one bit of
    the block size, so [fuel] = 32 turns are all a 32-bit value can take. *)
Fixpoint ShrinkBlockSize (fuel : nat) (suggestedBlockSize sampleCount : Z) : Z :=
  match fuel with
  | O => suggestedBlockSize
  | S fuel' =>
      if wrap32 (suggestedBlockSize * 128) >? sampleCount
      then ShrinkBlockSize fuel' (Z.shiftr suggestedBlockSize 1) sampleCount
      else suggestedBlockSize
  end.

Definition GetPermutationBlockSize (Config : TBoostingOptions) (sampleCount : Z) : Z :=
  let suggestedBlockSize := PermutationBlockSize Config in
  if sampleCount <? 50000 then 1
  else if suggestedBlockSize >? 1 then
    let suggestedBlockSize := wrap32 (Z.shiftl 1 (IntLog2 suggestedBlockSize)) in
    ShrinkBlockSize 32 suggestedBlockSize sampleCount
  else suggestedBlockSize.

(* ================================================================== *)
(** ** [MinEstimationSize] *)

(** The quotient by [Config.MinFoldSize] is taken before anything is
    checked: a configured minimum fold size of 0 divides by zero as soon as
    there are 500 documents. *)
Definition MinEstimationSize (Config : TBoostingOptions) (docCount : Z) : outcome Z :=
  if docCount <? 500 then Returned 1
  else
    let maxFolds := 18 in
    quotient <- CeilDivide docCount (MinFoldSize Config) ;;
    let folds := IntLog2 quotient in
    if folds >=? maxFolds then CeilDivide docCount (Z.shiftl 1 maxFolds)
    else Returned (Z.min (MinFoldSize Config) (docCount / 50)).

(* ================================================================== *)
(** ** [double] conversions *)

(** [static_cast<double>(n)] of a [ui32]: exact, every 32-bit integer is a
    binary64 value. *)
Definition ui32_to_double (n : Z) : float := PrimFloat.of_uint63 (Uint63.of_Z n).

(** [static_cast<ui32>(x)]: the fraction is dropped.  C++ leaves the cast
    undefined for NaN, infinities and values outside the [ui32] range.  The
    embedding takes what the code compiled for x86-64 gives there, a
    conversion to a 64-bit integer of which the low 32 bits are kept: 0 for
    the values that are not finite, the integer part wrapped to 32 bits for
    the large ones.  Negative values do not reach the cast in [CreateFolds]
    and are given 0. *)
Definition double_to_ui32 (x : float) : Z :=
  match Prim2SF x with
  | S754_finite false m e =>
      wrap32 (match e with
              | Z0 => Zpos m
              | Zpos p => Z.shiftl (Zpos m) (Zpos p)
              | Zneg p => Z.shiftr (Zpos m) (Zpos p)
              end)
  | _ => 0
  end.

(** [static_cast<ui32>(n * growthRate)] *)
Definition ScaleByGrowth (n : Z) (growthRate : float) : Z :=
  double_to_ui32 (PrimFloat.mul (ui32_to_double n) growthRate).

(* ================================================================== *)
(** ** Slices, folds and the row grouping *)

Record TSlice := { Left : Z; Right : Z }.   (* ui64 bounds, half-open *)

Definition TSlice_eqb (a b : TSlice) : bool :=
  (Left a =? Left b) && (Right a =? Right b).

Record TFold := {
  EstimateSamples : TSlice;
  QualityEvaluateSamples : TSlice
}.

(** Modelled from the spec: the interface [IQueriesGrouping] is declared
    outside the sources; the three queries [CreateFolds] calls are its
    fields.  [NextQueryOffsetForLine line] is the offset of the group that
    follows the one holding row [line]. *)
Record IQueriesGrouping := {
  GetQueryCount : Z;
  GetQueryOffset : Z -> Z;
  NextQueryOffsetForLine : Z -> Z
}.

(** A group offset boundary: the first row of some group, or the end of the
    data. *)
Definition is_group_offset (G : IQueriesGrouping) (sampleCount b : Z) : Prop :=
  b = sampleCount \/ exists q, 0 <= q < GetQueryCount G /\ GetQueryOffset G q = b.

(** Modelled from the spec: what a grouping of [sampleCount] rows promises
    ("group-boundary-aligned offset queries", "rounded up to the next group
    boundary, until it reaches sampleCount"): groups are non-empty and start
    at row 0, the next offset lies strictly after the row asked for, stops
    at the end of the data, and is a group boundary. *)
Record grouping_ok (G : IQueriesGrouping) (sampleCount : Z) : Prop := {
  queries_le_samples : GetQueryCount G <= sampleCount;
  first_offset : 0 < GetQueryCount G -> GetQueryOffset G 0 = 0;
  offset_range : forall q, 0 <= q < GetQueryCount G ->
                           0 <= GetQueryOffset G q <= sampleCount;
  next_progress : forall line, 0 <= line < sampleCount ->
                               line < NextQueryOffsetForLine G line <= sampleCount;
  next_at_end : NextQueryOffsetForLine G sampleCount = sampleCount;
  next_is_offset : forall line, 0 <= line <= sampleCount ->
                   is_group_offset G sampleCount (NextQueryOffsetForLine G line)
}.

(** Modelled from the spec: data without groups, every row a group of its
    own ([TWithoutQueriesGrouping]). *)
Definition TWithoutQueriesGrouping (docCount : Z) : IQueriesGrouping := {|
  GetQueryCount := docCount;
  GetQueryOffset := fun id => id;
  NextQueryOffsetForLine := fun line => Z.min (line + 1) docCount
|}.

(** Modelled from the spec: grouped data given by the increasing list of the
    groups' first rows ([TQueriesGrouping]). *)
Definition TQueriesGrouping (offsets : list Z) (docCount : Z) : IQueriesGrouping := {|
  GetQueryCount := Z.of_nat (length offsets);
  GetQueryOffset := fun id => nth (Z.to_nat id) offsets docCount;
  NextQueryOffsetForLine := fun line =>
    match find (fun o => line <? o) offsets with
    | Some o => o
    | None => docCount
    end
|}.

(* ================================================================== *)
(** ** [CreateFolds] *)

(** The first lines of [CreateFolds]: the minimum estimation size, raised on
    several devices. *)
Definition FirstEstimationSize (Config : TBoostingOptions) (devCount sampleCount : Z)
    (samplesGrouping : IQueriesGrouping) : outcome Z :=
  estimationSize <- MinEstimationSize Config sampleCount ;;
  let minEstimationSize := NextQueryOffsetForLine samplesGrouping estimationSize in
  Returned
    (if devCount >? 1 then
       Z.max minEstimationSize
             (GetQueryOffset samplesGrouping
                (Z.min (wrap32 (16 * devCount)) (GetQueryCount samplesGrouping / 2)))
     else minEstimationSize).

Definition NoFold : TFold :=
  {| EstimateSamples := {| Left := 0; Right := 0 |};
     QualityEvaluateSamples := {| Left := 0; Right := 0 |} |}.

(** [folds.back()] *)
Definition back (folds : list TFold) : TFold := last folds NoFold.

(** The loop [while (folds.back().QualityEvaluateSamples.Right < sampleCount)]. *)
Fixpoint GrowFolds (fuel : nat) (sampleCount : Z) (growthRate : float)
    (samplesGrouping : IQueriesGrouping) (folds : list TFold) : outcome (list TFold) :=
  let right := Right (QualityEvaluateSamples (back folds)) in
  if right <? sampleCount then
    match fuel with
    | O => OutOfFuel
    | S fuel' =>
        let learnSlice := {| Left := 0; Right := right |} in
        let end_ := NextQueryOffsetForLine samplesGrouping
                      (Z.min (ScaleByGrowth right growthRate) sampleCount) in
        let testSlice := {| Left := right; Right := end_ |} in
        GrowFolds fuel' sampleCount growthRate samplesGrouping
          (folds ++ [{| EstimateSamples := learnSlice;
                        QualityEvaluateSamples := testSlice |}])
    end
  else Returned folds.

(** [devCount] is [NCudaLib::GetCudaManager().GetDeviceCount()].  The loop
    gets [sampleCount] turns of fuel: each turn moves the right end forward. *)
Definition CreateFolds (Config : TBoostingOptions) (devCount : Z)
    (sampleCount : Z) (growthRate : float) (samplesGrouping : IQueriesGrouping)
    : outcome (list TFold) :=
  minEstimationSize <- FirstEstimationSize Config devCount sampleCount samplesGrouping ;;
  ensure (GetQueryCount samplesGrouping >=? wrap32 (4 * devCount)) PoolTooSmallForDevices ;;;
  ensure (negb (minEstimationSize =? 0)) MinLearnSizeNotPositive ;;;
  ensure (PrimFloat.ltb 1%float growthRate) GrowRateNotAboveOne ;;;
  match BoostingType Config with
  | Plain =>
      Returned [{| EstimateSamples := {| Left := 0; Right := sampleCount |};
                   QualityEvaluateSamples := {| Left := 0; Right := sampleCount |} |}]
  | Ordered =>
      let testEnd := NextQueryOffsetForLine samplesGrouping
                       (Z.min (ScaleByGrowth minEstimationSize growthRate) sampleCount) in
      GrowFolds (Z.to_nat sampleCount) sampleCount growthRate samplesGrouping
        [{| EstimateSamples := {| Left := 0; Right := minEstimationSize |};
            QualityEvaluateSamples := {| Left := minEstimationSize; Right := testEnd |} |}]
  end.

(** The products of the sizes up to [sampleCount] with the growth rate
    are below [2^32], where [static_cast<ui32>] is defined. *)
Definition products_fit (sampleCount : Z) (growthRate : float) : Prop :=
  forall r, 0 < r <= sampleCount ->
    PrimFloat.ltb (PrimFloat.mul (ui32_to_double r) growthRate) 4294967296 = true.

(** No scaled size falls below the size it is computed from. *)
Definition growth_ok (sampleCount : Z) (growthRate : float) : Prop :=
  forall r, 0 < r <= sampleCount -> r <= ScaleByGrowth r growthRate.

(** What ordered mode promises of the folds it returns. *)
Definition fold_offsets_aligned (G : IQueriesGrouping) (sampleCount : Z) (f : TFold) : Prop :=
  is_group_offset G sampleCount (Left (EstimateSamples f)) /\
  is_group_offset G sampleCount (Right (EstimateSamples f)) /\
  is_group_offset G sampleCount (Left (QualityEvaluateSamples f)) /\
  is_group_offset G sampleCount (Right (QualityEvaluateSamples f)).

Definition ordered_folds_ok (G : IQueriesGrouping) (sampleCount : Z)
    (folds : list TFold) : Prop :=
  folds <> [] /\
  (forall f, In f folds -> Left (EstimateSamples f) = 0) /\
  (forall i f f', nth_error folds i = Some f -> nth_error folds (S i) = Some f' ->
     Right (EstimateSamples f') = Right (QualityEvaluateSamples f) /\
     Right (QualityEvaluateSamples f) < Right (QualityEvaluateSamples f')) /\
  Right (QualityEvaluateSamples (back folds)) = sampleCount /\
  (forall f, In f folds -> fold_offsets_aligned G sampleCount f).

Definition plain_folds (sampleCount : Z) : list TFold :=
  [{| EstimateSamples := {| Left := 0; Right := sampleCount |};
      QualityEvaluateSamples := {| Left := 0; Right := sampleCount |} |}].

(* ================================================================== *)
(** ** The data provider and [CreateDataSet] *)

Module NCB.
Inductive EObjectsOrder := Ordered | RandomShuffled | Undefined.
End NCB.

(** [NCB::TTrainingDataProvider], the parts read here.  [GroupingOf i] is the
    row grouping seen through permutation [i] of the rows. *)
Record TTrainingDataProvider := {
  GetObjectCount : Z;
  GetOrder : NCB.EObjectsOrder;
  BaselineCount : Z;
  GroupingOf : nat -> IQueriesGrouping
}.

Record TFeatureParallelDataSetsHolder := {
  PermutationsCount : Z;
  BlockSize : Z;
  LearnObjectCount : Z;
  SamplesGrouping : nat -> IQueriesGrouping;
  TestObjectCount : option Z       (* [HasTestDataSet()] when present *)
}.

Definition HasTestDataSet (dataSet : TFeatureParallelDataSetsHolder) : bool :=
  match TestObjectCount dataSet with Some _ => true | None => false end.

(** Modelled from the spec: [TFeatureParallelDataSetHoldersBuilder::BuildDataSet]
    is outside the sources; the holder it returns has as many permutations
    as it was asked for. *)
Definition BuildDataSet (DataProvider : TTrainingDataProvider)
    (TestDataProvider : option TTrainingDataProvider)
    (permutationBlockSize permutationCount : Z) : TFeatureParallelDataSetsHolder := {|
  PermutationsCount := permutationCount;
  BlockSize := permutationBlockSize;
  LearnObjectCount := GetObjectCount DataProvider;
  SamplesGrouping := GroupingOf DataProvider;
  TestObjectCount := option_map GetObjectCount TestDataProvider
|}.

(** The permutation count [CreateDataSet] asks the builder for. *)
Definition RequestedPermutationCount (Config : TBoostingOptions)
    (DataProvider : TTrainingDataProvider) : Z :=
  match GetOrder DataProvider with
  | NCB.Ordered => 1
  | _ => PermutationCount Config
  end.

Definition CreateDataSet (Config : TBoostingOptions)
    (DataProvider TestDataProvider : option TTrainingDataProvider)
    : outcome TFeatureParallelDataSetsHolder :=
  match DataProvider with
  | None => Failed NoDataProvider
  | Some provider =>
      let permutationBlockSize := GetPermutationBlockSize Config (GetObjectCount provider) in
      let permutationCount := RequestedPermutationCount Config provider in
      Returned (BuildDataSet provider TestDataProvider permutationBlockSize permutationCount)
  end.

(* ================================================================== *)
(** ** Permutation indices of [Fit] and [CreateState] *)

Definition EstimationPermutation (permutationCount : Z) : Z :=
  wrap32 (permutationCount - 1).

(** [estimationPermutation ? permutationCount - 1 : 1] *)
Definition LearnPermutationCount (permutationCount : Z) : Z :=
  if EstimationPermutation permutationCount =? 0 then 1
  else wrap32 (permutationCount - 1).

(** The permutation the structure search works on; [nextUniformL] is the
    [ui64] value [Random.NextUniformL()] returns in this iteration. *)
Definition LearnPermutationId (learnPermutationCount nextUniformL : Z) : Z :=
  if learnPermutationCount >? 1
  then wrap32 (nextUniformL mod wrap32 (learnPermutationCount - 1))
  else 0.

(* ================================================================== *)
(** ** Task bookkeeping of [TObliviousTreeLeavesEstimator] *)

(** [TEstimationTaskHelper]: of its device buffers only the length of the
    leaf-offset table [Offsets] is kept. *)
Record TEstimationTaskHelper := { OffsetsSize : Z }.

Record TObliviousTreeLeavesEstimator := {
  TaskHelpers : list TEstimationTaskHelper;
  TaskSlices : list TSlice;
  WriteDst : list Z               (* depth of the model each task writes to *)
}.

Definition NewEstimator : TObliviousTreeLeavesEstimator :=
  {| TaskHelpers := []; TaskSlices := []; WriteDst := [] |}.

(** Modelled from the spec: [NextTask] is defined outside the sources; it
    opens a task whose slice of the point starts where the previous task's
    slice ends and holds one entry per leaf, [2^depth] of them. *)
Definition NextTask (estimator : TObliviousTreeLeavesEstimator) (depth : Z)
    : TObliviousTreeLeavesEstimator :=
  let left := match TaskSlices estimator with
              | [] => 0
              | _ => Right (last (TaskSlices estimator) {| Left := 0; Right := 0 |})
              end in
  {| TaskHelpers := TaskHelpers estimator ++ [{| OffsetsSize := 0 |}];
     TaskSlices := TaskSlices estimator ++ [{| Left := left; Right := left + 2 ^ depth |}];
     WriteDst := WriteDst estimator ++ [depth] |}.

(** [AddEstimationTask], for a destination model of the given depth: the new
    task's offsets table gets [binCount + 1] entries. *)
Definition AddEstimationTask (estimator : TObliviousTreeLeavesEstimator) (depth : Z)
    : TObliviousTreeLeavesEstimator :=
  let binCount := wrap32 (Z.shiftl 1 depth) in
  let estimator' := NextTask estimator depth in
  {| TaskHelpers := removelast (TaskHelpers estimator')
                    ++ [{| OffsetsSize := binCount + 1 |}];
     TaskSlices := TaskSlices estimator';
     WriteDst := WriteDst estimator' |}.

Definition PointDim (estimator : TObliviousTreeLeavesEstimator) : outcome Z :=
  ensure (negb (Nat.eqb (length (TaskHelpers estimator)) 0)) NoEstimationTask ;;;
  Returned (wrap32 (Right (last (TaskSlices estimator) {| Left := 0; Right := 0 |}))).

Definition HessianBlockSize (estimator : TObliviousTreeLeavesEstimator) : Z := 1.

(** The estimator after registering tasks for models of the given depths. *)
Definition RegisterTasks (depths : list Z) : TObliviousTreeLeavesEstimator :=
  fold_left AddEstimationTask depths NewEstimator.

(** The total leaf count of the registered tasks. *)
Definition TotalLeafCount (depths : list Z) : Z :=
  fold_right (fun depth total => 2 ^ depth + total) 0 depths.

(* ================================================================== *)
(** ** Containers of the fit loop *)

(** [TVector::at]: a checked access. *)
Definition at_ {A} (v : list A) (i : nat) : outcome A :=
  match nth_error v i with
  | Some a => Returned a
  | None => Failed IndexOutOfRange
  end.

Fixpoint mapM {A B} (f : A -> outcome B) (l : list A) : outcome (list B) :=
  match l with
  | [] => Returned []
  | a :: l' => b <- f a ;; bs <- mapM f l' ;; Returned (b :: bs)
  end.

(** A loop over [l] that threads a state and stops at the first failure. *)
Fixpoint foldM {A S} (f : S -> A -> outcome S) (l : list A) (s : S) : outcome S :=
  match l with
  | [] => Returned s
  | a :: l' => s' <- f s a ;; foldM f l' s'
  end.

(** [v[i] = a] on a vector that has index [i]. *)
Fixpoint set_nth {A} (v : list A) (i : nat) (a : A) : list A :=
  match v, i with
  | [], _ => []
  | _ :: v', O => a :: v'
  | x :: v', S i' => x :: set_nth v' i' a
  end.

Record TFoldAndPermutationStorage (TData : Type) := {
  FoldData : list (list TData);
  Estimation : TData
}.
Arguments FoldData {TData} _.
Arguments Estimation {TData} _.

(** [TFoldAndPermutationStorage::Get]: [FoldData.at(permutationId).at(foldId)] *)
Definition Get {TData} (storage : TFoldAndPermutationStorage TData)
    (permutationId foldId : nat) : outcome TData :=
  foldEntries <- at_ (FoldData storage) permutationId ;;
  at_ foldEntries foldId.

(** [TFoldAndPermutationStorage::Foreach] with a function that rewrites the
    entry it is given. *)
Definition Foreach {TData} (func : TData -> TData)
    (storage : TFoldAndPermutationStorage TData) : TFoldAndPermutationStorage TData :=
  {| FoldData := map (map func) (FoldData storage);
     Estimation := func (Estimation storage) |}.

(** Where an estimation task writes its leaf values: [&models.FoldData[p][f]]
    or [&models.Estimation]. *)
Inductive TModelRef :=
| FoldModel (permutation foldId : nat)
| EstimationModel.

Definition SetModel {TData} (models : TFoldAndPermutationStorage TData)
    (dst : TModelRef) (model : TData) : TFoldAndPermutationStorage TData :=
  match dst with
  | EstimationModel => {| FoldData := FoldData models; Estimation := model |}
  | FoldModel permutation foldId =>
      {| FoldData := set_nth (FoldData models) permutation
                       (set_nth (nth permutation (FoldData models) []) foldId model);
         Estimation := Estimation models |}
  end.

(** The data set a task reads: the test set or the one of a permutation. *)
Inductive TDataSetRef :=
| TestDataSet
| DataSetForPermutation (permutation : Z).

(** What one pass of the loop takes from its surroundings: the random value
    of [Random.NextUniformL()], and from the progress tracker the iteration
    number and whether this is the best test iteration so far. *)
Record TIterationInput := {
  NextUniformL : Z;
  GetCurrentIteration : Z;
  IsBestTestIteration : bool
}.

(* ================================================================== *)
(** ** The weak learner ([TWeakLearner_], a template parameter) *)

(** The weak learner's types and the operations [Fit] drives.  Device buffers
    of [float] are values of [TBuf]. *)
Record TWeakLearner := {
  TWeakModelStructure : Type;
  TWeakModel : Type;
  TBuf : Type;
  (** [TWeakModel defaultModel(weakModelStructure)] *)
  DefaultModel : TWeakModelStructure -> TWeakModel;
  (** [model.Rescale(step)] *)
  Rescale : float -> TWeakModel -> TWeakModel;
  (** [optimizer.Fit()], from the permutation searched on and the targets
      set or added, one per fold: its slices and the cursor behind it *)
  StructureSearch : TIterationInput -> Z -> list (TFold * TBuf) -> TWeakModelStructure;
  (** [estimator.Estimate()]: the leaf values written to the destination of
      the [i]-th task, given every registered task as
      (permutation, slice, cursor) *)
  EstimateLeaves : TWeakModelStructure -> list (Z * TSlice * TBuf) -> nat -> TWeakModel;
  (** [addModelValue]: the cursor after the model's values on a slice of a
      data set were added to it *)
  AddModelValue : TWeakModelStructure -> TWeakModel -> TDataSetRef -> TSlice -> TBuf -> TBuf;
  (** the baseline column in the row order of a permutation, zeros when
      there is none *)
  Baseline : TDataSetRef -> TBuf
}.

Section FitLoop.

Variable Weak : TWeakLearner.

Local Abbreviation TWeakModelStructure := (TWeakModelStructure Weak).
Local Abbreviation TWeakModel := (TWeakModel Weak).
Local Abbreviation TBuf := (TBuf Weak).

(** Modelled from the spec: a mirror buffer ([TMirrorBuffer<float>]) is its
    mapping, of which the object count is kept, and its content;
    [GetObjectsSlice()] of a mapping of [n] objects is [TSlice(0, n)]. *)
Record TVec := {
  MappingSize : Z;
  Content : TBuf
}.

Definition GetObjectsSlice (v : TVec) : TSlice :=
  {| Left := 0; Right := MappingSize v |}.

(** [TVec::Create(mapping)] followed by [Write(baseline)] *)
Definition CreateAndWrite (mappingSize : Z) (baseline : TBuf) : TVec :=
  {| MappingSize := mappingSize; Content := baseline |}.

Definition TCursor := TFoldAndPermutationStorage TVec.

Record TEstimationTask := {
  TaskPermutation : Z;
  TaskSlice : TSlice;
  TaskCurrent : TBuf;
  TaskDst : TModelRef
}.

Definition task_view (task : TEstimationTask) : Z * TSlice * TBuf :=
  (TaskPermutation task, TaskSlice task, TaskCurrent task).

(** The task of fold 0 of permutation 0, on the cursor [point]. *)
Definition FoldZeroTask (fold : TFold) (point : TVec) : TEstimationTask :=
  {| TaskPermutation := 0;
     TaskSlice := EstimateSamples fold;
     TaskCurrent := Content point;
     TaskDst := FoldModel 0 0 |}.

(** What [Fit] holds besides its arguments: the cursors and the result. *)
Record TFitState := {
  Cursor : TCursor;
  TestCursor : option TVec;
  BestTestCursor : option TVec;
  Result : list TWeakModel        (* [TAdditiveModel]: the weak models, in order *)
}.

Variable Config : TBoostingOptions.
Variable dataSet : TFeatureParallelDataSetsHolder.
Variable permutationFolds : list (list TFold).

Definition isPlainWithoutAveraging : bool :=
  EBoostingType_eqb (BoostingType Config) Plain
  && (EstimationPermutation (PermutationsCount dataSet) =? 0).

Definition learnPermutations : list nat :=
  seq 0 (Z.to_nat (LearnPermutationCount (PermutationsCount dataSet))).

(** The lambda computing [weakModelStructure]: in plain mode the optimizer
    gets one target, over all the rows and the cursor of fold 0; in ordered
    mode one learn and validate pair per fold. *)
Definition SearchWeakModelStructure (input : TIterationInput) (cursor : TCursor)
    : outcome TWeakModelStructure :=
  let learnPermutationId :=
    LearnPermutationId (LearnPermutationCount (PermutationsCount dataSet))
                       (NextUniformL input) in
  taskFolds <- at_ permutationFolds (Z.to_nat learnPermutationId) ;;
  match BoostingType Config with
  | Plain =>
      ensure (Nat.eqb (length taskFolds) 1) PlainNeedsSingleFold ;;;
      let allSlice := {| Left := 0; Right := LearnObjectCount dataSet |} in
      point <- Get cursor (Z.to_nat learnPermutationId) 0 ;;
      Returned (StructureSearch Weak input learnPermutationId
                  [({| EstimateSamples := allSlice; QualityEvaluateSamples := allSlice |},
                    Content point)])
  | Ordered =>
      targets <- mapM (fun foldId =>
                         fold <- at_ taskFolds foldId ;;
                         point <- Get cursor (Z.to_nat learnPermutationId) foldId ;;
                         Returned (fold, Content point))
                      (seq 0 (length taskFolds)) ;;
      Returned (StructureSearch Weak input learnPermutationId targets)
  end.

(** The models before estimation: [defaultModel] for every fold of every
    learn permutation and for the estimation. *)
Definition DefaultModels (weakModelStructure : TWeakModelStructure)
    : outcome (TFoldAndPermutationStorage TWeakModel) :=
  let defaultModel := DefaultModel Weak weakModelStructure in
  foldData <- mapM (fun permutation =>
                      folds <- at_ permutationFolds permutation ;;
                      Returned (repeat defaultModel (length folds)))
                   learnPermutations ;;
  Returned {| FoldData := foldData; Estimation := defaultModel |}.

(** The tasks handed to [estimator.AddEstimationTask], in the order of the
    calls: one per fold of every learn permutation, then the one of the
    estimation permutation unless the mode is plain without an averaging
    permutation. *)
Definition FoldEstimationTasks (cursor : TCursor) : outcome (list TEstimationTask) :=
  perPermutation <-
    mapM (fun permutation =>
            folds <- at_ permutationFolds permutation ;;
            mapM (fun foldId =>
                    fold <- at_ folds foldId ;;
                    point <- Get cursor permutation foldId ;;
                    Returned {| TaskPermutation := Z.of_nat permutation;
                                TaskSlice := EstimateSamples fold;
                                TaskCurrent := Content point;
                                TaskDst := FoldModel permutation foldId |})
                 (seq 0 (length folds)))
         learnPermutations ;;
  Returned (concat perPermutation).

Definition EstimationTasks (cursor : TCursor) : outcome (list TEstimationTask) :=
  foldTasks <- FoldEstimationTasks cursor ;;
  if negb isPlainWithoutAveraging then
    let allSlice := {| Left := 0; Right := LearnObjectCount dataSet |} in
    Returned (foldTasks ++
              [{| TaskPermutation := EstimationPermutation (PermutationsCount dataSet);
                  TaskSlice := allSlice;
                  TaskCurrent := Content (Estimation cursor);
                  TaskDst := EstimationModel |}])
  else Returned foldTasks.

(** [estimator.Estimate(LocalExecutor)]: every task's destination gets the
    leaf values computed for it. *)
Definition Estimate (weakModelStructure : TWeakModelStructure)
    (tasks : list TEstimationTask)
    (models : TFoldAndPermutationStorage TWeakModel)
    : TFoldAndPermutationStorage TWeakModel :=
  fold_left (fun models numbered =>
               SetModel models (TaskDst (snd numbered))
                        (EstimateLeaves Weak weakModelStructure (map task_view tasks)
                                        (fst numbered)))
            (combine (seq 0 (length tasks)) tasks) models.

(** The models of one iteration: estimated, rescaled by the learning rate,
    and with the fallback of the plain mode applied. *)
Definition IterationModels (weakModelStructure : TWeakModelStructure) (cursor : TCursor)
    : outcome (TFoldAndPermutationStorage TWeakModel) :=
  models <- DefaultModels weakModelStructure ;;
  tasks <- EstimationTasks cursor ;;
  let models := Estimate weakModelStructure tasks models in
  let step := LearningRate Config in
  let models := Foreach (Rescale Weak step) models in
  if isPlainWithoutAveraging then
    fold0 <- Get models 0 0 ;;
    Returned {| FoldData := FoldData models; Estimation := fold0 |}
  else Returned models.

(** Writing through the reference [cursor.Get(permutation, foldId)]. *)
Definition SetCursor (foldData : list (list TVec)) (permutation foldId : nat)
    (point : TVec) : list (list TVec) :=
  set_nth foldData permutation (set_nth (nth permutation foldData []) foldId point).

(** One turn of the inner loop of "Append models time": the invariant check
    on the fold's cursor, then the fold's model is added to the cursor over
    the fold's whole range, in place. *)
Definition UpdateFoldCursor (weakModelStructure : TWeakModelStructure)
    (models : TFoldAndPermutationStorage TWeakModel)
    (permutation : nat) (folds : list TFold)
    (cursor : TCursor) (foldId : nat) : outcome TCursor :=
  fold <- at_ folds foldId ;;
  let allSlice := {| Left := 0; Right := Right (QualityEvaluateSamples fold) |} in
  point <- Get cursor permutation foldId ;;
  ensure (TSlice_eqb (GetObjectsSlice point) allSlice) CursorSliceMismatch ;;;
  model <- Get models permutation foldId ;;
  let point' :=
    {| MappingSize := MappingSize point;
       Content := AddModelValue Weak weakModelStructure model
                    (DataSetForPermutation (Z.of_nat permutation))
                    allSlice (Content point) |} in
  Returned {| FoldData := SetCursor (FoldData cursor) permutation foldId point';
              Estimation := Estimation cursor |}.

Definition UpdateFoldCursors (weakModelStructure : TWeakModelStructure)
    (models : TFoldAndPermutationStorage TWeakModel) (cursor : TCursor)
    : outcome TCursor :=
  foldM (fun cursor permutation =>
           folds <- at_ permutationFolds permutation ;;
           foldM (UpdateFoldCursor weakModelStructure models permutation folds)
                 (seq 0 (length folds)) cursor)
        learnPermutations cursor.

(** The block "Append models time": the estimation model goes into the test
    cursor and the estimation cursor, every fold model into its own cursor.
    Then [result->AddWeakModel(models.Estimation)]. *)
Definition AppendModels (weakModelStructure : TWeakModelStructure)
    (models : TFoldAndPermutationStorage TWeakModel) (state : TFitState)
    : outcome TFitState :=
  let estimationPermutation := EstimationPermutation (PermutationsCount dataSet) in
  let testCursor :=
    match TestCursor state with
    | Some point =>
        if HasTestDataSet dataSet then
          Some {| MappingSize := MappingSize point;
                  Content := AddModelValue Weak weakModelStructure (Estimation models)
                               TestDataSet (GetObjectsSlice point) (Content point) |}
        else Some point
    | None => None
    end in
  let estimationCursor :=
    let point := Estimation (Cursor state) in
    {| MappingSize := MappingSize point;
       Content := AddModelValue Weak weakModelStructure (Estimation models)
                    (DataSetForPermutation estimationPermutation)
                    (GetObjectsSlice point) (Content point) |} in
  cursor <- UpdateFoldCursors weakModelStructure models
              {| FoldData := FoldData (Cursor state); Estimation := estimationCursor |} ;;
  Returned {| Cursor := cursor;
              TestCursor := testCursor;
              BestTestCursor := BestTestCursor state;
              Result := Result state ++ [Estimation models] |}.

(** On the best test iteration the test cursor is copied into the best test
    cursor, behind [Y_VERIFY(testCursor)]. *)
Definition TrackBestTestCursor (input : TIterationInput) (state : TFitState)
    : outcome TFitState :=
  if IsBestTestIteration input then
    match BestTestCursor state, TestCursor state with
    | Some _, Some point =>
        Returned {| Cursor := Cursor state; TestCursor := TestCursor state;
                    BestTestCursor := Some point; Result := Result state |}
    | Some _, None => Failed NoTestCursor
    | None, _ => Returned state
    end
  else Returned state.

(** One pass of the [while] loop of [Fit]. *)
Definition FitIteration (input : TIterationInput) (state : TFitState)
    : outcome TFitState :=
  weakModelStructure <- SearchWeakModelStructure input (Cursor state) ;;
  models <- IterationModels weakModelStructure (Cursor state) ;;
  state <- AppendModels weakModelStructure models state ;;
  TrackBestTestCursor input state.

Fixpoint FitLoop (inputs : list TIterationInput) (state : TFitState)
    : outcome TFitState :=
  match inputs with
  | [] => Returned state
  | input :: inputs' => state <- FitIteration input state ;; FitLoop inputs' state
  end.

(** [Fit]: the progress tracker lets the loop run once per element of
    [inputs] and then reports that it should stop. *)
Definition Fit (inputs : list TIterationInput) (state : TFitState)
    : outcome TFitState :=
  ensure (PermutationsCount dataSet >=? 1) NoPermutations ;;;
  FitLoop inputs state.

(* ------------------------------------------------------------------ *)
(** *** Snapshots *)

(** Modelled from the spec: [TDynamicBoostingProgress], [MakeProgress],
    [WriteProgressToGpu] and the [Save]/[Load] pair are outside the sources.
    A progress holds the result model, every fold cursor, the estimation
    cursor and the test cursor; what was saved is what is loaded. *)
Record TDynamicBoostingProgress := {
  ProgressModel : list TWeakModel;
  ProgressCursor : TCursor;
  ProgressTestCursor : option TVec
}.

Definition MakeProgress (result : list TWeakModel) (cursor : TCursor)
    (testCursor : option TVec) : TDynamicBoostingProgress :=
  {| ProgressModel := result; ProgressCursor := cursor;
     ProgressTestCursor := testCursor |}.

(** The stream a snapshot is written to: the progress, then the dump of the
    best test cursor when there is one. *)
Record TSnapshot := {
  SavedProgress : TDynamicBoostingProgress;
  SavedBestTestCursor : option TVec
}.

(** The lambda [snapshotSaver] of [Fit].  The progress tracker calls it, if
    at all, at the top of a pass of the loop and once more after the loop:
    on the state the completed iterations have left. *)
Definition snapshotSaver (state : TFitState) : TSnapshot :=
  {| SavedProgress := MakeProgress (Result state) (Cursor state) (TestCursor state);
     SavedBestTestCursor := BestTestCursor state |}.

(** The lambda given to [MaybeRestoreFromSnapshot] in [Run]. *)
Definition RestoreFromSnapshot (snapshot : TSnapshot) (state : TFitState)
    : outcome TFitState :=
  let progress := SavedProgress snapshot in
  bestTestCursor <-
    match BestTestCursor state with
    | Some _ =>
        match SavedBestTestCursor snapshot with
        | Some saved => Returned (Some saved)
        | None => Failed SnapshotTruncated
        end
    | None => Returned None
    end ;;
  Returned {| Cursor := ProgressCursor progress;
              TestCursor := match TestCursor state with
                            | Some _ => ProgressTestCursor progress
                            | None => None
                            end;
              BestTestCursor := bestTestCursor;
              Result := ProgressModel progress |}.

End FitLoop.

(* ================================================================== *)
(** ** [CreateState] and [Run] *)

(** Modelled from the spec: the progress tracker is an outside collaborator.
    Of [TBoostingProgressTracker] the run sees whether the best test cursor
    is wanted, the snapshot to restore when there is one, and one input per
    iteration until [ShouldStop()] holds. *)
Record TBoostingProgressTracker (Weak : TWeakLearner) := {
  NeedBestTestCursor : bool;
  SnapshotToRestore : option (TSnapshot Weak);
  Iterations : list TIterationInput
}.
Arguments NeedBestTestCursor {Weak} _.
Arguments SnapshotToRestore {Weak} _.
Arguments Iterations {Weak} _.

Section Run.

Variable Weak : TWeakLearner.
Variable Config : TBoostingOptions.
Variable devCount : Z.

Record TBoostingState := {
  DataSets : TFeatureParallelDataSetsHolder;
  PermutationFolds : list (list TFold);
  StateCursor : TCursor Weak;
  StateTestCursor : option (TVec Weak);
  StateBestTestCursor : option (TVec Weak)
}.

(** [CreateTarget]: the objective of a data set, refused on an empty slice. *)
Definition CreateTarget (objectCount : Z) : outcome unit :=
  ensure (negb (objectCount =? 0)) EmptyTargetSlice.

(** The fold cursors of learn permutation [i]: one buffer per fold, over the
    mapping [TMirrorMapping(fold.QualityEvaluateSamples.Right)], with the
    baseline written to it. *)
Definition CreateFoldCursors (i : nat) (folds : list TFold) : list (TVec Weak) :=
  map (fun fold =>
         CreateAndWrite Weak (Right (QualityEvaluateSamples fold))
                        (Baseline Weak (DataSetForPermutation (Z.of_nat i))))
      folds.

Definition CreateState (DataProvider TestDataProvider : option TTrainingDataProvider)
    : outcome TBoostingState :=
  dataSets <- CreateDataSet Config DataProvider TestDataProvider ;;
  mapM (fun _ : nat => CreateTarget (LearnObjectCount dataSets))
       (seq 0 (Z.to_nat (PermutationsCount dataSets))) ;;;
  testCursor <-
    match TestObjectCount dataSets with
    | Some testCount =>
        CreateTarget testCount ;;;
        Returned (Some (CreateAndWrite Weak testCount (Baseline Weak TestDataSet)))
    | None => Returned None
    end ;;
  let estimationPermutation := EstimationPermutation (PermutationsCount dataSets) in
  let learnPermutationCount := LearnPermutationCount (PermutationsCount dataSets) in
  permutationFolds <-
    mapM (fun i => CreateFolds Config devCount (wrap32 (LearnObjectCount dataSets))
                               (FoldLenMultiplier Config) (SamplesGrouping dataSets i))
         (seq 0 (Z.to_nat learnPermutationCount)) ;;
  Returned {|
    DataSets := dataSets;
    PermutationFolds := permutationFolds;
    StateCursor :=
      {| FoldData := map (fun numbered => CreateFoldCursors (fst numbered) (snd numbered))
                         (combine (seq 0 (length permutationFolds)) permutationFolds);
         Estimation := CreateAndWrite Weak (LearnObjectCount dataSets)
                         (Baseline Weak (DataSetForPermutation estimationPermutation)) |};
    StateTestCursor := testCursor;
    StateBestTestCursor := None
  |}.

(** What [Fit] starts from in [Run]: the cursors of the state, an empty
    result model, and a best test cursor over the test cursor's mapping when
    the tracker needs one. *)
Definition StartState (state : TBoostingState) (needBestTestCursor : bool)
    : TFitState Weak :=
  {| Cursor := StateCursor state;
     TestCursor := StateTestCursor state;
     BestTestCursor :=
       if needBestTestCursor then
         Some (match StateTestCursor state with
               | Some point => point
               | None => CreateAndWrite Weak 0 (Baseline Weak TestDataSet)
               end)
       else None;
     Result := [] |}.

(** [Run], with the state [Fit] ends in; [Run] itself returns the result
    model of that state. *)
Definition RunToState (DataProvider TestDataProvider : option TTrainingDataProvider)
    (ProgressTracker : option (TBoostingProgressTracker Weak))
    : outcome (TFitState Weak) :=
  ensure (match DataProvider with Some _ => true | None => false end) NoDataProvider ;;;
  match ProgressTracker with
  | None => Failed NoProgressTracker
  | Some tracker =>
      state <- CreateState DataProvider TestDataProvider ;;
      let start := StartState state (NeedBestTestCursor tracker) in
      start <- match SnapshotToRestore tracker with
               | Some snapshot => RestoreFromSnapshot Weak snapshot start
               | None => Returned start
               end ;;
      Fit Weak Config (DataSets state) (PermutationFolds state) (Iterations tracker) start
  end.

Definition Run (DataProvider TestDataProvider : option TTrainingDataProvider)
    (ProgressTracker : option (TBoostingProgressTracker Weak))
    : outcome (list (TWeakModel Weak)) :=
  state <- RunToState DataProvider TestDataProvider ProgressTracker ;;
  Returned (Result Weak state).

End Run.

(* ================================================================== *)
(** ** Predicates of the proofs *)

(** The right end of the last task slice, 0 when there is none. *)
Definition PointEnd (estimator : TObliviousTreeLeavesEstimator) : Z :=
  Right (last (TaskSlices estimator) {| Left := 0; Right := 0 |}).

(** What the loop of [CreateFolds] keeps true of the folds built so far. *)
Definition folds_linked (folds : list TFold) : Prop :=
  forall i f f', nth_error folds i = Some f -> nth_error folds (S i) = Some f' ->
    Right (EstimateSamples f') = Right (QualityEvaluateSamples f) /\
    Right (QualityEvaluateSamples f) < Right (QualityEvaluateSamples f').

Definition folds_invariant (G : IQueriesGrouping) (sampleCount : Z)
    (folds : list TFold) : Prop :=
  folds <> [] /\
  (forall f, In f folds -> Left (EstimateSamples f) = 0) /\
  folds_linked folds /\
  (forall f, In f folds -> fold_offsets_aligned G sampleCount f) /\
  0 < Right (QualityEvaluateSamples (back folds)) <= sampleCount.

(** Every failure of [m] is one of the errors [P] allows. *)
Definition only_fails {A} (P : TError -> Prop) (m : outcome A) : Prop :=
  forall e, m = Failed e -> P e.

Definition not_slice_mismatch (e : TError) : Prop := e <> CursorSliceMismatch.

(** The mapping sizes of the fold cursors, and the evaluate-right ends of
    the folds they belong to. *)
Definition CursorSizes {Weak} (cursor : TCursor Weak) : list (list Z) :=
  map (map (MappingSize Weak)) (FoldData cursor).

Definition FoldSizes (permutationFolds : list (list TFold)) : list (list Z) :=
  map (map (fun fold => Right (QualityEvaluateSamples fold))) permutationFolds.

(** The invariant the check of "Append models time" tests: the cursor of
    every fold of every learn permutation covers [(0, evaluate-right)]. *)
Definition cursor_slices_match {Weak} (permutationFolds : list (list TFold))
    (cursor : TCursor Weak) : Prop :=
  forall permutation foldId folds fold point,
    nth_error permutationFolds permutation = Some folds ->
    nth_error folds foldId = Some fold ->
    Get cursor permutation foldId = Returned point ->
    GetObjectsSlice Weak point
    = {| Left := 0; Right := Right (QualityEvaluateSamples fold) |}.

(* ------------------------------------------------------------------ *)
(** *** Deciding the promises of a grouping and of a growth rate *)

(** The integers [0 .. n-1]. *)
Definition Zrange (n : Z) : list Z := map Z.of_nat (seq 0 (Z.to_nat n)).

Definition is_group_offsetb (G : IQueriesGrouping) (sampleCount b : Z) : bool :=
  (b =? sampleCount)
  || existsb (fun q => GetQueryOffset G q =? b) (Zrange (GetQueryCount G)).

Definition grouping_okb (G : IQueriesGrouping) (sampleCount : Z) : bool :=
  (GetQueryCount G <=? sampleCount)
  && ((GetQueryCount G <=? 0) || (GetQueryOffset G 0 =? 0))
  && forallb (fun q => (0 <=? GetQueryOffset G q) && (GetQueryOffset G q <=? sampleCount))
             (Zrange (GetQueryCount G))
  && forallb (fun line => (line <? NextQueryOffsetForLine G line)
                          && (NextQueryOffsetForLine G line <=? sampleCount))
             (Zrange sampleCount)
  && (NextQueryOffsetForLine G sampleCount =? sampleCount)
  && forallb (fun line => is_group_offsetb G sampleCount (NextQueryOffsetForLine G line))
             (Zrange (sampleCount + 1)).

Definition products_fitb (sampleCount : Z) (growthRate : float) : bool :=
  forallb (fun r => (r <=? 0)
                    || PrimFloat.ltb (PrimFloat.mul (ui32_to_double r) growthRate) 4294967296)
          (Zrange (sampleCount + 1)).

(* ================================================================== *)
(** ** Runs with and without a snapshot to restore *)

(** A tracker that restores no snapshot. *)
Definition FreshTracker {Weak} (needBestTestCursor : bool)
    (inputs : list TIterationInput) : TBoostingProgressTracker Weak :=
  {| NeedBestTestCursor := needBestTestCursor;
     SnapshotToRestore := None;
     Iterations := inputs |}.

(** A tracker that restores the snapshot saved from the state [saved]. *)
Definition ResumingTracker {Weak} (needBestTestCursor : bool)
    (saved : TFitState Weak) (inputs : list TIterationInput)
    : TBoostingProgressTracker Weak :=
  {| NeedBestTestCursor := needBestTestCursor;
     SnapshotToRestore := Some (snapshotSaver Weak saved);
     Iterations := inputs |}.

(* ================================================================== *)
(** ** Concrete inputs *)

(** The inputs the examples below run the code on. *)

Definition Config_large : TBoostingOptions :=
  {| PermutationBlockSize := 32; PermutationCount := 4; MinFoldSize := 100;
     BoostingType := Ordered; LearningRate := 0.5%float; FoldLenMultiplier := 2%float |}.

Definition Config_small : TBoostingOptions :=
  {| PermutationBlockSize := 32; PermutationCount := 2; MinFoldSize := 100;
     BoostingType := Ordered; LearningRate := 0.5%float; FoldLenMultiplier := 1.5%float |}.

(** A growth rate above 1.0 whose products with the sizes of the folds are
    beyond the [ui32] range, [2^31 + 13/16], and a minimum fold size of 11. *)
Definition Config_wrapping : TBoostingOptions :=
  {| PermutationBlockSize := 32; PermutationCount := 2; MinFoldSize := 11;
     BoostingType := Ordered; LearningRate := 0.5%float;
     FoldLenMultiplier := 2147483648.8125%float |}.

(** A configured minimum fold size of 0. *)
Definition Config_zero_fold_size : TBoostingOptions :=
  {| PermutationBlockSize := 32; PermutationCount := 2; MinFoldSize := 0;
     BoostingType := Ordered; LearningRate := 0.5%float; FoldLenMultiplier := 2%float |}.

(** [Config] with another permutation block size. *)
Definition WithPermutationBlockSize (Config : TBoostingOptions) (blockSize : Z)
    : TBoostingOptions :=
  {| PermutationBlockSize := blockSize;
     PermutationCount := PermutationCount Config;
     MinFoldSize := MinFoldSize Config;
     BoostingType := BoostingType Config;
     LearningRate := LearningRate Config;
     FoldLenMultiplier := FoldLenMultiplier Config |}.

(** Six groups over twelve rows. *)
Definition SixGroups : IQueriesGrouping := TQueriesGrouping [0; 2; 3; 6; 7; 9] 12.

(* ------------------------------------------------------------------ *)
(** *** A small weak learner and its runs *)

(** Models and buffers are integers: a structure is a number made of the
    iteration, the permutation searched on and the number of targets; the
    leaf value of a task depends on the structure and on the task's
    position; adding a model adds its value to the buffer. *)
Definition SmallLearner : TWeakLearner := {|
  TWeakModelStructure := Z;
  TWeakModel := Z;
  TBuf := Z;
  DefaultModel := fun _ => 0;
  Rescale := fun step model => double_to_ui32 (PrimFloat.mul step (ui32_to_double model));
  StructureSearch := fun input permutation targets =>
    10 * GetCurrentIteration input + permutation + Z.of_nat (length targets);
  EstimateLeaves := fun structure tasks taskId => 4 * (structure + Z.of_nat taskId);
  AddModelValue := fun _ model _ _ buffer => buffer + model;
  Baseline := fun _ => 0
|}.

Definition SmallPool : TTrainingDataProvider := {|
  GetObjectCount := 12;
  GetOrder := NCB.Undefined;
  BaselineCount := 0;
  GroupingOf := fun _ => SixGroups
|}.

Definition SmallTestPool : TTrainingDataProvider := {|
  GetObjectCount := 5;
  GetOrder := NCB.Undefined;
  BaselineCount := 0;
  GroupingOf := fun _ => TWithoutQueriesGrouping 5
|}.

Definition Iteration (n : Z) (random : Z) (best : bool) : TIterationInput :=
  {| NextUniformL := random; GetCurrentIteration := n; IsBestTestIteration := best |}.

(** The value a run returned, [d] when it did not return. *)
Definition returned_or {A} (d : A) (m : outcome A) : A :=
  match m with Returned a => a | _ => d end.

Definition EmptyState : TFitState SmallLearner :=
  {| Cursor := {| FoldData := []; Estimation := CreateAndWrite SmallLearner 0 0 |};
     TestCursor := None; BestTestCursor := None; Result := [] |}.

(** Two iterations, a third one for the run that is not interrupted, and
    two iterations with other random values for the run that resumes. *)
Definition FirstIterations : list TIterationInput :=
  [Iteration 0 7 true; Iteration 1 8 false].
Definition ThirdIteration : list TIterationInput := [Iteration 2 9 true].
Definition ResumedIterations : list TIterationInput :=
  [Iteration 4 5 false; Iteration 5 6 true].

Definition InterruptedState : TFitState SmallLearner :=
  Eval vm_compute in
    returned_or EmptyState
      (RunToState SmallLearner Config_small 1 (Some SmallPool) (Some SmallTestPool)
         (Some (FreshTracker true FirstIterations))).

Definition UninterruptedState : TFitState SmallLearner :=
  Eval vm_compute in
    returned_or EmptyState
      (RunToState SmallLearner Config_small 1 (Some SmallPool) (Some SmallTestPool)
         (Some (FreshTracker true (FirstIterations ++ ThirdIteration)))).

Definition ResumedState : TFitState SmallLearner :=
  Eval vm_compute in
    returned_or EmptyState
      (RunToState SmallLearner Config_small 1 (Some SmallPool) (Some SmallTestPool)
         (Some (ResumingTracker true InterruptedState ResumedIterations))).

(** Plain boosting on a single permutation: the pool of twelve rows, one
    fold, and the state before the first iteration. *)
Definition Config_plain : TBoostingOptions :=
  {| PermutationBlockSize := 32; PermutationCount := 1; MinFoldSize := 100;
     BoostingType := Plain; LearningRate := 0.5%float; FoldLenMultiplier := 1.5%float |}.

Definition PlainDataSet : TFeatureParallelDataSetsHolder :=
  BuildDataSet SmallPool None 1 1.

Definition PlainStart : TFitState SmallLearner :=
  {| Cursor := {| FoldData := [[CreateAndWrite SmallLearner 12 0]];
                  Estimation := CreateAndWrite SmallLearner 12 0 |};
     TestCursor := None; BestTestCursor := None; Result := [] |}.

Definition PlainAfter : TFitState SmallLearner :=
  Eval vm_compute in
    returned_or EmptyState
      (FitIteration SmallLearner Config_plain PlainDataSet [plain_folds 12]
         (Iteration 3 7 false) PlainStart).

(** A thousand rows without groups, growth rate 2. *)
Definition Config_thousand : TBoostingOptions :=
  {| PermutationBlockSize := 32; PermutationCount := 2; MinFoldSize := 100;
     BoostingType := Ordered; LearningRate := 0.5%float; FoldLenMultiplier := 2%float |}.

(* ================================================================== *)
(** ** Predicates of the further properties *)

(** Every two neighbours of a list are related by [R]. *)
Definition adjacent {A} (R : A -> A -> Prop) (l : list A) : Prop :=
  forall i a a', nth_error l i = Some a -> nth_error l (S i) = Some a' -> R a a'.

(** How the loop of [CreateFolds] builds a fold from the one before it. *)
Definition grown_from (sampleCount : Z) (f f' : TFold) : Prop :=
  Right (EstimateSamples f') = Right (QualityEvaluateSamples f) /\
  Right (QualityEvaluateSamples f) < sampleCount.

(** A row of a half-open slice. *)
Definition in_slice (row : Z) (slice : TSlice) : Prop :=
  Left slice <= row < Right slice.

(** The shape every fold of the ordered mode has. *)
Definition fold_shape (f : TFold) : Prop :=
  Left (EstimateSamples f) = 0 /\
  Left (QualityEvaluateSamples f) = Right (EstimateSamples f).

(** Whether an optional buffer is there. *)
Definition present {A} (o : option A) : bool :=
  match o with Some _ => true | None => false end.

(** No error is excluded. *)
Definition any_error (e : TError) : Prop := True.

(* ------------------------------------------------------------------ *)
(** *** The small run, step by step *)

(** What [Run] hands to [Fit] on the two small pools when the best test
    cursor is wanted: the data set, the folds of the one learn permutation
    and the start state; and the state after the first iteration. *)
Definition SmallDataSet : TFeatureParallelDataSetsHolder :=
  BuildDataSet SmallPool (Some SmallTestPool) (GetPermutationBlockSize Config_small 12) 2.

Definition SmallFolds : list (list TFold) :=
  Eval vm_compute in
    returned_or []
      (mapM (fun i => CreateFolds Config_small 1 12 (FoldLenMultiplier Config_small)
                                  (SamplesGrouping SmallDataSet i))
            [0%nat]).

Definition SmallStart : TFitState SmallLearner :=
  Eval vm_compute in
    match CreateState SmallLearner Config_small 1 (Some SmallPool) (Some SmallTestPool) with
    | Returned state => StartState SmallLearner state true
    | _ => EmptyState
    end.

Definition AfterFirstIteration : TFitState SmallLearner :=
  Eval vm_compute in
    returned_or EmptyState
      (Fit SmallLearner Config_small SmallDataSet SmallFolds [Iteration 0 7 true] SmallStart).

(* ------------------------------------------------------------------ *)
(** *** Predicates of the completion of a run *)

(** [m] returns a value: it neither fails nor runs out of fuel. *)
Definition returns {A} (m : outcome A) : Prop := exists a, m = Returned a.

(** How many entries a storage has for each permutation, and how many folds
    each learn permutation has. *)
Definition Shape {TData} (storage : TFoldAndPermutationStorage TData) : list nat :=
  map (@length TData) (FoldData storage).

Definition FoldCounts (permutationFolds : list (list TFold)) : list nat :=
  map (@length TFold) permutationFolds.

(** What [Fit] needs of the state it is started on: every fold cursor has
    the mapping of its fold, and a best test cursor comes with a test
    cursor. *)
Definition Ready {Weak} (permutationFolds : list (list TFold))
    (state : TFitState Weak) : Prop :=
  CursorSizes (Cursor Weak state) = FoldSizes permutationFolds /\
  (present (BestTestCursor Weak state) = true -> present (TestCursor Weak state) = true).

(* ================================================================== *)
(** ** Cross-validation: the train subsets of the folds *)

(** Modelled from the spec: [TArraySubsetIndexing<ui32>] is outside the
    sources.  A subset is the list of the source indices [ForEach] visits,
    in the order it visits them, and [Size()] is its length. *)
Definition TArraySubsetIndexing : Type := list Z.

(** The innermost loop of [CalcTrainSubsets]: [srcIdx] is pushed to the
    train indices of every fold but [testFold]. *)
Definition PushToOtherFolds (testFold : nat) (trainSubsetIndices : list (list Z))
    (srcIdx : Z) : list (list Z) :=
  fold_left (fun train fold =>
               if Nat.eqb testFold fold then train
               else set_nth train fold (nth fold train [] ++ [srcIdx]))
            (seq 0 (length trainSubsetIndices)) trainSubsetIndices.

(** [groupCount] is only used to reserve room: it changes no content. *)
Definition CalcTrainSubsets (testSubsets : list TArraySubsetIndexing) (groupCount : Z)
    : list TArraySubsetIndexing :=
  let trainSubsetIndices := repeat [] (length testSubsets) in
  fold_left (fun train numbered =>
               fold_left (PushToOtherFolds (fst numbered)) (snd numbered) train)
            (combine (seq 0 (length testSubsets)) testSubsets)
            trainSubsetIndices.

(** The room the first loop reserves for the train indices of [fold]. *)
Definition ReservedTrainSize (testSubsets : list TArraySubsetIndexing) (groupCount : Z)
    (fold : nat) : Z :=
  wrap32 (groupCount - Z.of_nat (length (nth fold testSubsets []))).

(** The test subsets before and after fold [k]. *)
Definition OtherFolds {A} (k : nat) (subsets : list A) : list A :=
  firstn k subsets ++ skipn (S k) subsets.

(* ================================================================== *)
(** ** Cross-validation: the metric values of a fold *)

(** The [int] an unsigned value is converted to. *)
Definition to_int (x : Z) : Z := (x + 2 ^ 31) mod 2 ^ 32 - 2 ^ 31.

(** What [DivisibleOrLastIteration] returns for a period other than 0; [%]
    truncates, as [Z.rem] does. *)
Definition DivisibleOrLast (currentIteration iterationsCount period : Z) : bool :=
  (Z.rem currentIteration period =? 0) || (currentIteration =? iterationsCount - 1).

(** [errorTrackerMetricIdx], in the callback and in [CrossValidate]. *)
Definition ErrorTrackerMetricIdx (calcMetrics isErrorTrackerActive : bool) : Z :=
  let calcErrorTrackerMetric := calcMetrics || isErrorTrackerActive in
  if calcErrorTrackerMetric then 0 else -1.

(** The test [!calcMetrics && metricIdx != errorTrackerMetricIdx] on which
    both loops over the metrics go on to the next metric. *)
Definition SkipsMetric (calcMetrics : bool) (errorTrackerMetricIdx metricIdx : Z) : bool :=
  negb calcMetrics && negb (metricIdx =? errorTrackerMetricIdx).

(** What cross-validation stops on. *)
Inductive TCvError :=
| HistoryIsEmpty            (* [Y_VERIFY(TimeHistory.size() > 0)] *)
| MetricNotInHistory        (* [at] on a description that is not there *)
| PoolIsEmpty               (* "Pool is empty" *)
| PoolTooSmallForFolds      (* "Pool is too small to be split into folds" *)
| OrderedNotImplemented     (* "... for Ordered objects data is not yet implemented" *)
| DivisionByZero.           (* an integer division by 0 *)

Inductive cv_outcome (A : Type) :=
| CvReturned (a : A)
| CvFailed (e : TCvError).
Arguments CvReturned {A} _.
Arguments CvFailed {A} _.

Definition cv_bind {A B} (m : cv_outcome A) (k : A -> cv_outcome B) : cv_outcome B :=
  match m with
  | CvReturned a => k a
  | CvFailed e => CvFailed e
  end.

Fixpoint cv_foldM {A S} (f : S -> A -> cv_outcome S) (l : list A) (s : S) : cv_outcome S :=
  match l with
  | [] => CvReturned s
  | a :: l' => cv_bind (f s a) (cv_foldM f l')
  end.

(** [DivisibleOrLastIteration]: the remainder [currentIteration % period] is
    the first thing it computes, an integer division that has no result for
    a period of 0. *)
Definition DivisibleOrLastIteration (currentIteration iterationsCount period : Z)
    : cv_outcome bool :=
  if period =? 0 then CvFailed DivisionByZero
  else CvReturned (DivisibleOrLast currentIteration iterationsCount period).

(** [TFoldContext], the parts the callback writes: the metric values by
    iteration and, within an iteration, in the order they were pushed. *)
Record TFoldContext := {
  MetricValuesOnTrain : list (list float);
  MetricValuesOnTest : list (list float)
}.

(** [rows.resize(n)] *)
Definition resize_rows (rows : list (list float)) (n : nat) : list (list float) :=
  firstn n rows ++ repeat [] (n - length rows).

(** [rows[i].push_back(x)] *)
Definition push_back_row (rows : list (list float)) (i : nat) (x : float)
    : list (list float) :=
  set_nth rows i (nth i rows [] ++ [x]).

Section FoldContext.

(** The description of a metric, a [TString]. *)
Variable TString : Type.

(** Modelled from the spec: [TMetricsAndTimeLeftHistory] is outside the
    sources.  The callback reads the length of [TimeHistory] and, by the
    description of a metric, the last learn metrics and the last metrics of
    the first test set; [at] fails on a description that is not there. *)
Record TMetricsAndTimeLeftHistory := {
  TimeHistorySize : Z;
  LastLearnMetrics : TString -> option float;
  LastTestMetrics : TString -> option float
}.

Definition at_description (values : TString -> option float) (description : TString)
    : cv_outcome float :=
  match values description with
  | Some value => CvReturned value
  | None => CvFailed MetricNotInHistory
  end.

Variable metrics : list TString.
Variable skipMetricOnTrain : list bool.

(** The metrics with their indices, as [xrange((int)metrics.size())] and
    [metrics[metricIdx]] give them. *)
Definition NumberedMetrics : list (Z * TString) :=
  combine (Zrange (Z.of_nat (length metrics))) metrics.

(** One turn of the loop over the metrics in the callback. *)
Definition StoreMetric (history : TMetricsAndTimeLeftHistory) (calcMetrics : bool)
    (errorTrackerMetricIdx : Z) (iteration : nat)
    (context : TFoldContext) (metric : Z * TString) : cv_outcome TFoldContext :=
  let (metricIdx, metricDescription) := metric in
  if SkipsMetric calcMetrics errorTrackerMetricIdx metricIdx then CvReturned context
  else
    cv_bind (if nth (Z.to_nat metricIdx) skipMetricOnTrain false
             then CvReturned 0%float
             else at_description (LastLearnMetrics history) metricDescription)
      (fun train =>
         cv_bind (at_description (LastTestMetrics history) metricDescription)
           (fun test =>
              CvReturned
                {| MetricValuesOnTrain :=
                     push_back_row (MetricValuesOnTrain context) iteration train;
                   MetricValuesOnTest :=
                     push_back_row (MetricValuesOnTest context) iteration test |})).

(** The callback [TrainUpToIteration] gives to the trainer: the context it
    leaves and whether the training goes on. *)
Definition TrainUpToIterationCallback (upToIteration globalMaxIteration metricPeriod : Z)
    (isErrorTrackerActive : bool) (history : TMetricsAndTimeLeftHistory)
    (context : TFoldContext) : cv_outcome (TFoldContext * bool) :=
  if negb (TimeHistorySize history >? 0) then CvFailed HistoryIsEmpty
  else
    let iteration := TimeHistorySize history - 1 in
    if iteration <? Z.of_nat (length (MetricValuesOnTest context))
    then CvReturned (context, true)          (* replay *)
    else
      cv_bind (DivisibleOrLastIteration (to_int iteration) (to_int globalMaxIteration)
                                        metricPeriod)
        (fun calcMetrics =>
           let errorTrackerMetricIdx :=
             ErrorTrackerMetricIdx calcMetrics isErrorTrackerActive in
           let resized :=
             {| MetricValuesOnTrain :=
                  resize_rows (MetricValuesOnTrain context) (Z.to_nat (iteration + 1));
                MetricValuesOnTest :=
                  resize_rows (MetricValuesOnTest context) (Z.to_nat (iteration + 1)) |} in
           cv_bind (cv_foldM (StoreMetric history calcMetrics errorTrackerMetricIdx
                                          (Z.to_nat iteration))
                             NumberedMetrics resized)
             (fun context' => CvReturned (context', iteration + 1 <? upToIteration))).

End FoldContext.

Arguments TimeHistorySize {TString} _.
Arguments LastLearnMetrics {TString} _ _.
Arguments LastTestMetrics {TString} _ _.

(** What the loop over the metrics in [CrossValidate] reads of a fold for a
    metric it does not skip: [MetricValuesOnTrain[iteration][metricIdx]] and
    [MetricValuesOnTest[iteration][metricIdx]]; nothing where an index is
    outside its vector. *)
Definition ReadMetric (context : TFoldContext) (iteration metricIdx : nat)
    : option (float * float) :=
  match nth_error (MetricValuesOnTrain context) iteration,
        nth_error (MetricValuesOnTest context) iteration with
  | Some trainRow, Some testRow =>
      match nth_error trainRow metricIdx, nth_error testRow metricIdx with
      | Some train, Some test => Some (train, test)
      | _, _ => None
      end
  | _, _ => None
  end.

(** What the callback pushes for a metric: the value of the last test
    metrics, and of the last learn metrics unless the metric is skipped on
    train, where it pushes 0. *)
Definition StoredOnTest {TString} (history : TMetricsAndTimeLeftHistory TString)
    (metric : Z * TString) (value : float) : Prop :=
  LastTestMetrics history (snd metric) = Some value.

Definition StoredOnTrain {TString} (skipMetricOnTrain : list bool)
    (history : TMetricsAndTimeLeftHistory TString)
    (metric : Z * TString) (value : float) : Prop :=
  if nth (Z.to_nat (fst metric)) skipMetricOnTrain false
  then value = 0%float
  else LastLearnMetrics history (snd metric) = Some value.

(** The metrics a pass of one of the loops does not skip. *)
Definition KeepsMetric {TString} (calcMetrics isErrorTrackerActive : bool)
    (metric : Z * TString) : bool :=
  negb (SkipsMetric calcMetrics (ErrorTrackerMetricIdx calcMetrics isErrorTrackerActive)
                    (fst metric)).

(* ------------------------------------------------------------------ *)
(** *** Two metrics, the second iteration of a fold *)

(** Metrics 10 and 20 with a metric period of 2 and an active error
    tracker: in iteration 1 only the metric of the error tracker is
    stored. *)
Definition TwoMetrics : list Z := [10; 20].

Definition SecondHistory : TMetricsAndTimeLeftHistory Z :=
  {| TimeHistorySize := 2;
     LastLearnMetrics := fun d => if d =? 10 then Some 0.125%float
                                  else if d =? 20 then Some 0.0625%float else None;
     LastTestMetrics := fun d => if d =? 10 then Some 2%float
                                 else if d =? 20 then Some 4%float else None |}.

Definition AfterFirstCallback : TFoldContext :=
  {| MetricValuesOnTrain := [[0.5%float; 0.25%float]];
     MetricValuesOnTest := [[0.75%float; 1%float]] |}.

Definition AfterSecondCallback : TFoldContext :=
  {| MetricValuesOnTrain := [[0.5%float; 0.25%float]; [0.125%float]];
     MetricValuesOnTest := [[0.75%float; 1%float]; [2%float]] |}.

(* ================================================================== *)
(** ** Cross-validation: the sizes of the split *)

(** Modelled from the spec: [TCrossValidationParams] is outside the sources;
    [FoldCount] and [IterationsBatchSize] are [ui32] values. *)
Record TCrossValidationParams := {
  FoldCount : Z;
  Inverted : bool;
  IterationsBatchSize : Z
}.

(** The first lines of [CrossValidate]: the checks on the pool, then the
    train size and the test pool size given to [SetDataDependentDefaults].
    The checks let a fold count of 0 through to the division. *)
Definition CvTrainAndTestSize (allDataObjectCount : Z) (order : NCB.EObjectsOrder)
    (cvParams : TCrossValidationParams) : cv_outcome (Z * Z) :=
  if allDataObjectCount =? 0 then CvFailed PoolIsEmpty
  else if negb (allDataObjectCount >? FoldCount cvParams) then CvFailed PoolTooSmallForFolds
  else
    match order with
    | NCB.Ordered => CvFailed OrderedNotImplemented
    | _ =>
        if FoldCount cvParams =? 0 then CvFailed DivisionByZero
        else
          let oneFoldSize := allDataObjectCount / FoldCount cvParams in
          let cvTrainSize :=
            if Inverted cvParams then oneFoldSize
            else wrap32 (oneFoldSize * wrap32 (FoldCount cvParams - 1)) in
          CvReturned (cvTrainSize, wrap32 (allDataObjectCount - cvTrainSize))
    end.

(* ================================================================== *)
(** ** [TStaticCtrProvider]: the tables of the learn ctrs *)

Section StaticCtrProvider.

(** Modelled from the spec: [TModelCtrBase], [TCtrValueTable] and [TCtrData]
    are outside the sources.  Bases can be compared; a table has its
    [ModelCtrBase]; a default-constructed table is [EmptyTable];
    [MovedFrom table] is what a table is left as once it was moved from;
    [LearnCtrs] is a hash map from bases to tables. *)
Variable TModelCtrBase : Type.
Variable base_eqb : TModelCtrBase -> TModelCtrBase -> bool.
Variable TCtrValueTable : Type.
Variable ModelCtrBase : TCtrValueTable -> TModelCtrBase.
Variable EmptyTable : TCtrValueTable.
Variable MovedFrom : TCtrValueTable -> TCtrValueTable.

Definition TLearnCtrs : Type := TModelCtrBase -> option TCtrValueTable.

Definition NoCtrs : TLearnCtrs := fun _ => None.

Definition SetCtr (ctrs : TLearnCtrs) (base : TModelCtrBase) (table : TCtrValueTable)
    : TLearnCtrs :=
  fun b => if base_eqb b base then Some table else ctrs b.

(** [ctrs[base]]: the table of the base; a default-constructed one is
    inserted when the map has none. *)
Definition IndexCtr (ctrs : TLearnCtrs) (base : TModelCtrBase)
    : TLearnCtrs * TCtrValueTable :=
  match ctrs base with
  | Some table => (ctrs, table)
  | None => (SetCtr ctrs base EmptyTable, EmptyTable)
  end.

(** [AddCtrCalcerData]: [CtrData.LearnCtrs[ctrBase] = std::move(valueTable)] *)
Definition AddCtrCalcerData (LearnCtrs : TLearnCtrs) (valueTable : TCtrValueTable)
    : TLearnCtrs :=
  let ctrBase := ModelCtrBase valueTable in
  SetCtr (fst (IndexCtr LearnCtrs ctrBase)) ctrBase valueTable.

(** One turn of the loop of [DropUnusedTables], on the new and the old map:
    [ctrData.LearnCtrs[base] = std::move(CtrData.LearnCtrs[base])]. *)
Definition MoveTable (maps : TLearnCtrs * TLearnCtrs) (base : TModelCtrBase)
    : TLearnCtrs * TLearnCtrs :=
  let (ctrData, CtrData) := maps in
  let (CtrData, source) := IndexCtr CtrData base in
  let (ctrData, _) := IndexCtr ctrData base in
  (SetCtr ctrData base source, SetCtr CtrData base (MovedFrom source)).

(** [DropUnusedTables]: the map the provider has after the swap. *)
Definition DropUnusedTables (LearnCtrs : TLearnCtrs) (usedModelCtrBase : list TModelCtrBase)
    : TLearnCtrs :=
  fst (fold_left MoveTable usedModelCtrBase (NoCtrs, LearnCtrs)).

(** The table [ctrs[base]] reads. *)
Definition TableOrEmpty (ctrs : TLearnCtrs) (base : TModelCtrBase) : TCtrValueTable :=
  match ctrs base with
  | Some table => table
  | None => EmptyTable
  end.

(** How often a base is listed. *)
Definition TimesListed (base : TModelCtrBase) (bases : list TModelCtrBase) : nat :=
  length (filter (base_eqb base) bases).

End StaticCtrProvider.

Arguments NoCtrs {TModelCtrBase TCtrValueTable}.
Arguments SetCtr {TModelCtrBase} base_eqb {TCtrValueTable} _ _ _.
Arguments IndexCtr {TModelCtrBase} base_eqb {TCtrValueTable} EmptyTable _ _.
Arguments AddCtrCalcerData {TModelCtrBase} base_eqb {TCtrValueTable} ModelCtrBase
  EmptyTable _ _.
Arguments MoveTable {TModelCtrBase} base_eqb {TCtrValueTable} EmptyTable MovedFrom _ _.
Arguments DropUnusedTables {TModelCtrBase} base_eqb {TCtrValueTable} EmptyTable
  MovedFrom _ _.
Arguments TableOrEmpty {TModelCtrBase TCtrValueTable} EmptyTable _ _.
Arguments TimesListed {TModelCtrBase} base_eqb _ _.

(* ------------------------------------------------------------------ *)
(** *** Two tables of learn ctrs *)

(** Bases are numbers; a table is its base and its values; a table that was
    moved from has lost its values. *)
Definition SmallEmptyTable : Z * list Z := (0, []).

Definition SmallMovedFrom (table : Z * list Z) : Z * list Z := (fst table, []).

Definition TwoTables : TLearnCtrs Z (Z * list Z) :=
  fun base => if base =? 1 then Some (1, [10; 11])
              else if base =? 2 then Some (2, [20]) else None.

(* ================================================================== *)
(** ** The hash of a tuple *)

Section TupleHash.

(** Modelled from the spec: [CombineHashes] is outside the sources. *)
Variable CombineHashes : Z -> Z -> Z.

(** [TupleHashHelper<I, IsLastElement, TArgs...>::Hash(tuple)], on the
    hashes [HashObject(std::get<i>(tuple))] of the elements.  There is no
    hash where [std::get<I>] has no element: that program does not compile.
    Every instantiation has a greater [I]; [fuel] bounds their number. *)
Fixpoint TupleHashHelper (fuel : nat) (I : nat) (IsLastElement : bool) (hashes : list Z)
    : option Z :=
  match nth_error hashes I with
  | None => None
  | Some hash =>
      if IsLastElement then Some hash
      else
        match fuel with
        | O => None
        | S fuel' =>
            match TupleHashHelper fuel' (I + 1) (length hashes <=? I + 2)%nat hashes with
            | Some rest => Some (CombineHashes hash rest)
            | None => None
            end
        end
  end.

(** [THash<std::tuple<TArgs...>>] *)
Definition THashTuple (hashes : list Z) : option Z :=
  TupleHashHelper (length hashes) 0 (length hashes <=? 1)%nat hashes.

(** [TPairHash]: the hash of a pair, from the hashes of its two parts. *)
Definition TPairHash (first second : Z) : Z := CombineHashes first second.

(** The hashes combined from the right: [h0 (h1 (... h(n-1)))]. *)
Fixpoint CombineRight (hash : Z) (hashes : list Z) : Z :=
  match hashes with
  | [] => hash
  | next :: hashes' => CombineHashes hash (CombineRight next hashes')
  end.

End TupleHash.

(* ================================================================== *)
(** ** Cross-validation: the loop over the batches of iterations *)

(** What the loop does with the folds, in order: every fold is trained up
    to an iteration (exclusive), or the metric values the folds have stored
    for an iteration are read and averaged. *)
Inductive TCvEvent :=
| TrainedUpTo (batchEndIteration : Z)
| Evaluated (iteration : Z).

Section CrossValidateLoop.

(** Modelled from the spec: [TErrorTracker] is outside the sources.
    [AddError tracker iteration] is the tracker after the average test error
    of the iteration was added to it. *)
Variable TErrorTracker : Type.
Variable GetIsNeedStop : TErrorTracker -> bool.
Variable IsActive : TErrorTracker -> bool.
Variable AddError : TErrorTracker -> Z -> TErrorTracker.

(** [metrics.ysize()], [IterationCount], [GetMetricPeriod()] and
    [cvParams.IterationsBatchSize] *)
Variable metricCount : Z.
Variable globalMaxIteration : Z.
Variable metricPeriod : Z.
Variable iterationsBatchSize : Z.

Record TCvLoopState := {
  Tracker : TErrorTracker;
  CvIteration : Z;
  Events : list TCvEvent
}.

(** The body of [while (true)] up to the loop over the metrics included:
    the metric values of the iteration are read, and the error tracker gets
    the error of the iteration when its metric, metric 0, is not skipped.
    It starts with [DivisibleOrLastIteration], and stops with it on a metric
    period of 0. *)
Definition EvaluateIteration (state : TCvLoopState) : cv_outcome TCvLoopState :=
  let iteration := CvIteration state in
  cv_bind (DivisibleOrLastIteration (to_int iteration) (to_int globalMaxIteration)
                                    metricPeriod)
    (fun calcMetrics =>
       let calcErrorTrackerMetric := calcMetrics || IsActive (Tracker state) in
       CvReturned
         {| Tracker := if (0 <? metricCount) && calcErrorTrackerMetric
                       then AddError (Tracker state) iteration
                       else Tracker state;
            CvIteration := iteration;
            Events := Events state ++ [Evaluated iteration] |}).

(** [while (true)]: it ends when the tracker wants to stop or the iteration
    reaches the batch end.  The loops give [None] when their fuel runs out,
    and what they end with otherwise. *)
Fixpoint EvaluateBatch (fuel : nat) (batchEndIteration : Z) (state : TCvLoopState)
    : option (cv_outcome TCvLoopState) :=
  match fuel with
  | O => None
  | S fuel' =>
      match EvaluateIteration state with
      | CvFailed e => Some (CvFailed e)
      | CvReturned state =>
          let needStop := GetIsNeedStop (Tracker state) in
          let iteration := wrap32 (CvIteration state + 1) in
          let state := {| Tracker := Tracker state; CvIteration := iteration;
                          Events := Events state |} in
          if needStop || (iteration =? batchEndIteration) then Some (CvReturned state)
          else EvaluateBatch fuel' batchEndIteration state
      end
  end.

(** The [for] loop over the batches.  A batch gets as many turns of fuel as
    its end: the iteration that starts below the end meets it by then.  The
    training of the folds is an event of the loop and is taken to return;
    what it stores and where it stops is the matter of [TrainUpToIteration]
    below. *)
Fixpoint TrainAndEvaluateBatches (fuel : nat) (batchStartIteration : Z)
    (state : TCvLoopState) : option (cv_outcome TCvLoopState) :=
  if negb (GetIsNeedStop (Tracker state)) && (batchStartIteration <? globalMaxIteration)
  then
    match fuel with
    | O => None
    | S fuel' =>
        let batchEndIteration :=
          Z.min (wrap32 (batchStartIteration + iterationsBatchSize)) globalMaxIteration in
        let state := {| Tracker := Tracker state; CvIteration := CvIteration state;
                        Events := Events state ++ [TrainedUpTo batchEndIteration] |} in
        match EvaluateBatch (Z.to_nat batchEndIteration) batchEndIteration state with
        | None => None
        | Some (CvFailed e) => Some (CvFailed e)
        | Some (CvReturned state) =>
            TrainAndEvaluateBatches fuel'
              (wrap32 (batchStartIteration + iterationsBatchSize)) state
        end
    end
  else Some (CvReturned state).

(** The loop of [CrossValidate], from iteration 0 and no event; there are
    no more batches than iterations. *)
Definition CrossValidateLoop (errorTracker : TErrorTracker)
    : option (cv_outcome TCvLoopState) :=
  TrainAndEvaluateBatches (Z.to_nat globalMaxIteration) 0
    {| Tracker := errorTracker; CvIteration := 0; Events := [] |}.

End CrossValidateLoop.

Arguments Tracker {TErrorTracker} _.
Arguments CvIteration {TErrorTracker} _.
Arguments Events {TErrorTracker} _.

(** Reading the events in order: the bound the folds were last trained up
    to, the next iteration to evaluate, and whether every evaluated
    iteration so far was the next one and below the bound. *)
Definition CheckEvent (checked : Z * Z * bool) (event : TCvEvent) : Z * Z * bool :=
  let '(trained, next, ok) := checked in
  match event with
  | TrainedUpTo batchEndIteration => (batchEndIteration, next, ok)
  | Evaluated iteration =>
      (trained, next + 1, ok && (iteration =? next) && (iteration <? trained))
  end.

Definition CheckEvents (events : list TCvEvent) : Z * Z * bool :=
  fold_left CheckEvent events (0, 0, true).

(** The iterations evaluated, in the order of the events. *)
Definition EvaluatedIterations (events : list TCvEvent) : list Z :=
  flat_map (fun event => match event with
                         | Evaluated iteration => [iteration]
                         | TrainedUpTo _ => []
                         end) events.

(* ------------------------------------------------------------------ *)
(** *** An error tracker that stops after iteration 4 *)

(** The tracker keeps the iterations it was given, last first. *)
Definition StopsAfterFour (tracker : list Z) : bool :=
  match tracker with
  | iteration :: _ => 4 <=? iteration
  | [] => false
  end.

Definition AlwaysActive (tracker : list Z) : bool := true.

Definition AddsIteration (tracker : list Z) (iteration : Z) : list Z :=
  iteration :: tracker.

(* ------------------------------------------------------------------ *)
(** *** Predicates of the estimation tasks *)

(** The model a destination of an estimation task points to, when the
    storage has it. *)
Definition ModelAt {TData} (models : TFoldAndPermutationStorage TData) (dst : TModelRef)
    : option TData :=
  match dst with
  | EstimationModel => Some (Estimation models)
  | FoldModel permutation foldId => nth_error (nth permutation (FoldData models) []) foldId
  end.

(** The destinations of the fold tasks, in the order of the two loops. *)
Definition FoldModels (permutationFolds : list (list TFold)) (learnPermutations : list nat)
    : list TModelRef :=
  flat_map (fun permutation =>
              map (FoldModel permutation)
                  (seq 0 (length (nth permutation permutationFolds []))))
           learnPermutations.

(** The estimation tasks and the models of an iteration of the small run
    that found the structure 3. *)
Definition SmallTasks : list (TEstimationTask SmallLearner) :=
  Eval vm_compute in
    returned_or []
      (EstimationTasks SmallLearner Config_small SmallDataSet SmallFolds
         (Cursor SmallLearner SmallStart)).

Definition SmallModels : TFoldAndPermutationStorage (TWeakModel SmallLearner) :=
  Eval vm_compute in
    returned_or {| FoldData := []; Estimation := 0 |}
      (IterationModels SmallLearner Config_small SmallDataSet SmallFolds 3
         (Cursor SmallLearner SmallStart)).

(** The cursor of a fold after the model of the fold was added to it over
    the fold's whole range. *)
Definition UpdatedFoldCursor (Weak : TWeakLearner) (ws : TWeakModelStructure Weak)
    (model : TWeakModel Weak) (permutation : nat) (fold : TFold) (point : TVec Weak)
    : TVec Weak :=
  {| MappingSize := MappingSize Weak point;
     Content := AddModelValue Weak ws model (DataSetForPermutation (Z.of_nat permutation))
                  {| Left := 0; Right := Right (QualityEvaluateSamples fold) |}
                  (Content Weak point) |}.

(** The second fold of the small run and its cursor at the start. *)
Definition SecondFold : TFold :=
  {| EstimateSamples := {| Left := 0; Right := 6 |};
     QualityEvaluateSamples := {| Left := 6; Right := 12 |} |}.

Definition SecondFoldCursor : TVec SmallLearner :=
  CreateAndWrite SmallLearner 12 0.

(* ================================================================== *)
(** ** Cross-validation: the results of an iteration *)

(** [Sqr] *)
Definition Sqr (x : float) : float := PrimFloat.mul x x.

(** The [double] that [values.size() - 1] becomes: the [size_t] wraps to
    [2^64 - 1] for no value, which rounds to [2^64]. *)
Definition SizeLessOne (size : nat) : float :=
  match size with
  | O => 0x1p+64%float
  | S size' => PrimFloat.of_uint63 (Uint63.of_Z (Z.of_nat size'))
  end.

Definition ComputeStdDev (values : list float) (avg : float) : float :=
  let sqrSum :=
    fold_left (fun sqrSum value => PrimFloat.add sqrSum (Sqr (PrimFloat.sub value avg)))
              values 0%float in
  PrimFloat.sqrt (PrimFloat.div sqrSum (SizeLessOne (length values))).

Record TCVIterationResults := {
  AverageTrain : float;
  StdDevTrain : float;
  AverageTest : float;
  StdDevTest : float
}.

(** [Accumulate(begin, end, 0.0)] *)
Definition Accumulate (values : list float) : float :=
  fold_left PrimFloat.add values 0%float.

Definition ComputeIterationResults (trainErrors testErrors : list float) (foldCount : Z)
    : TCVIterationResults :=
  let foldCount := PrimFloat.of_uint63 (Uint63.of_Z foldCount) in
  let averageTrain := PrimFloat.div (Accumulate trainErrors) foldCount in
  let averageTest := PrimFloat.div (Accumulate testErrors) foldCount in
  {| AverageTrain := averageTrain;
     StdDevTrain := ComputeStdDev trainErrors averageTrain;
     AverageTest := averageTest;
     StdDevTest := ComputeStdDev testErrors averageTest |}.

(** Not a number, or infinite. *)
Definition not_a_finite_number (x : float) : Prop :=
  PrimFloat.classify x = NaN \/ PrimFloat.classify x = PInf \/ PrimFloat.classify x = NInf.

(* ================================================================== *)
(** ** Cross-validation: training a fold up to an iteration *)

Section TrainUpToIteration.

Variable TString : Type.
Variable metrics : list TString.
Variable skipMetricOnTrain : list bool.
Variable globalMaxIteration : Z.
Variable metricPeriod : Z.
Variable isErrorTrackerActive : bool.

(** Modelled from the spec: [IModelTrainer::TrainModel] is outside the
    sources.  Every call trains from iteration 0 on, for [IterationCount]
    iterations at most; after each iteration it calls the callback on the
    history so far and stops when the callback returns false.
    [HistoryAfter iteration] is the history the callback is given after
    that iteration. *)
Variable HistoryAfter : Z -> TMetricsAndTimeLeftHistory TString.

Fixpoint TrainModel (fuel : nat) (upToIteration iteration : Z) (context : TFoldContext)
    : cv_outcome TFoldContext :=
  match fuel with
  | O => CvReturned context
  | S fuel' =>
      cv_bind (TrainUpToIterationCallback TString metrics skipMetricOnTrain upToIteration
                 globalMaxIteration metricPeriod isErrorTrackerActive
                 (HistoryAfter iteration) context)
        (fun result =>
           if snd result
           then TrainModel fuel' upToIteration (iteration + 1) (fst result)
           else CvReturned (fst result))
  end.

(** [TFoldContext::TrainUpToIteration], on the metric tables of the fold. *)
Definition TrainUpToIteration (upToIteration : Z) (context : TFoldContext)
    : cv_outcome TFoldContext :=
  TrainModel (Z.to_nat globalMaxIteration) upToIteration 0 context.

(** The entries the loop of [CrossValidate] reads of the fold in an
    iteration are there, and they are the values of the metrics in the
    history of that iteration. *)
Definition MetricsOfIteration (iteration : nat) (context : TFoldContext) : Prop :=
  forall metricIdx description,
    nth_error metrics metricIdx = Some description ->
    SkipsMetric
      (DivisibleOrLast (to_int (Z.of_nat iteration)) (to_int globalMaxIteration)
                       metricPeriod)
      (ErrorTrackerMetricIdx
         (DivisibleOrLast (to_int (Z.of_nat iteration))
                          (to_int globalMaxIteration) metricPeriod)
         isErrorTrackerActive)
      (Z.of_nat metricIdx) = false ->
    exists train test,
      ReadMetric context iteration metricIdx = Some (train, test) /\
      StoredOnTrain skipMetricOnTrain (HistoryAfter (Z.of_nat iteration))
                    (Z.of_nat metricIdx, description) train /\
      StoredOnTest (HistoryAfter (Z.of_nat iteration))
                   (Z.of_nat metricIdx, description) test.

End TrainUpToIteration.

(** The history of every iteration of the fold, and the fold after it was
    trained up to iteration 3 from the row it had. *)
Definition IterationHistory (iteration : Z) : TMetricsAndTimeLeftHistory Z :=
  {| TimeHistorySize := iteration + 1;
     LastLearnMetrics := fun d => if d =? 10 then Some 0.5%float
                                  else if d =? 20 then Some 0.25%float else None;
     LastTestMetrics := fun d => if d =? 10 then Some 2%float
                                 else if d =? 20 then Some 4%float else None |}.

Definition TrainedUpToThree : TFoldContext :=
  {| MetricValuesOnTrain := [[0.5%float; 0.25%float]; [0.5%float]; [0.5%float; 0.25%float]];
     MetricValuesOnTest := [[0.75%float; 1%float]; [2%float]; [2%float; 4%float]] |}.

(* ================================================================== *)
(* ================================================================== *)
(** * Properties *)

(* ================================================================== *)
(** ** Integers and the outcome monad *)

Lemma wrap32_small x : 0 <= x < 2 ^ 32 -> wrap32 x = x.
Proof. intros H. unfold wrap32. now apply Z.mod_small. Qed.

Lemma wrap32_range x : 0 <= wrap32 x < 2 ^ 32.
Proof. unfold wrap32. apply Z.mod_pos_bound. lia. Qed.

Lemma bind_Returned_inv {A B} (m : outcome A) (k : A -> outcome B) b :
  bind m k = Returned b -> exists a, m = Returned a /\ k a = Returned b.
Proof. destruct m; simpl; intros H; try discriminate. eauto. Qed.

Lemma ensure_Returned_inv c e u : ensure c e = Returned u -> c = true.
Proof. unfold ensure. destruct c; [reflexivity | discriminate]. Qed.

Lemma ensure_true e : ensure true e = Returned tt.
Proof. reflexivity. Qed.

(** Inverts a hypothesis [bind m k = Returned b] into its two runs. *)
Ltac bind_inv H :=
  let a := fresh "a" in
  let Ha := fresh "Ha" in
  apply bind_Returned_inv in H; destruct H as (a & Ha & H).

(* ================================================================== *)
(** ** The helpers *)

Lemma CeilDivide_Returned a b :
  b <> 0 -> CeilDivide a b = Returned ((a + b - 1) / b).
Proof.
  intros Hb. unfold CeilDivide.
  destruct (Z.eqb_spec b 0); [contradiction | reflexivity].
Qed.

Lemma CeilDivide_zero a : CeilDivide a 0 = Failed IntegerDivideByZero.
Proof. reflexivity. Qed.

Lemma ceil_quotient_div a b :
  0 < b -> is_ceil_quotient ((a + b - 1) / b) a b.
Proof.
  intros Hb. unfold is_ceil_quotient.
  pose proof (Z.div_mod (a + b - 1) b ltac:(lia)) as E.
  pose proof (Z.mod_pos_bound (a + b - 1) b Hb) as M.
  nia.
Qed.

Lemma CeilDivide_is_ceil a b :
  0 < b -> exists q, CeilDivide a b = Returned q /\ is_ceil_quotient q a b.
Proof.
  intros Hb. exists ((a + b - 1) / b).
  split; [apply CeilDivide_Returned; lia | apply ceil_quotient_div; exact Hb].
Qed.

Lemma is_ceil_quotient_unique q1 q2 a b :
  0 < b -> is_ceil_quotient q1 a b -> is_ceil_quotient q2 a b -> q1 = q2.
Proof. unfold is_ceil_quotient. intros Hb H1 H2. nia. Qed.

Lemma is_ceil_quotient_bounds q a b :
  0 < b -> 0 < a -> is_ceil_quotient q a b -> 1 <= q <= a.
Proof. unfold is_ceil_quotient. intros Hb Ha H. nia. Qed.

(** All that is used of [IntLog2]: it is the logarithm rounded down, or
    rounded up, or a value between the two. *)
Lemma IntLog2_between n :
  0 < n -> Z.log2 n <= IntLog2 n <= Z.log2_up n.
Proof.
  intros Hn. pose proof (Z.le_log2_log2_up n). unfold IntLog2. lia.
Qed.

Lemma IntLog2_nonpos n : n <= 0 -> IntLog2 n = 0.
Proof.
  intros Hn. unfold IntLog2.
  first [apply Z.log2_up_nonpos; exact Hn | apply Z.log2_nonpos; exact Hn].
Qed.

(** From [2^k] on it is at least [k], and up to [2^k] it is at most [k]. *)
Lemma IntLog2_ge n k :
  0 < n -> 2 ^ k <= n -> k <= IntLog2 n.
Proof.
  intros Hn H. pose proof (IntLog2_between n Hn) as [L _].
  apply Z.le_trans with (Z.log2 n); [| exact L].
  apply Z.log2_le_pow2; assumption.
Qed.

Lemma IntLog2_le n k :
  0 < n -> n <= 2 ^ k -> IntLog2 n <= k.
Proof.
  intros Hn H. pose proof (IntLog2_between n Hn) as [_ U].
  apply Z.le_trans with (Z.log2_up n); [exact U |].
  apply Z.log2_up_le_pow2; assumption.
Qed.

(** [1 << IntLog2(n)] is more than half of [n] and less than twice [n]. *)
Lemma IntLog2_power n :
  1 < n -> 0 < IntLog2 n /\ n < 2 * 2 ^ IntLog2 n /\ 2 ^ IntLog2 n < 2 * n.
Proof.
  intros Hn. pose proof (IntLog2_between n ltac:(lia)) as [L U].
  pose proof (Z.log2_spec n ltac:(lia)) as [_ Hup].
  pose proof (Z.log2_up_spec n Hn) as [Hlow _].
  assert (H0 : 0 < Z.log2 n) by (apply Z.log2_pos; lia).
  split; [lia | split].
  - apply Z.lt_le_trans with (2 ^ Z.succ (Z.log2 n)); [exact Hup |].
    rewrite Z.pow_succ_r by lia.
    apply Z.mul_le_mono_nonneg_l; [lia |]. apply Z.pow_le_mono_r; lia.
  - apply Z.le_lt_trans with (2 ^ Z.log2_up n); [apply Z.pow_le_mono_r; lia |].
    replace (Z.log2_up n) with (Z.succ (Z.pred (Z.log2_up n))) by lia.
    rewrite Z.pow_succ_r by lia. lia.
Qed.

(* ================================================================== *)
(** ** [MinEstimationSize] *)

Lemma MinEstimationSize_small Config docCount :
  docCount < 500 -> MinEstimationSize Config docCount = Returned 1.
Proof.
  intros H. unfold MinEstimationSize.
  destruct (Z.ltb_spec docCount 500); [reflexivity | lia].
Qed.

Lemma MinEstimationSize_large Config docCount :
  500 <= docCount ->
  MinFoldSize Config <> 0 ->
  MinEstimationSize Config docCount =
  Returned
    (if 18 <=? IntLog2 ((docCount + MinFoldSize Config - 1) / MinFoldSize Config)
     then (docCount + 2 ^ 18 - 1) / 2 ^ 18
     else Z.min (MinFoldSize Config) (docCount / 50)).
Proof.
  intros H Hmin. unfold MinEstimationSize.
  destruct (Z.ltb_spec docCount 500); [lia |].
  cbv zeta. rewrite (CeilDivide_Returned _ _ Hmin). cbn [bind].
  rewrite Z.geb_leb. destruct (18 <=? _); reflexivity.
Qed.

(** A minimum fold size of 0: the quotient by it is the first thing computed
    from 500 documents on. *)
Lemma MinEstimationSize_zero_fold_size Config docCount :
  500 <= docCount ->
  MinFoldSize Config = 0 ->
  MinEstimationSize Config docCount = Failed IntegerDivideByZero.
Proof.
  intros H Hmin. unfold MinEstimationSize.
  destruct (Z.ltb_spec docCount 500); [lia |].
  cbv zeta. rewrite Hmin. reflexivity.
Qed.

(** The one failure of [MinEstimationSize] is the division by a minimum fold
    size of 0. *)
Lemma MinEstimationSize_failure Config docCount e :
  MinEstimationSize Config docCount = Failed e ->
  e = IntegerDivideByZero /\ MinFoldSize Config = 0 /\ 500 <= docCount.
Proof.
  unfold MinEstimationSize. destruct (Z.ltb_spec docCount 500); [discriminate |].
  cbv zeta. unfold CeilDivide at 1.
  destruct (Z.eqb_spec (MinFoldSize Config) 0) as [E | NE]; cbn [bind].
  - intros [= <-]. auto.
  - destruct (_ >=? _); discriminate.
Qed.

Lemma MinEstimationSize_has_fuel Config docCount :
  MinEstimationSize Config docCount <> OutOfFuel.
Proof.
  unfold MinEstimationSize. destruct (docCount <? 500); [discriminate |].
  cbv zeta. unfold CeilDivide at 1.
  destruct (MinFoldSize Config =? 0); cbn [bind]; [discriminate |].
  destruct (_ >=? _); discriminate.
Qed.

(** With a positive minimum fold size no quotient divides by zero. *)
Lemma MinEstimationSize_positive_fold_size Config docCount :
  0 < MinFoldSize Config ->
  exists size, MinEstimationSize Config docCount = Returned size.
Proof.
  intros Hmin. destruct (Z.lt_ge_cases docCount 500) as [Hsmall | Hbig].
  - exists 1. apply MinEstimationSize_small. exact Hsmall.
  - eexists. apply MinEstimationSize_large; lia.
Qed.

(** C8 (amended). For every document count and every positive configured
    minimum fold size, [MinEstimationSize] returns 1 below 500 documents.
    From 500 documents on, with [c] the ceiling of [docCount / MinFoldSize],
    it returns the ceiling of [docCount / 2^18] when [IntLog2 c] is at least
    18 and min([MinFoldSize], [docCount / 50]) otherwise.  [IntLog2 c] is at
    least 18 whenever the logarithm of [c] rounded down is, and it is below
    18 whenever the logarithm rounded up is; for the quotients between
    [2^17] and [2^18] the rounding of [IntLog2] decides. *)
Theorem MinEstimationSize_policy Config docCount c :
  0 < MinFoldSize Config ->
  0 <= docCount ->
  is_ceil_quotient c docCount (MinFoldSize Config) ->
  (docCount < 500 -> MinEstimationSize Config docCount = Returned 1) /\
  (500 <= docCount -> 18 <= IntLog2 c ->
   exists size, MinEstimationSize Config docCount = Returned size /\
                is_ceil_quotient size docCount (2 ^ 18)) /\
  (500 <= docCount -> IntLog2 c < 18 ->
   MinEstimationSize Config docCount
   = Returned (Z.min (MinFoldSize Config) (docCount / 50))) /\
  (18 <= Z.log2 c -> 500 <= docCount /\ 18 <= IntLog2 c) /\
  (Z.log2_up c < 18 -> IntLog2 c < 18).
Proof.
  intros Hmin Hdoc Hc.
  assert (Ec : c = (docCount + MinFoldSize Config - 1) / MinFoldSize Config).
  { eapply is_ceil_quotient_unique; eauto using ceil_quotient_div. }
  split; [| split; [| split; [| split]]].
  - apply MinEstimationSize_small.
  - intros Hbig Hlog.
    rewrite MinEstimationSize_large by lia. rewrite <- Ec.
    destruct (Z.leb_spec 18 (IntLog2 c)) as [_ | Hlt]; [| lia].
    eexists. split; [reflexivity | apply ceil_quotient_div; lia].
  - intros Hbig Hlog.
    rewrite MinEstimationSize_large by lia. rewrite <- Ec.
    destruct (Z.leb_spec 18 (IntLog2 c)) as [Hge | _]; [lia | reflexivity].
  - intros Hlog.
    assert (Hcpos : 0 < c).
    { destruct (Z.le_gt_cases c 0) as [Hle | Hpos]; [| exact Hpos].
      rewrite (Z.log2_nonpos c Hle) in Hlog. lia. }
    assert (Hc18 : 2 ^ 18 <= c) by (apply Z.log2_le_pow2; lia).
    assert (Hpos : 0 < docCount) by (unfold is_ceil_quotient in Hc; nia).
    pose proof (is_ceil_quotient_bounds c docCount _ Hmin Hpos Hc).
    split; [lia | apply IntLog2_ge; lia].
  - intros Hlog.
    destruct (Z.le_gt_cases c 0) as [Hle | Hpos].
    + rewrite (IntLog2_nonpos c Hle). lia.
    + pose proof (IntLog2_between c Hpos). lia.
Qed.

Lemma MinEstimationSize_policy_witness :
  0 < MinFoldSize Config_large /\ 0 <= 30000000 /\
  is_ceil_quotient 300000 30000000 (MinFoldSize Config_large) /\
  ((30000000 < 500 -> MinEstimationSize Config_large 30000000 = Returned 1) /\
   (500 <= 30000000 -> 18 <= IntLog2 300000 ->
    exists size, MinEstimationSize Config_large 30000000 = Returned size /\
                 is_ceil_quotient size 30000000 (2 ^ 18)) /\
   (500 <= 30000000 -> IntLog2 300000 < 18 ->
    MinEstimationSize Config_large 30000000
    = Returned (Z.min (MinFoldSize Config_large) (30000000 / 50))) /\
   (18 <= Z.log2 300000 -> 500 <= 30000000 /\ 18 <= IntLog2 300000) /\
   (Z.log2_up 300000 < 18 -> IntLog2 300000 < 18)).
Proof.
  assert (H1 : 0 < MinFoldSize Config_large) by (simpl; lia).
  assert (H2 : 0 <= 30000000) by lia.
  assert (H3 : is_ceil_quotient 300000 30000000 (MinFoldSize Config_large))
    by (unfold is_ceil_quotient; simpl; lia).
  split; [exact H1 | split; [exact H2 | split; [exact H3 |]]].
  exact (MinEstimationSize_policy Config_large 30000000 300000 H1 H2 H3).
Defined.

(** C8 as stated does not hold of every configured minimum fold size: with
    a minimum fold size of 0 and 1000 documents the quotient
    [docCount / MinFoldSize] divides by zero, and no size is returned. *)
Lemma MinEstimationSize_divides_by_zero :
  MinEstimationSize Config_zero_fold_size 1000 = Failed IntegerDivideByZero /\
  ~ (exists size, MinEstimationSize Config_zero_fold_size 1000 = Returned size).
Proof.
  assert (E : MinEstimationSize Config_zero_fold_size 1000 = Failed IntegerDivideByZero)
    by reflexivity.
  split; [exact E |]. intros [size H]. rewrite E in H. discriminate.
Qed.

(** Between the two thresholds the rounding of [IntLog2] decides.  13107300
    documents with a minimum fold size of 100 give the quotient
    [131073 = 2^17 + 1], whose logarithm is 17 rounded down and 18 rounded
    up: rounded up, as the library does, the size is the ceiling of
    [13107300 / 2^18], 51, and not min(100, 13107300 / 50) = 100. *)
Example MinEstimationSize_above_2p17 :
  is_ceil_quotient 131073 13107300 (MinFoldSize Config_large) /\
  Z.log2 131073 = 17 /\ Z.log2_up 131073 = 18 /\
  MinEstimationSize Config_large 13107300 = Returned 51 /\
  Z.min (MinFoldSize Config_large) (13107300 / 50) = 100.
Proof.
  unfold is_ceil_quotient. repeat split; try reflexivity; simpl; lia.
Qed.

(* ================================================================== *)
(** ** [GetPermutationBlockSize] *)

Lemma GetPermutationBlockSize_small_pool Config sampleCount :
  sampleCount < 50000 -> GetPermutationBlockSize Config sampleCount = 1.
Proof.
  intros H. unfold GetPermutationBlockSize.
  destruct (Z.ltb_spec sampleCount 50000); [reflexivity | lia].
Qed.

Lemma GetPermutationBlockSize_trivial_block Config sampleCount :
  50000 <= sampleCount -> PermutationBlockSize Config <= 1 ->
  GetPermutationBlockSize Config sampleCount = PermutationBlockSize Config.
Proof.
  intros Hs Hb. unfold GetPermutationBlockSize.
  destruct (Z.ltb_spec sampleCount 50000); [lia |].
  destruct (Z.gtb_spec (PermutationBlockSize Config) 1); [lia | reflexivity].
Qed.

(** On a power of two that cannot overflow when multiplied by 128, the loop
    stops, within its fuel, on a power of two whose product with 128 fits. *)
Lemma ShrinkBlockSize_pow2 fuel : forall k sampleCount,
  0 <= k <= 24 -> k < Z.of_nat fuel -> 2 ^ 15 <= sampleCount ->
  exists j, 0 <= j <= k /\
            ShrinkBlockSize fuel (2 ^ k) sampleCount = 2 ^ j /\
            2 ^ j * 128 <= sampleCount.
Proof.
  induction fuel as [| fuel IH]; intros k s Hk Hfuel Hs; [lia |].
  cbn [ShrinkBlockSize].
  assert (Hpow : 2 ^ k * 128 = 2 ^ (k + 7)) by (rewrite Z.pow_add_r by lia; lia).
  assert (Hlt : 2 ^ (k + 7) < 2 ^ 32) by (apply Z.pow_lt_mono_r; lia).
  assert (Hpos : 0 < 2 ^ (k + 7)) by (apply Z.pow_pos_nonneg; lia).
  rewrite wrap32_small by lia.
  destruct (Z.gtb_spec (2 ^ k * 128) s) as [Hgt | Hle].
  - assert (Hk1 : 1 <= k).
    { destruct (Z.eq_dec k 0) as [-> | ]; [simpl in Hgt; lia | lia]. }
    rewrite Z.shiftr_div_pow2 by lia.
    replace (2 ^ k) with (2 ^ (k - 1) * 2 ^ 1) by (rewrite <- Z.pow_add_r by lia; f_equal; lia).
    rewrite Z.div_mul by lia.
    destruct (IH (k - 1) s ltac:(lia) ltac:(lia) Hs) as (j & Hj & E & B).
    exists j. split; [lia | split; assumption].
  - exists k. split; [lia | split; [reflexivity | lia]].
Qed.

(** The exponent [IntLog2] gives for a configured block size above 1 and at
    most [2^24], and the power of two the code shifts to. *)
Lemma IntLog2_block_size blockSize :
  1 < blockSize <= 2 ^ 24 ->
  0 < IntLog2 blockSize <= 24 /\
  wrap32 (Z.shiftl 1 (IntLog2 blockSize)) = 2 ^ IntLog2 blockSize.
Proof.
  intros [Hb1 Hb2].
  destruct (IntLog2_power blockSize Hb1) as (Hk0 & _ & _).
  pose proof (IntLog2_le blockSize 24 ltac:(lia) Hb2) as Hk.
  split; [lia |].
  rewrite Z.shiftl_1_l.
  assert (Hlt : 2 ^ IntLog2 blockSize < 2 ^ 32) by (apply Z.pow_lt_mono_r; lia).
  assert (Hpos : 0 < 2 ^ IntLog2 blockSize) by (apply Z.pow_pos_nonneg; lia).
  apply wrap32_small. lia.
Qed.

(** As long as the configured block size is at most [2^24], a pool of 50000
    samples or more gets a power of two that is less than twice the
    configured size and whose product with 128 does not exceed the sample
    count, whichever way [IntLog2] rounds. *)
Lemma GetPermutationBlockSize_up_to_2p24 Config sampleCount :
  50000 <= sampleCount ->
  1 < PermutationBlockSize Config <= 2 ^ 24 ->
  exists j, 0 <= j /\
            GetPermutationBlockSize Config sampleCount = 2 ^ j /\
            2 ^ j < 2 * PermutationBlockSize Config /\
            2 ^ j * 128 <= sampleCount.
Proof.
  intros Hs Hb. unfold GetPermutationBlockSize.
  destruct (Z.ltb_spec sampleCount 50000); [lia |].
  destruct (Z.gtb_spec (PermutationBlockSize Config) 1); [| lia].
  cbv zeta.
  destruct (IntLog2_block_size _ Hb) as [Hk ->].
  destruct (IntLog2_power (PermutationBlockSize Config) ltac:(lia)) as (_ & _ & Hup).
  set (k := IntLog2 (PermutationBlockSize Config)) in *.
  destruct (ShrinkBlockSize_pow2 32 k sampleCount ltac:(lia) ltac:(simpl; lia) ltac:(lia))
    as (j & Hj & E & B).
  exists j. repeat split; try assumption; try lia.
  apply Z.le_lt_trans with (2 ^ k); [apply Z.pow_le_mono_r; lia | exact Hup].
Qed.

(** C10. A configured permutation block size of [2^25] with 50000 samples:
    the product [suggestedBlockSize * 128] wraps to 0 in 32 bits, the loop
    never runs, and the block size returned is [2^25], although [2^25 * 128]
    exceeds the sample count. *)
Theorem GetPermutationBlockSize_product_wraps Config :
  GetPermutationBlockSize (WithPermutationBlockSize Config 33554432) 50000 = 33554432
  /\ 50000 < 33554432 * 128
  /\ wrap32 (33554432 * 128) = 0.
Proof.
  split; [| split].
  - unfold GetPermutationBlockSize, WithPermutationBlockSize. cbn. reflexivity.
  - lia.
  - reflexivity.
Qed.

(* ================================================================== *)
(** ** The permutation of the structure search *)

Lemma LearnPermutationId_single nextUniformL :
  LearnPermutationId 1 nextUniformL = 0.
Proof. reflexivity. Qed.

(** With several learn permutations the draw is a remainder modulo
    [learnPermutationCount - 1]: the last learn permutation,
    [learnPermutationCount - 1], is never drawn. *)
Lemma LearnPermutationId_below_last learnPermutationCount nextUniformL :
  1 < learnPermutationCount < 2 ^ 32 ->
  0 <= LearnPermutationId learnPermutationCount nextUniformL < learnPermutationCount - 1.
Proof.
  intros H. unfold LearnPermutationId.
  destruct (Z.gtb_spec learnPermutationCount 1); [| lia].
  rewrite (wrap32_small (learnPermutationCount - 1)) by lia.
  pose proof (Z.mod_pos_bound nextUniformL (learnPermutationCount - 1) ltac:(lia)).
  rewrite wrap32_small by lia. lia.
Qed.

(** C1. With three permutations, two of them learn permutations (0 and 1)
    and the third the estimation permutation, the structure search works on
    permutation 0 whatever value the random generator returns: learn
    permutation 1 is never drawn. *)
Theorem LearnPermutationId_never_draws_last :
  LearnPermutationCount 3 = 2 /\
  forall nextUniformL, LearnPermutationId (LearnPermutationCount 3) nextUniformL = 0.
Proof.
  split; [reflexivity |].
  intros r. change (LearnPermutationCount 3) with 2.
  unfold LearnPermutationId. cbn.
  unfold wrap32. cbn. rewrite Z.mod_1_r. reflexivity.
Qed.

(* ================================================================== *)
(** ** [CreateDataSet] *)

(** C6. [CreateDataSet] asks the builder for exactly one permutation when
    the objects order of the data provider is [Ordered], whatever
    permutation count is configured, and for the configured permutation
    count for every other order; the data set holder it returns has that
    many permutations. *)
Theorem CreateDataSet_permutation_count Config DataProvider TestDataProvider :
  exists dataSets permutationCount,
    CreateDataSet Config (Some DataProvider) TestDataProvider = Returned dataSets /\
    dataSets = BuildDataSet DataProvider TestDataProvider
                 (GetPermutationBlockSize Config (GetObjectCount DataProvider))
                 permutationCount /\
    PermutationsCount dataSets = permutationCount /\
    ((GetOrder DataProvider = NCB.Ordered /\ permutationCount = 1) \/
     (GetOrder DataProvider <> NCB.Ordered /\
      permutationCount = PermutationCount Config)).
Proof.
  unfold CreateDataSet. cbv zeta.
  exists (BuildDataSet DataProvider TestDataProvider
            (GetPermutationBlockSize Config (GetObjectCount DataProvider))
            (RequestedPermutationCount Config DataProvider)),
         (RequestedPermutationCount Config DataProvider).
  split; [reflexivity | split; [reflexivity | split; [reflexivity |]]].
  unfold RequestedPermutationCount.
  destruct (GetOrder DataProvider);
    [left | right | right]; (split; [congruence | reflexivity]).
Qed.

(** The scenario of ordered rows with four permutations configured. *)
Example CreateDataSet_ordered_four_configured DataProvider :
  GetOrder DataProvider = NCB.Ordered ->
  option_map PermutationsCount
    (match CreateDataSet Config_large (Some DataProvider) None with
     | Returned dataSets => Some dataSets
     | _ => None
     end) = Some 1.
Proof. intros H. cbn. unfold RequestedPermutationCount. rewrite H. reflexivity. Qed.

(* ================================================================== *)
(** ** [PointDim] *)

Lemma AddEstimationTask_helpers estimator depth :
  length (TaskHelpers (AddEstimationTask estimator depth))
  = S (length (TaskHelpers estimator)).
Proof.
  unfold AddEstimationTask, NextTask. cbn.
  rewrite removelast_last, length_app. cbn. lia.
Qed.

Lemma AddEstimationTask_end estimator depth :
  PointEnd (AddEstimationTask estimator depth) = PointEnd estimator + 2 ^ depth.
Proof.
  unfold PointEnd, AddEstimationTask, NextTask. cbn.
  rewrite last_last. cbn.
  destruct (TaskSlices estimator); reflexivity.
Qed.

Lemma fold_AddEstimationTask depths : forall estimator,
  let estimator' := fold_left AddEstimationTask depths estimator in
  length (TaskHelpers estimator')
  = (length (TaskHelpers estimator) + length depths)%nat /\
  PointEnd estimator' = PointEnd estimator + TotalLeafCount depths.
Proof.
  induction depths as [| depth depths IH]; intros estimator; cbn.
  - split; lia.
  - destruct (IH (AddEstimationTask estimator depth)) as [Hlen Hend].
    rewrite Hlen, Hend, AddEstimationTask_helpers, AddEstimationTask_end.
    fold (TotalLeafCount depths). split; lia.
Qed.

Lemma TotalLeafCount_nonneg depths : 0 <= TotalLeafCount depths.
Proof.
  induction depths as [| depth depths IH]; [cbn; lia |].
  change (0 <= 2 ^ depth + TotalLeafCount depths).
  pose proof (Z.pow_nonneg 2 depth ltac:(lia)). lia.
Qed.

(** C9. For an estimator on which tasks for models of the given depths were
    registered, with a total leaf count that fits 32 bits: [PointDim] fails
    if and only if no task was registered, and with at least one task it
    returns the total leaf count, the sum of [2^depth] over the tasks. *)
Theorem PointDim_total_leaf_count depths :
  Forall (fun depth => 0 <= depth) depths ->
  TotalLeafCount depths < 2 ^ 32 ->
  (fails (PointDim (RegisterTasks depths)) <-> depths = []) /\
  (depths <> [] -> PointDim (RegisterTasks depths) = Returned (TotalLeafCount depths)).
Proof.
  intros _ Hfit.
  pose proof (fold_AddEstimationTask depths NewEstimator) as [Hlen Hend].
  cbn in Hlen, Hend. fold (RegisterTasks depths) in Hlen, Hend.
  assert (Hsome : depths <> [] ->
                  PointDim (RegisterTasks depths) = Returned (TotalLeafCount depths)).
  { intros Hne. unfold PointDim. rewrite Hlen.
    destruct depths as [| depth depths]; [congruence |]. cbn [length Nat.eqb negb].
    rewrite ensure_true. cbn [bind].
    fold (PointEnd (RegisterTasks (depth :: depths))). rewrite Hend.
    change (PointEnd NewEstimator) with 0.
    replace (0 + TotalLeafCount (depth :: depths))
      with (TotalLeafCount (depth :: depths)) by lia.
    rewrite wrap32_small; [reflexivity |].
    split; [apply TotalLeafCount_nonneg | assumption]. }
  split; [split |].
  - intros [e He]. destruct depths as [| depth depths]; [reflexivity |].
    rewrite Hsome in He by discriminate. discriminate.
  - intros ->. exists NoEstimationTask. reflexivity.
  - exact Hsome.
Qed.

Lemma PointDim_total_leaf_count_witness :
  Forall (fun depth => 0 <= depth) [6; 6; 3] /\
  TotalLeafCount [6; 6; 3] < 2 ^ 32 /\
  (fails (PointDim (RegisterTasks [6; 6; 3])) <-> [6; 6; 3] = []) /\
  ([6; 6; 3] <> [] ->
   PointDim (RegisterTasks [6; 6; 3]) = Returned (TotalLeafCount [6; 6; 3])).
Proof.
  assert (H1 : Forall (fun depth => 0 <= depth) [6; 6; 3])
    by (repeat constructor; lia).
  assert (H2 : TotalLeafCount [6; 6; 3] < 2 ^ 32) by (vm_compute; reflexivity).
  split; [exact H1 | split; [exact H2 |]].
  exact (PointDim_total_leaf_count [6; 6; 3] H1 H2).
Defined.

(* ================================================================== *)
(** ** [CreateFolds] *)

Lemma back_snoc folds f : back (folds ++ [f]) = f.
Proof. unfold back. apply last_last. Qed.

Lemma nth_error_back folds :
  folds <> [] -> nth_error folds (length folds - 1) = Some (back folds).
Proof.
  intros Hne. destruct (exists_last Hne) as (init & f & ->).
  rewrite back_snoc, length_app. cbn [length].
  rewrite nth_error_app2 by lia.
  replace (length init + 1 - 1 - length init)%nat with 0%nat by lia.
  reflexivity.
Qed.

Lemma folds_linked_snoc folds f :
  folds <> [] ->
  folds_linked folds ->
  Right (EstimateSamples f) = Right (QualityEvaluateSamples (back folds)) ->
  Right (QualityEvaluateSamples (back folds)) < Right (QualityEvaluateSamples f) ->
  folds_linked (folds ++ [f]).
Proof.
  intros Hne Hlinked Hest Hlt i f1 f2 H1 H2.
  destruct (Nat.lt_ge_cases (S i) (length folds)) as [Hin | Hout].
  - rewrite nth_error_app1 in H1, H2 by lia. eauto.
  - assert (Hlen : (S i < length (folds ++ [f]))%nat)
      by (apply nth_error_Some; congruence).
    rewrite length_app in Hlen. cbn [length] in Hlen.
    assert (Hi : i = (length folds - 1)%nat) by lia.
    rewrite nth_error_app1 in H1 by lia.
    rewrite nth_error_app2 in H2 by lia.
    replace (S i - length folds)%nat with 0%nat in H2 by lia.
    cbn in H2. injection H2 as <-.
    rewrite Hi, (nth_error_back folds Hne) in H1. injection H1 as <-.
    split; assumption.
Qed.

(** The loop cannot raise a configuration error. *)
Lemma GrowFolds_never_fails fuel : forall sampleCount growthRate G folds e,
  GrowFolds fuel sampleCount growthRate G folds <> Failed e.
Proof.
  induction fuel as [| fuel IH]; intros N g G folds e; cbn [GrowFolds];
    destruct (_ <? _); try discriminate.
  apply IH.
Qed.

(** The checks, in the order of the code: they come after the minimum
    estimation size was computed, and nothing is built before them. *)
Lemma CreateFolds_checks Config devCount sampleCount growthRate G :
  CreateFolds Config devCount sampleCount growthRate G =
  (first <- FirstEstimationSize Config devCount sampleCount G ;;
   if negb (GetQueryCount G >=? wrap32 (4 * devCount)) then Failed PoolTooSmallForDevices
   else if first =? 0 then Failed MinLearnSizeNotPositive
   else if negb (PrimFloat.ltb 1 growthRate) then Failed GrowRateNotAboveOne
   else match BoostingType Config with
        | Plain => Returned (plain_folds sampleCount)
        | Ordered =>
            GrowFolds (Z.to_nat sampleCount) sampleCount growthRate G
              [{| EstimateSamples := {| Left := 0; Right := first |};
                  QualityEvaluateSamples :=
                    {| Left := first;
                       Right := NextQueryOffsetForLine G
                                  (Z.min (ScaleByGrowth first growthRate) sampleCount) |} |}]
        end).
Proof.
  unfold CreateFolds.
  destruct (FirstEstimationSize Config devCount sampleCount G) as [first | e |];
    cbn [bind]; try reflexivity.
  destruct (GetQueryCount G >=? wrap32 (4 * devCount)); [| reflexivity].
  destruct (first =? 0); [reflexivity |].
  destruct (PrimFloat.ltb 1 growthRate); reflexivity.
Qed.

(** The first estimation size is the boundary after the minimum estimation
    size, raised on several devices. *)
Lemma FirstEstimationSize_Returned Config devCount sampleCount G size :
  MinEstimationSize Config sampleCount = Returned size ->
  FirstEstimationSize Config devCount sampleCount G =
  Returned (if devCount >? 1
            then Z.max (NextQueryOffsetForLine G size)
                       (GetQueryOffset G
                          (Z.min (wrap32 (16 * devCount)) (GetQueryCount G / 2)))
            else NextQueryOffsetForLine G size).
Proof. intros E. unfold FirstEstimationSize. rewrite E. reflexivity. Qed.

Lemma FirstEstimationSize_failure Config devCount sampleCount G e :
  FirstEstimationSize Config devCount sampleCount G = Failed e ->
  e = IntegerDivideByZero /\ MinFoldSize Config = 0 /\ 500 <= sampleCount.
Proof.
  unfold FirstEstimationSize.
  destruct (MinEstimationSize Config sampleCount) as [size | e' |] eqn:E; cbn [bind];
    try discriminate.
  intros [= <-]. exact (MinEstimationSize_failure _ _ _ E).
Qed.

(** A minimum fold size of 0 stops [CreateFolds] before its checks. *)
Lemma CreateFolds_zero_fold_size Config devCount sampleCount growthRate G :
  500 <= sampleCount ->
  MinFoldSize Config = 0 ->
  CreateFolds Config devCount sampleCount growthRate G = Failed IntegerDivideByZero.
Proof.
  intros Hbig Hmin. unfold CreateFolds, FirstEstimationSize.
  rewrite (MinEstimationSize_zero_fold_size Config sampleCount Hbig Hmin). reflexivity.
Qed.

Section CreateFoldsCorrect.

Variable Config : TBoostingOptions.
Variables devCount sampleCount : Z.
Variable growthRate : float.
Variable G : IQueriesGrouping.

Hypothesis devices : 1 <= devCount < 2 ^ 30.
Hypothesis min_fold_size : 0 < MinFoldSize Config.
Hypothesis grouping : grouping_ok G sampleCount.
Hypothesis enough_groups : 4 * devCount <= GetQueryCount G.

Local Abbreviation aligned := (is_group_offset G sampleCount).

Lemma sampleCount_positive : 0 < sampleCount.
Proof. pose proof (queries_le_samples _ _ grouping). lia. Qed.

Lemma zero_aligned : aligned 0.
Proof.
  right. exists 0. split; [lia |].
  apply (first_offset _ _ grouping). lia.
Qed.

(** One step of growth from a right end [r]. *)
Lemma next_end r :
  growth_ok sampleCount growthRate ->
  0 < r <= sampleCount ->
  let e := NextQueryOffsetForLine G (Z.min (ScaleByGrowth r growthRate) sampleCount) in
  r <= e <= sampleCount /\ (r < sampleCount -> r < e) /\ aligned e.
Proof.
  intros growth Hr e. pose proof (growth r Hr) as Hg.
  set (m := Z.min (ScaleByGrowth r growthRate) sampleCount) in *.
  assert (Hm : r <= m <= sampleCount) by (unfold m; lia).
  assert (Ha : aligned e) by (apply (next_is_offset _ _ grouping); lia).
  destruct (Z.eq_dec m sampleCount) as [E | NE].
  - assert (He : e = sampleCount)
      by (unfold e; rewrite E; apply (next_at_end _ _ grouping)).
    repeat split; try assumption; lia.
  - pose proof (next_progress _ _ grouping m ltac:(lia)) as Hp. fold e in Hp.
    repeat split; try assumption; lia.
Qed.

Lemma MinEstimationSize_range :
  exists size, MinEstimationSize Config sampleCount = Returned size /\
               0 <= size <= sampleCount.
Proof.
  pose proof sampleCount_positive as HN.
  destruct (Z.lt_ge_cases sampleCount 500) as [Hsmall | Hbig].
  - exists 1. split; [apply MinEstimationSize_small; exact Hsmall | lia].
  - eexists. split; [apply MinEstimationSize_large; lia |].
    destruct (18 <=? _).
    + pose proof (ceil_quotient_div sampleCount (2 ^ 18) ltac:(lia)) as Hq.
      pose proof (is_ceil_quotient_bounds _ sampleCount (2 ^ 18) ltac:(lia) HN Hq). lia.
    + pose proof (Z.div_pos sampleCount 50 ltac:(lia) ltac:(lia)).
      pose proof (Z.div_le_upper_bound sampleCount 50 sampleCount ltac:(lia) ltac:(lia)).
      lia.
Qed.

(** The first estimation size is a positive group boundary. *)
Lemma FirstEstimationSize_range :
  exists first,
    FirstEstimationSize Config devCount sampleCount G = Returned first /\
    0 < first <= sampleCount /\ aligned first.
Proof.
  pose proof sampleCount_positive as HN.
  destruct MinEstimationSize_range as (size & Esize & Hm).
  rewrite (FirstEstimationSize_Returned _ _ _ _ _ Esize).
  eexists. split; [reflexivity |].
  set (first := NextQueryOffsetForLine G size).
  assert (Hfirst : 0 < first <= sampleCount /\ aligned first).
  { split; [| apply (next_is_offset _ _ grouping); lia].
    destruct (Z.eq_dec size sampleCount) as [E | NE].
    - unfold first. rewrite E, (next_at_end _ _ grouping). lia.
    - pose proof (next_progress _ _ grouping size ltac:(lia)) as Hp.
      fold first in Hp. lia. }
  destruct (devCount >? 1); [| exact Hfirst].
  set (q := Z.min (wrap32 (16 * devCount)) (GetQueryCount G / 2)).
  assert (Hq : 0 <= q < GetQueryCount G).
  { pose proof (wrap32_range (16 * devCount)).
    pose proof (Z.div_pos (GetQueryCount G) 2 ltac:(lia) ltac:(lia)).
    pose proof (Z.div_lt (GetQueryCount G) 2 ltac:(lia) ltac:(lia)).
    unfold q. lia. }
  pose proof (offset_range _ _ grouping q Hq) as Ho.
  destruct Hfirst as [Hr Ha].
  split; [lia |].
  destruct (Z.max_spec first (GetQueryOffset G q)) as [[_ ->] | [_ ->]].
  - right. exists q. split; [exact Hq | reflexivity].
  - exact Ha.
Qed.

Lemma GrowFolds_correct fuel :
  growth_ok sampleCount growthRate ->
  forall folds,
  folds_invariant G sampleCount folds ->
  sampleCount - Right (QualityEvaluateSamples (back folds)) <= Z.of_nat fuel ->
  exists folds',
    GrowFolds fuel sampleCount growthRate G folds = Returned folds' /\
    folds_invariant G sampleCount folds' /\
    Right (QualityEvaluateSamples (back folds')) = sampleCount.
Proof.
  intros growth.
  induction fuel as [| fuel IH]; intros folds Hinv Hfuel;
    pose proof Hinv as (Hne & Hleft & Hlinked & Haligned & Hright);
    cbn [GrowFolds]; cbv zeta;
    destruct (Z.ltb_spec (Right (QualityEvaluateSamples (back folds))) sampleCount)
      as [Hlt | Hge].
  - lia.
  - exists folds. split; [reflexivity | split; [exact Hinv | lia]].
  - set (r := Right (QualityEvaluateSamples (back folds))) in *.
    destruct (next_end r growth Hright) as (He & Hprogress & Hea).
    set (e := NextQueryOffsetForLine G (Z.min (ScaleByGrowth r growthRate) sampleCount)) in *.
    specialize (Hprogress Hlt).
    set (f := {| EstimateSamples := {| Left := 0; Right := r |};
                 QualityEvaluateSamples := {| Left := r; Right := e |} |}).
    assert (Hra : aligned r).
    { assert (Hb : In (back folds) folds).
      { destruct (exists_last Hne) as (init & l & ->). rewrite back_snoc.
        apply in_or_app. right. left. reflexivity. }
      destruct (Haligned _ Hb) as (_ & _ & _ & Hr). exact Hr. }
    apply IH.
    + split; [| split; [| split; [| split]]].
      * intros E. apply app_eq_nil in E. destruct E as [_ E]. discriminate.
      * intros f' [Hin | [<- | []]]%in_app_or; [auto | reflexivity].
      * apply folds_linked_snoc; [assumption | assumption | reflexivity | exact Hprogress].
      * intros f' [Hin | [<- | []]]%in_app_or; [auto |].
        repeat split; cbn; try assumption. apply zero_aligned.
      * rewrite back_snoc. cbn. lia.
    + rewrite back_snoc. cbn. lia.
  - exists folds. split; [reflexivity | split; [exact Hinv | lia]].
Qed.

(** With scaled sizes that do not fall below their sizes, which ordered
    mode alone needs, [CreateFolds] returns the folds of its mode. *)
Lemma CreateFolds_grows :
  PrimFloat.ltb 1 growthRate = true ->
  (BoostingType Config = Ordered -> growth_ok sampleCount growthRate) ->
  exists folds,
    CreateFolds Config devCount sampleCount growthRate G = Returned folds /\
    match BoostingType Config with
    | Plain => folds = plain_folds sampleCount
    | Ordered => ordered_folds_ok G sampleCount folds
    end.
Proof.
  intros Hrate growth.
  destruct FirstEstimationSize_range as (first & Efirst & Hfirst & Hfa).
  pose proof sampleCount_positive as HN.
  rewrite CreateFolds_checks, Efirst. cbn [bind].
  rewrite (wrap32_small (4 * devCount)) by lia.
  destruct (Z.geb_spec (GetQueryCount G) (4 * devCount)) as [_ | Hfew]; [| lia].
  cbn [negb].
  destruct (Z.eqb_spec first 0) as [Hzero | _]; [lia |].
  rewrite Hrate. cbn [negb].
  destruct (BoostingType Config).
  - eexists. split; reflexivity.
  - specialize (growth eq_refl).
    destruct (next_end first growth Hfirst) as (He & _ & Hea).
    set (testEnd := NextQueryOffsetForLine G
                      (Z.min (ScaleByGrowth first growthRate) sampleCount)) in *.
    set (f := {| EstimateSamples := {| Left := 0; Right := first |};
                 QualityEvaluateSamples := {| Left := first; Right := testEnd |} |}).
    destruct (GrowFolds_correct (Z.to_nat sampleCount) growth [f])
      as (folds & E & Hinv & Hlast).
    + split; [discriminate | split; [| split; [| split]]].
      * intros f' [<- | []]. reflexivity.
      * intros [| i] f1 f2 H1 H2; cbn in H2; [discriminate |].
        destruct i; discriminate.
      * intros f' [<- | []]. repeat split; cbn; try assumption. apply zero_aligned.
      * cbn. lia.
    + cbn. lia.
    + exists folds. split; [exact E |].
      destruct Hinv as (Hne & Hleft & Hlinked & Haligned & _).
      split; [exact Hne | split; [exact Hleft | split; [exact Hlinked |]]].
      split; [exact Hlast | exact Haligned].
Qed.

End CreateFoldsCorrect.

(* ------------------------------------------------------------------ *)
(** *** The promises hold of the groupings at hand *)

Lemma In_Zrange x n : 0 <= x < n -> In x (Zrange n).
Proof.
  intros H. unfold Zrange. apply in_map_iff. exists (Z.to_nat x).
  split; [lia |]. apply in_seq. lia.
Qed.

Lemma Zrange_In x n : In x (Zrange n) -> 0 <= x < n.
Proof.
  unfold Zrange. intros (k & <- & Hk)%in_map_iff. apply in_seq in Hk. lia.
Qed.

Lemma is_group_offsetb_sound G sampleCount b :
  is_group_offsetb G sampleCount b = true -> is_group_offset G sampleCount b.
Proof.
  unfold is_group_offsetb. intros [H | H]%orb_true_iff.
  - left. lia.
  - right. apply existsb_exists in H. destruct H as (q & Hq & E).
    exists q. split; [apply Zrange_In; exact Hq | lia].
Qed.

Lemma grouping_okb_sound G sampleCount :
  grouping_okb G sampleCount = true -> grouping_ok G sampleCount.
Proof.
  unfold grouping_okb. rewrite !andb_true_iff.
  intros (((((H1 & H2) & H3) & H4) & H5) & H6).
  rewrite forallb_forall in H3, H4, H6.
  constructor.
  - lia.
  - intros Hpos. apply orb_true_iff in H2. destruct H2; lia.
  - intros q Hq. specialize (H3 q (In_Zrange _ _ Hq)). lia.
  - intros line Hl. specialize (H4 line (In_Zrange _ _ Hl)). lia.
  - lia.
  - intros line Hl. apply is_group_offsetb_sound, H6, In_Zrange. lia.
Qed.

Lemma products_fitb_sound sampleCount growthRate :
  products_fitb sampleCount growthRate = true -> products_fit sampleCount growthRate.
Proof.
  unfold products_fitb. rewrite forallb_forall. intros H r Hr.
  assert (Hin : In r (Zrange (sampleCount + 1))) by (apply In_Zrange; lia).
  specialize (H r Hin).
  apply orb_true_iff in H. destruct H as [H | H]; [lia | exact H].
Qed.

(** Data without groups keeps the promises, whatever its size. *)
Lemma TWithoutQueriesGrouping_ok docCount :
  0 <= docCount -> grouping_ok (TWithoutQueriesGrouping docCount) docCount.
Proof.
  intros Hdoc. constructor; cbn; try lia.
  intros line Hl. unfold is_group_offset. cbn.
  destruct (Z.eq_dec (Z.min (line + 1) docCount) docCount) as [E | NE].
  - left. exact E.
  - right. exists (line + 1). split; lia.
Qed.

Lemma SixGroups_ok : grouping_ok SixGroups 12.
Proof. apply grouping_okb_sound. vm_compute. reflexivity. Qed.

Lemma products_small_fit : products_fit 12 (FoldLenMultiplier Config_small).
Proof. apply products_fitb_sound. vm_compute. reflexivity. Qed.

(** A thousand rows and the growth rate 2: every product is below [2^32]. *)
Example products_thousand_fit : products_fit 1000 2.
Proof. apply products_fitb_sound. vm_compute. reflexivity. Qed.

(* ------------------------------------------------------------------ *)
(** *** The product of a size and a growth rate above 1

    [right * growthRate] is the IEEE product, rounded to nearest, of the
    size converted to [double] and the growth rate.  With a growth rate
    above 1 and a product below [2^32] the cast gives a size that is not
    below [right]: the facts below follow the product through the rounding
    of [SpecFloat]. *)

(** Binary digits. *)

Lemma digits2_pos_bounds m :
  2 ^ (Zpos (digits2_pos m) - 1) <= Zpos m < 2 ^ Zpos (digits2_pos m).
Proof.
  induction m as [m IH | m IH |]; cbn [digits2_pos].
  - rewrite Pos2Z.inj_succ.
    replace (Z.succ (Zpos (digits2_pos m)) - 1) with (Z.succ (Zpos (digits2_pos m) - 1)) by lia.
    rewrite !Z.pow_succ_r by lia. lia.
  - rewrite Pos2Z.inj_succ.
    replace (Z.succ (Zpos (digits2_pos m)) - 1) with (Z.succ (Zpos (digits2_pos m) - 1)) by lia.
    rewrite !Z.pow_succ_r by lia. lia.
  - cbn. lia.
Qed.

Lemma digits2_pos_iter_xO m d :
  digits2_pos (Pos.iter xO m d) = (digits2_pos m + d)%positive.
Proof.
  induction d as [| d IH] using Pos.peano_ind.
  - cbn. lia.
  - rewrite Pos.iter_succ. cbn [digits2_pos]. rewrite IH. lia.
Qed.

Lemma Zpos_iter_xO m d : Zpos (Pos.iter xO m d) = Zpos m * 2 ^ Zpos d.
Proof.
  induction d as [| d IH] using Pos.peano_ind.
  - cbn. lia.
  - rewrite Pos.iter_succ, Pos2Z.inj_xO, IH, Pos2Z.inj_succ, Z.pow_succ_r by lia. lia.
Qed.

(** Shifts to the right, as [SpecFloat] rounds with them. *)

Lemma shr_1_m mrs : 0 <= shr_m mrs -> shr_m (shr_1 mrs) = shr_m mrs / 2.
Proof.
  destruct mrs as [m r s]. cbn [shr_m shr_1]. intros Hm.
  destruct m as [| p | p]; [reflexivity | | lia].
  destruct p as [p | p |]; cbn [shr_m].
  - rewrite Pos2Z.inj_xI. apply Z.div_unique with 1; lia.
  - rewrite Pos2Z.inj_xO. apply Z.div_unique with 0; lia.
  - reflexivity.
Qed.

Lemma iter_pos_shr_1_m p : forall mrs,
  0 <= shr_m mrs ->
  shr_m (iter_pos shr_1 p mrs) = shr_m mrs / 2 ^ Zpos p.
Proof.
  induction p as [p IH | p IH |]; intros mrs Hm; cbn [iter_pos].
  - assert (Hp : 0 < 2 ^ Zpos p) by (apply Z.pow_pos_nonneg; lia).
    assert (H1 : 0 <= shr_m (shr_1 mrs))
      by (rewrite shr_1_m by exact Hm; apply Z.div_pos; lia).
    assert (H2 : 0 <= shr_m (iter_pos shr_1 p (shr_1 mrs)))
      by (rewrite IH by exact H1; apply Z.div_pos; lia).
    rewrite IH by exact H2. rewrite IH by exact H1. rewrite shr_1_m by exact Hm.
    rewrite !Z.div_div by lia.
    f_equal.
    assert (E : 2 ^ Zpos p~1 = 2 * (2 ^ Zpos p * 2 ^ Zpos p)).
    { rewrite <- Z.pow_add_r, <- Z.pow_succ_r by lia. f_equal. lia. }
    rewrite E. lia.
  - assert (Hp : 0 < 2 ^ Zpos p) by (apply Z.pow_pos_nonneg; lia).
    assert (H1 : 0 <= shr_m (iter_pos shr_1 p mrs))
      by (rewrite IH by exact Hm; apply Z.div_pos; lia).
    rewrite IH by exact H1. rewrite IH by exact Hm.
    rewrite Z.div_div by lia.
    f_equal.
    assert (E : 2 ^ Zpos p~0 = 2 ^ Zpos p * 2 ^ Zpos p).
    { rewrite <- Z.pow_add_r by lia. f_equal. lia. }
    rewrite E. reflexivity.
  - rewrite shr_1_m by exact Hm. reflexivity.
Qed.

(** [shr] divides the mantissa by a power of two and raises the exponent. *)
Lemma shr_spec mrs e n :
  0 <= shr_m mrs ->
  shr_m (fst (shr mrs e n)) = shr_m mrs / 2 ^ Z.max 0 n /\
  snd (shr mrs e n) = e + Z.max 0 n.
Proof.
  intros Hm. destruct n as [| p | p]; cbn [shr fst snd].
  - rewrite Z.max_id. cbn. rewrite Z.div_1_r. lia.
  - rewrite (iter_pos_shr_1_m p mrs Hm).
    replace (Z.max 0 (Zpos p)) with (Zpos p) by lia. split; reflexivity.
  - replace (Z.max 0 (Zneg p)) with 0 by lia. cbn. rewrite Z.div_1_r. lia.
Qed.

Lemma shr_record_of_loc_m m l : shr_m (shr_record_of_loc m l) = m.
Proof. destruct l as [| []]; reflexivity. Qed.

Lemma round_nearest_even_bounds m l :
  m <= round_nearest_even m l <= m + 1.
Proof.
  unfold round_nearest_even. destruct l as [| []]; try lia.
  destruct (Z.even m); lia.
Qed.

(** Rounding a positive mantissa. *)

Local Abbreviation fexp64 := (fexp prec emax).

Lemma fexp64_eq x : fexp64 x = Z.max (x - 53) (-1074).
Proof. reflexivity. Qed.

(** What [binary_round_aux] computes from an exact positive mantissa: a
    shift by [a] digits, a rounding, and a shift by [b] digits. *)
Lemma binary_round_aux_spec M E a :
  0 < M ->
  a = Z.max 0 (Z.max (Zdigits2 M + E - 53) (-1074) - E) ->
  exists m1',
    M / 2 ^ a <= m1' <= M / 2 ^ a + 1 /\
    (a = 0 -> m1' = M) /\
    forall b,
      b = Z.max 0 (Z.max (Zdigits2 m1' + (E + a) - 53) (-1074) - (E + a)) ->
      binary_round_aux prec emax false M E loc_Exact
      = match m1' / 2 ^ b with
        | Z0 => S754_zero false
        | Zpos m => if E + a + b <=? 971
                    then S754_finite false m (E + a + b) else S754_infinity false
        | Zneg _ => S754_nan
        end.
Proof.
  intros HM Ha. unfold binary_round_aux, shr_fexp. rewrite fexp64_eq.
  set (n := Z.max (Zdigits2 M + E - 53) (-1074) - E) in *.
  pose proof (shr_spec (shr_record_of_loc M loc_Exact) E n) as H1.
  rewrite shr_record_of_loc_m in H1. specialize (H1 ltac:(lia)).
  destruct (shr (shr_record_of_loc M loc_Exact) E n) as [mrs' e'] eqn:E1.
  cbn [fst snd] in H1. destruct H1 as [Hm1 He1]. rewrite <- Ha in Hm1, He1.
  set (m1' := round_nearest_even (shr_m mrs') (loc_of_shr_record mrs')).
  exists m1'.
  pose proof (round_nearest_even_bounds (shr_m mrs') (loc_of_shr_record mrs')) as Hround.
  fold m1' in Hround. rewrite Hm1 in Hround.
  split; [exact Hround | split].
  - intros Hzero. unfold m1'.
    assert (Hn : n <= 0) by lia.
    assert (Emrs : mrs' = shr_record_of_loc M loc_Exact).
    { destruct n; cbn [shr] in E1; [| lia |]; now injection E1. }
    rewrite Emrs. reflexivity.
  - intros b Hb.
    assert (Hm1' : 0 <= m1').
    { assert (0 <= M / 2 ^ a) by (apply Z.div_pos; [lia | apply Z.pow_pos_nonneg; lia]). lia. }
    rewrite fexp64_eq. subst e'.
    set (n2 := Z.max (Zdigits2 m1' + (E + a) - 53) (-1074) - (E + a)) in *.
    pose proof (shr_spec (shr_record_of_loc m1' loc_Exact) (E + a) n2) as H2.
    rewrite shr_record_of_loc_m in H2. specialize (H2 Hm1').
    destruct (shr (shr_record_of_loc m1' loc_Exact) (E + a) n2) as [mrs'' e''] eqn:E2.
    cbn [fst snd] in H2. destruct H2 as [Hm2 He2].
    rewrite <- Hb in Hm2, He2. rewrite Hm2, He2. reflexivity.
Qed.

Lemma Zdigits2_pos m : Zdigits2 (Zpos m) = Zpos (digits2_pos m).
Proof. reflexivity. Qed.

(** A positive integer below [2^k] has at most [k] digits. *)
Lemma digits2_pos_le m k : 0 <= k -> Zpos m < 2 ^ k -> Zpos (digits2_pos m) <= k.
Proof.
  intros Hk Hm. destruct (digits2_pos_bounds m) as [Hlow _].
  destruct (Z.le_gt_cases (Zpos (digits2_pos m)) k) as [H | H]; [exact H |].
  assert (2 ^ k <= 2 ^ (Zpos (digits2_pos m) - 1)) by (apply Z.pow_le_mono_r; lia).
  lia.
Qed.

(** The conversion of a [ui32] to [double] is exact. *)

Lemma ui32_to_double_exact r :
  0 < r < 2 ^ 32 ->
  exists mx d,
    Prim2SF (ui32_to_double r) = S754_finite false mx (Zneg d) /\
    Zpos mx = r * 2 ^ Zpos d.
Proof.
  intros Hr. unfold ui32_to_double.
  rewrite of_uint63_spec, Uint63.of_Z_spec.
  rewrite Z.mod_small by (change wB with (2 ^ 63); lia).
  destruct r as [| p | p]; try lia.
  cbn [binary_normalize]. unfold binary_round.
  assert (Hdp : Zpos (digits2_pos p) <= 32) by (apply digits2_pos_le; lia).
  rewrite fexp64_eq.
  replace (Z.max (Zpos (digits2_pos p) + 0 - 53) (-1074))
    with (Zpos (digits2_pos p) - 53) by lia.
  unfold shl_align.
  destruct (Zpos (digits2_pos p) - 53 - 0) as [| q | d] eqn:Ed; try lia.
  assert (Ee : Zpos (digits2_pos p) - 53 = Zneg d) by lia.
  rewrite Ee.
  exists (Pos.iter xO p d), d. split; [| apply Zpos_iter_xO].
  assert (Hdigits : Zdigits2 (Zpos (Pos.iter xO p d)) = 53).
  { rewrite Zdigits2_pos, digits2_pos_iter_xO. lia. }
  destruct (binary_round_aux_spec (Zpos (Pos.iter xO p d)) (Zneg d) 0 ltac:(lia))
    as (m1' & _ & Hexact & Hrun); [rewrite Hdigits; lia |].
  specialize (Hexact eq_refl). subst m1'.
  rewrite (Hrun 0) by (rewrite Hdigits; lia).
  change (2 ^ 0) with 1. rewrite Z.div_1_r.
  replace (Zneg d + 0 + 0) with (Zneg d) by lia.
  replace (Zneg d <=? 971) with true by (symmetry; apply Z.leb_le; lia).
  reflexivity.
Qed.

(** A growth rate above 1 is positive infinity or a finite value of at
    least 1. *)

Lemma valid_digits m e :
  valid_binary (S754_finite false m e) = true ->
  Z.max (Zpos (digits2_pos m) + e - 53) (-1074) = e.
Proof.
  unfold SpecFloat.valid_binary, bounded, canonical_mantissa. rewrite fexp64_eq.
  intros H. apply andb_prop in H. destruct H as [H _]. apply Z.eqb_eq in H. exact H.
Qed.

Lemma above_one g :
  PrimFloat.ltb 1 g = true ->
  Prim2SF g = S754_infinity false \/
  exists mg eg, Prim2SF g = S754_finite false mg eg /\
                (eg <= 0 -> 2 ^ (- eg) <= Zpos mg).
Proof.
  rewrite FloatAxioms.ltb_spec. pose proof (Prim2SF_valid g) as Hvalid.
  change (Prim2SF 1) with (S754_finite false 4503599627370496 (-52)).
  destruct (Prim2SF g) as [s | s | | s m e]; unfold SFltb, SFcompare;
    try destruct s; try discriminate.
  - intros _. left. reflexivity.
  - intros H. right. exists m, e. split; [reflexivity |]. intros He.
    apply valid_digits in Hvalid.
    destruct (Z.compare_spec (-52) e) as [E | Hlt | Hgt]; try discriminate.
    + subst e. change (Pos.compare_cont Eq 4503599627370496 m)
        with (Pos.compare 4503599627370496 m) in H.
      destruct (Pos.compare_spec 4503599627370496 m) as [? | Hm | ?]; try discriminate.
      change (2 ^ (- -52)) with 4503599627370496. lia.
    + assert (Hd : Zpos (digits2_pos m) = 53) by lia.
      destruct (digits2_pos_bounds m) as [Hlow _]. rewrite Hd in Hlow.
      apply Z.le_trans with (2 ^ 52); [apply Z.pow_le_mono_r; lia | exact Hlow].
Qed.

(** Powers of two. *)

Lemma pow2_pos k : 0 <= k -> 0 < 2 ^ k.
Proof. intros H. apply Z.pow_pos_nonneg; lia. Qed.

Lemma pow2_lt_inv a b : 0 <= b -> 2 ^ a < 2 ^ b -> a < b.
Proof.
  intros Hb H. destruct (Z.lt_ge_cases a b) as [Hlt | Hge]; [exact Hlt |].
  assert (2 ^ b <= 2 ^ a) by (apply Z.pow_le_mono_r; lia). lia.
Qed.

Lemma pow2_le_inv a b : 0 <= b -> 0 <= a -> 2 ^ a <= 2 ^ b -> a <= b.
Proof.
  intros Hb Ha H. destruct (Z.le_gt_cases a b) as [Hle | Hgt]; [exact Hle |].
  assert (2 ^ b < 2 ^ a) by (apply Z.pow_lt_mono_r; lia). lia.
Qed.

(** The rounded product of a size [r] and a factor of at least 1, when it
    is a valid double below [2^32]: its integer part is between [r] and
    [2^32]. *)
Lemma scaled_size r mx d mg eg :
  0 < r ->
  Zpos mx = r * 2 ^ Zpos d ->
  (eg <= 0 -> 2 ^ (- eg) <= Zpos mg) ->
  valid_binary (binary_round_aux prec emax false (Zpos (mx * mg)) (Zneg d + eg) loc_Exact)
  = true ->
  SFltb (binary_round_aux prec emax false (Zpos (mx * mg)) (Zneg d + eg) loc_Exact)
        (S754_finite false 4503599627370496 (-20)) = true ->
  exists m e,
    binary_round_aux prec emax false (Zpos (mx * mg)) (Zneg d + eg) loc_Exact
    = S754_finite false m (Zneg e) /\
    r <= Zpos m / 2 ^ Zpos e < 2 ^ 32.
Proof.
  intros Hr Hmx Hmg.
  set (M := Zpos (mx * mg)). set (E := Zneg d + eg).
  assert (EM : M = r * 2 ^ Zpos d * Zpos mg) by (unfold M; rewrite Pos2Z.inj_mul, Hmx; lia).
  assert (Hd : 0 < 2 ^ Zpos d) by (apply pow2_pos; lia).
  assert (Hmg1 : 1 <= Zpos mg) by lia.
  (* the value of the product is at least [r] *)
  assert (Hval : E <= 0 -> r * 2 ^ (- E) <= M).
  { intros HE. destruct (Z.le_gt_cases eg 0) as [Heg | Heg].
    - specialize (Hmg Heg).
      replace (- E) with (Zpos d + - eg) by (unfold E; lia).
      rewrite Z.pow_add_r by lia. rewrite EM.
      assert (0 < 2 ^ (- eg)) by (apply pow2_pos; lia). nia.
    - assert (Hle : 2 ^ (- E) <= 2 ^ Zpos d) by (apply Z.pow_le_mono_r; unfold E; lia).
      rewrite EM. nia. }
  set (dM := Zpos (digits2_pos (mx * mg))).
  destruct (digits2_pos_bounds (mx * mg)) as [HMlow HMup]. fold M dM in HMlow, HMup.
  assert (HdM : 1 <= dM) by (unfold dM; lia).
  assert (F1 : 1 <= dM + E).
  { destruct (Z.le_gt_cases E 0) as [HE | HE]; [| lia].
    specialize (Hval HE).
    assert (H2 : 0 < 2 ^ (- E)) by (apply pow2_pos; lia).
    assert (Hlt : 2 ^ (- E) < 2 ^ dM) by nia.
    apply pow2_lt_inv in Hlt; lia. }
  set (a := Z.max 0 (dM - 53)).
  destruct (binary_round_aux_spec M E a ltac:(unfold M; lia)) as (m1' & Hm1' & _ & Hrun).
  { unfold M. rewrite Zdigits2_pos. fold dM. unfold a. lia. }
  set (k := dM - a). assert (Hk : 1 <= k <= 53) by (unfold k, a; lia).
  assert (Ha : 0 <= a) by (unfold a; lia).
  assert (H2a : 0 < 2 ^ a) by (apply pow2_pos; exact Ha).
  assert (Hm1low : 2 ^ (k - 1) <= M / 2 ^ a).
  { apply Z.div_le_lower_bound; [exact H2a |].
    rewrite <- Z.pow_add_r by lia. replace (a + (k - 1)) with (dM - 1) by (unfold k; lia).
    exact HMlow. }
  assert (Hm1up : M / 2 ^ a < 2 ^ k).
  { apply Z.div_lt_upper_bound; [exact H2a |].
    rewrite <- Z.pow_add_r by lia. replace (a + k) with dM by (unfold k; lia).
    exact HMup. }
  assert (Hk1 : 0 < 2 ^ (k - 1)) by (apply pow2_pos; lia).
  destruct m1' as [| q1 | q1]; try lia.
  set (d1 := Zpos (digits2_pos q1)).
  destruct (digits2_pos_bounds q1) as [Hqlow Hqup]. fold d1 in Hqlow, Hqup.
  assert (Hd1 : k <= d1 <= k + 1).
  { split.
    - assert (Hlt : 2 ^ (k - 1) < 2 ^ d1) by lia.
      apply pow2_lt_inv in Hlt; unfold d1; lia.
    - assert (Hle : 2 ^ (d1 - 1) <= 2 ^ k) by lia.
      apply pow2_le_inv in Hle; unfold d1; lia. }
  set (b := Z.max 0 (d1 - 53)).
  specialize (Hrun b).
  rewrite Zdigits2_pos in Hrun. fold d1 in Hrun.
  specialize (Hrun ltac:(unfold b, k in *; lia)).
  assert (Hb : 0 <= b <= d1 - 1) by (unfold b; lia).
  assert (H2b : 0 < 2 ^ b) by (apply pow2_pos; lia).
  assert (Hm2 : 1 <= Zpos q1 / 2 ^ b).
  { apply Z.div_le_lower_bound; [exact H2b |].
    assert (2 ^ b <= 2 ^ (d1 - 1)) by (apply Z.pow_le_mono_r; lia). lia. }
  destruct (Zpos q1 / 2 ^ b) as [| m | m] eqn:Em2; try lia.
  rewrite Hrun. intros Hvalid Hlt.
  destruct (E + a + b <=? 971); [| discriminate].
  set (e2 := E + a + b) in *.
  unfold SFltb, SFcompare in Hlt.
  assert (He2 : e2 <= -20 /\ (e2 = -20 -> Zpos m < 2 ^ 52)).
  { destruct (Z.compare_spec e2 (-20)) as [Heq | Hl | Hg]; try discriminate.
    - split; [lia |]. intros _.
      destruct (PosDef.Pos.compare_cont Eq m 4503599627370496) eqn:Hcmp;
        try discriminate.
      apply (proj1 (Pos.compare_lt_iff m 4503599627370496)) in Hcmp.
      apply Pos2Z.pos_lt_pos in Hcmp. exact Hcmp.
    - split; lia. }
  destruct He2 as [He2 He2eq].
  destruct e2 as [| e | e] eqn:Ee2; try lia.
  exists m, e. split; [reflexivity |].
  assert (HE : E <= 0) by lia.
  specialize (Hval HE).
  assert (H2e : 0 < 2 ^ Zpos e) by (apply pow2_pos; lia).
  split.
  - (* the floor of the product is at least [r] *)
    assert (Hchain : M / 2 ^ (- E) <= Zpos m / 2 ^ Zpos e).
    { replace (- E) with (a + b + Zpos e) by lia.
      rewrite !Z.pow_add_r by lia.
      rewrite <- !Z.div_div by lia.
      apply Z.div_le_mono; [exact H2e |].
      rewrite <- Em2. apply Z.div_le_mono; [exact H2b | lia]. }
    apply Z.le_trans with (M / 2 ^ (- E)); [| exact Hchain].
    apply Z.div_le_lower_bound; [apply pow2_pos; lia | lia].
  - (* and below [2^32] *)
    apply valid_digits in Hvalid.
    assert (Hdm : Zpos (digits2_pos m) <= 53) by lia.
    destruct (digits2_pos_bounds m) as [_ Hmup].
    assert (Hm53 : Zpos m < 2 ^ 53).
    { apply Z.lt_le_trans with (2 ^ Zpos (digits2_pos m)); [exact Hmup |].
      apply Z.pow_le_mono_r; lia. }
    apply Z.div_lt_upper_bound; [exact H2e |].
    destruct (Z.eq_dec (Zneg e) (-20)) as [E20 | N20].
    + specialize (He2eq E20). assert (Zpos e = 20) by lia.
      replace (Zpos e) with 20 by lia. change (2 ^ 20 * 2 ^ 32) with (2 ^ 52). exact He2eq.
    + assert (H21 : 2 ^ 21 <= 2 ^ Zpos e) by (apply Z.pow_le_mono_r; lia).
      change (2 ^ 53) with (2 ^ 21 * 2 ^ 32) in Hm53. nia.
Qed.

(** The scaled size is not below the size, and is a [ui32]. *)
Lemma ScaleByGrowth_not_below r growthRate :
  0 < r < 2 ^ 32 ->
  PrimFloat.ltb 1 growthRate = true ->
  PrimFloat.ltb (PrimFloat.mul (ui32_to_double r) growthRate) 4294967296 = true ->
  r <= ScaleByGrowth r growthRate < 2 ^ 32.
Proof.
  intros Hr Hg Hfit.
  destruct (ui32_to_double_exact r Hr) as (mx & d & Hx & Hmx).
  pose proof (Prim2SF_valid (PrimFloat.mul (ui32_to_double r) growthRate)) as Hvalid.
  rewrite FloatAxioms.ltb_spec in Hfit.
  unfold ScaleByGrowth, double_to_ui32.
  rewrite FloatAxioms.mul_spec in Hfit, Hvalid |- *. rewrite Hx in Hfit, Hvalid |- *.
  change (Prim2SF 4294967296) with (S754_finite false 4503599627370496 (-20)) in Hfit.
  destruct (above_one growthRate Hg) as [Hinf | (mg & eg & Hgf & Hmg)].
  - rewrite Hinf in Hfit. cbn in Hfit. discriminate.
  - rewrite Hgf in Hfit, Hvalid |- *.
    unfold SF64mul, SFmul in Hfit, Hvalid |- *. cbn [xorb] in Hfit, Hvalid |- *.
    destruct (scaled_size r mx d mg eg ltac:(lia) Hmx Hmg Hvalid Hfit)
      as (m & e & Hres & Hlow & Hup).
    rewrite Hres. rewrite Z.shiftr_div_pow2 by lia.
    unfold wrap32. rewrite Z.mod_small; lia.
Qed.

Lemma growth_ok_of_products_fit sampleCount growthRate :
  sampleCount < 2 ^ 32 ->
  PrimFloat.ltb 1 growthRate = true ->
  products_fit sampleCount growthRate ->
  growth_ok sampleCount growthRate.
Proof.
  intros Hsize Hrate Hfit r Hr.
  apply ScaleByGrowth_not_below; [lia | exact Hrate | exact (Hfit r Hr)].
Qed.

(** C2 (amended). For a grouping of [sampleCount] rows, [sampleCount] a
    [ui32], that keeps its promises, a positive minimum fold size, at least
    one device and fewer than [2^30], enough groups for the devices and a
    growth rate above 1.0 whose products with
    the sizes up to [sampleCount] are, in ordered mode, below [2^32], where
    the cast [static_cast<ui32>(right * growthRate)] is defined,
    [CreateFolds] returns its folds.  In plain mode they are the single fold
    whose estimate and evaluate ranges both are [(0, sampleCount)].  In
    ordered mode every estimate range starts at 0, each fold's
    estimate-right is the previous fold's evaluate-right, the
    evaluate-right values increase strictly up to the last one, which is
    [sampleCount], and every range boundary is a group offset boundary. *)
Theorem CreateFolds_folds Config devCount sampleCount growthRate G :
  1 <= devCount < 2 ^ 30 ->
  0 < MinFoldSize Config ->
  grouping_ok G sampleCount ->
  4 * devCount <= GetQueryCount G ->
  sampleCount < 2 ^ 32 ->
  PrimFloat.ltb 1 growthRate = true ->
  (BoostingType Config = Ordered -> products_fit sampleCount growthRate) ->
  exists folds,
    CreateFolds Config devCount sampleCount growthRate G = Returned folds /\
    match BoostingType Config with
    | Plain => folds = plain_folds sampleCount
    | Ordered => ordered_folds_ok G sampleCount folds
    end.
Proof.
  intros Hdevices Hmin Hgrouping Hgroups Hsize Hrate Hfit.
  apply CreateFolds_grows; try assumption.
  intros Hmode. apply growth_ok_of_products_fit; auto.
Qed.

Lemma CreateFolds_folds_witness :
  1 <= 1 < 2 ^ 30 /\
  0 < MinFoldSize Config_small /\
  grouping_ok SixGroups 12 /\
  4 * 1 <= GetQueryCount SixGroups /\
  12 < 2 ^ 32 /\
  PrimFloat.ltb 1 (FoldLenMultiplier Config_small) = true /\
  (BoostingType Config_small = Ordered ->
   products_fit 12 (FoldLenMultiplier Config_small)) /\
  exists folds,
    CreateFolds Config_small 1 12 (FoldLenMultiplier Config_small) SixGroups
    = Returned folds /\
    match BoostingType Config_small with
    | Plain => folds = plain_folds 12
    | Ordered => ordered_folds_ok SixGroups 12 folds
    end.
Proof.
  assert (H1 : 1 <= 1 < 2 ^ 30) by lia.
  assert (H2 : 0 < MinFoldSize Config_small) by (simpl; lia).
  assert (H3 : 4 * 1 <= GetQueryCount SixGroups) by (vm_compute; discriminate).
  assert (H4 : 12 < 2 ^ 32) by lia.
  assert (H5 : PrimFloat.ltb 1 (FoldLenMultiplier Config_small) = true)
    by (vm_compute; reflexivity).
  assert (H6 : BoostingType Config_small = Ordered ->
               products_fit 12 (FoldLenMultiplier Config_small))
    by (intros _; exact products_small_fit).
  repeat (split; [first [exact H1 | exact H2 | exact H3 | exact H4 | exact H5
                        | exact H6 | exact SixGroups_ok] |]).
  exact (CreateFolds_folds Config_small 1 12 (FoldLenMultiplier Config_small) SixGroups
           H1 H2 SixGroups_ok H3 H4 H5 H6).
Defined.

(** C2 as stated does not hold of every growth rate above 1.0.  A thousand
    rows without groups, a minimum fold size of 11 and the growth rate
    [2^31 + 13/16] on one device: the first estimate range ends at 12, the
    boundary after min(11, 1000 / 50), and the products of 12, 10 and 9 with
    the growth rate are beyond the [ui32] range.  Cast to [ui32] they are 9,
    8 and [2^31 + 7], so that the evaluate ranges end at 10, at 9 and at
    1000: the folds are returned, and their evaluate-right values do not
    increase. *)
Lemma CreateFolds_wrapped_growth :
  PrimFloat.ltb 1 (FoldLenMultiplier Config_wrapping) = true /\
  grouping_ok (TWithoutQueriesGrouping 1000) 1000 /\
  exists folds,
    CreateFolds Config_wrapping 1 1000 (FoldLenMultiplier Config_wrapping)
      (TWithoutQueriesGrouping 1000) = Returned folds /\
    map (fun fold => (Right (EstimateSamples fold), Right (QualityEvaluateSamples fold)))
        folds = [(12, 10); (10, 9); (9, 1000)] /\
    ~ ordered_folds_ok (TWithoutQueriesGrouping 1000) 1000 folds.
Proof.
  split; [vm_compute; reflexivity |].
  split; [apply TWithoutQueriesGrouping_ok; lia |].
  eexists. split; [vm_compute; reflexivity |].
  split; [reflexivity |].
  intros (_ & _ & Hlinked & _).
  specialize (Hlinked 0%nat _ _ eq_refl eq_refl). cbn in Hlinked. lia.
Qed.

(** The scaled sizes of that run. *)
Example ScaleByGrowth_wraps :
  ScaleByGrowth 12 (FoldLenMultiplier Config_wrapping) = 9 /\
  ScaleByGrowth 10 (FoldLenMultiplier Config_wrapping) = 8 /\
  ScaleByGrowth 9 (FoldLenMultiplier Config_wrapping) = 2 ^ 31 + 7.
Proof. repeat split; vm_compute; reflexivity. Qed.

(** The product of 12 and that growth rate is not below [2^32]. *)
Example product_beyond_ui32 :
  PrimFloat.ltb
    (PrimFloat.mul (ui32_to_double 12) (FoldLenMultiplier Config_wrapping))
    4294967296 = false.
Proof. vm_compute. reflexivity. Qed.

(** The folds of that run, read off the code: the boundaries 2, 6, 9 and 12
    are group boundaries. *)
Example CreateFolds_six_groups :
  CreateFolds Config_small 1 12 (FoldLenMultiplier Config_small) SixGroups
  = Returned
      [ {| EstimateSamples := {| Left := 0; Right := 2 |};
           QualityEvaluateSamples := {| Left := 2; Right := 6 |} |};
        {| EstimateSamples := {| Left := 0; Right := 6 |};
           QualityEvaluateSamples := {| Left := 6; Right := 12 |} |} ].
Proof. vm_compute. reflexivity. Qed.

(** A thousand rows without groups, minimum fold size 100 and growth rate 2
    on one device: the first estimate range ends at 21, the boundary after
    min(100, 1000 / 50) = 20, and the evaluate ranges double up to 1000. *)
Example CreateFolds_thousand_rows :
  option_map (map (fun fold => (Right (EstimateSamples fold),
                                Right (QualityEvaluateSamples fold))))
    (match CreateFolds Config_thousand 1 1000 2%float (TWithoutQueriesGrouping 1000) with
     | Returned folds => Some folds
     | _ => None
     end)
  = Some [(21, 43); (43, 87); (87, 175); (175, 351); (351, 703); (703, 1000)].
Proof. vm_compute. reflexivity. Qed.

(* ------------------------------------------------------------------ *)
(** *** When [CreateFolds] fails *)

(** C7 (amended). With a positive minimum fold size and fewer than [2^30]
    devices, [CreateFolds] fails with a configuration error exactly when
    the comparison [growthRate > 1.0] does not hold (a growth rate at most
    1.0, or one that is not a number), or the computed minimum estimation
    size is zero, or the grouping has fewer than [4 * devCount] groups.  The
    failure is the one of a check made before any fold is built, and then no
    folds are returned. *)
Theorem CreateFolds_fails_iff Config devCount sampleCount growthRate G :
  0 <= devCount < 2 ^ 30 ->
  0 < MinFoldSize Config ->
  (fails (CreateFolds Config devCount sampleCount growthRate G) <->
   (PrimFloat.ltb 1 growthRate = false \/
    FirstEstimationSize Config devCount sampleCount G = Returned 0 \/
    GetQueryCount G < 4 * devCount)) /\
  (forall e, CreateFolds Config devCount sampleCount growthRate G = Failed e ->
     e = PoolTooSmallForDevices \/ e = MinLearnSizeNotPositive \/
     e = GrowRateNotAboveOne) /\
  (fails (CreateFolds Config devCount sampleCount growthRate G) ->
   forall folds, CreateFolds Config devCount sampleCount growthRate G <> Returned folds).
Proof.
  intros Hdev Hmin.
  destruct (MinEstimationSize_positive_fold_size Config sampleCount Hmin) as [size Esize].
  pose proof (FirstEstimationSize_Returned Config devCount sampleCount G size Esize)
    as Efirst.
  set (first := if devCount >? 1 then _ else _) in Efirst.
  split; [| split].
  - rewrite CreateFolds_checks, Efirst, (wrap32_small (4 * devCount)) by lia.
    cbn [bind].
    destruct (Z.geb_spec (GetQueryCount G) (4 * devCount)) as [Hge | Hlt]; cbn [negb].
    2: { split; [intros _; right; right; exact Hlt | intros _; eexists; reflexivity]. }
    destruct (Z.eqb_spec first 0) as [Hzero | Hpos].
    { split; [intros _; right; left; now rewrite Hzero | intros _; eexists; reflexivity]. }
    destruct (PrimFloat.ltb 1 growthRate) eqn:Hrate; cbn [negb].
    2: { split; [intros _; left; reflexivity | intros _; eexists; reflexivity]. }
    split.
    + intros [e He]. exfalso. destruct (BoostingType Config); [discriminate |].
      exact (GrowFolds_never_fails _ _ _ _ _ _ He).
    + intros [H | [H | H]]; [discriminate | congruence | lia].
  - intros e. rewrite CreateFolds_checks, Efirst. cbn [bind].
    destruct (negb (GetQueryCount G >=? _)); [intros [= <-]; auto |].
    destruct (_ =? 0); [intros [= <-]; auto |].
    destruct (negb (PrimFloat.ltb 1 growthRate)); [intros [= <-]; auto |].
    destruct (BoostingType Config); [discriminate |].
    intros He. exfalso. exact (GrowFolds_never_fails _ _ _ _ _ _ He).
  - intros [e He] folds Hfolds. congruence.
Qed.

Lemma CreateFolds_fails_iff_witness :
  0 <= 1 < 2 ^ 30 /\
  0 < MinFoldSize Config_small /\
  (fails (CreateFolds Config_small 1 12 1%float SixGroups) <->
   (PrimFloat.ltb 1 1%float = false \/
    FirstEstimationSize Config_small 1 12 SixGroups = Returned 0 \/
    GetQueryCount SixGroups < 4 * 1)) /\
  (forall e, CreateFolds Config_small 1 12 1%float SixGroups = Failed e ->
     e = PoolTooSmallForDevices \/ e = MinLearnSizeNotPositive \/
     e = GrowRateNotAboveOne) /\
  (fails (CreateFolds Config_small 1 12 1%float SixGroups) ->
   forall folds, CreateFolds Config_small 1 12 1%float SixGroups <> Returned folds).
Proof.
  assert (H : 0 <= 1 < 2 ^ 30) by lia.
  assert (Hmin : 0 < MinFoldSize Config_small) by (simpl; lia).
  split; [exact H | split; [exact Hmin |]].
  exact (CreateFolds_fails_iff Config_small 1 12 1%float SixGroups H Hmin).
Defined.

(** C7 as stated does not hold: with a growth rate that is not a number
    [CreateFolds] fails on its third check, although the growth rate is not
    at most 1.0, the minimum estimation size is not zero and there are
    enough groups. *)
Lemma CreateFolds_nan_fails :
  ~ (fails (CreateFolds Config_small 1 12 nan SixGroups) <->
     (PrimFloat.leb nan 1%float = true \/
      FirstEstimationSize Config_small 1 12 SixGroups = Returned 0 \/
      GetQueryCount SixGroups < 4 * 1)).
Proof.
  intros [Hfails _].
  assert (Hrun : CreateFolds Config_small 1 12 nan SixGroups = Failed GrowRateNotAboveOne)
    by (vm_compute; reflexivity).
  destruct (Hfails (ex_intro _ GrowRateNotAboveOne Hrun)) as [H | [H | H]].
  - vm_compute in H. discriminate.
  - vm_compute in H. discriminate.
  - vm_compute in H. discriminate.
Qed.

(* ================================================================== *)
(** ** Failures of the monadic loops *)

Lemma only_fails_Returned {A} P (a : A) : only_fails P (Returned a).
Proof. intros e H. discriminate. Qed.

Lemma only_fails_Failed {A} (P : TError -> Prop) e : P e -> only_fails P (@Failed A e).
Proof. intros H e' E. congruence. Qed.

Lemma only_fails_bind {A B} P (m : outcome A) (k : A -> outcome B) :
  only_fails P m ->
  (forall a, m = Returned a -> only_fails P (k a)) ->
  only_fails P (bind m k).
Proof.
  intros Hm Hk e H. destruct m as [a | e' |]; cbn in H; try discriminate.
  - exact (Hk a eq_refl e H).
  - apply Hm. congruence.
Qed.

Lemma only_fails_ensure P c e : P e -> only_fails P (ensure c e).
Proof. intros H e' E. destruct c; cbn in E; congruence. Qed.

Lemma only_fails_at {A} P (v : list A) i :
  P IndexOutOfRange -> only_fails P (at_ v i).
Proof. intros H e E. unfold at_ in E. destruct (nth_error v i); congruence. Qed.

Lemma only_fails_Get {TData} P (storage : TFoldAndPermutationStorage TData) p f :
  P IndexOutOfRange -> only_fails P (Get storage p f).
Proof.
  intros H. unfold Get. apply only_fails_bind; [now apply only_fails_at |].
  intros row _. now apply only_fails_at.
Qed.

Lemma only_fails_mapM {A B} P (f : A -> outcome B) l :
  (forall a, In a l -> only_fails P (f a)) -> only_fails P (mapM f l).
Proof.
  induction l as [| a l IH]; intros H; cbn [mapM].
  - apply only_fails_Returned.
  - apply only_fails_bind; [apply H; now left |]. intros b _.
    apply only_fails_bind; [apply IH; intros; apply H; now right |].
    intros bs _. apply only_fails_Returned.
Qed.

(** A loop that keeps an invariant fails only as its body does, and ends
    in a state that has the invariant. *)
Lemma foldM_invariant {A S} (I : S -> Prop) P (f : S -> A -> outcome S) l :
  (forall s a, I s -> only_fails P (f s a)) ->
  (forall s a s', I s -> f s a = Returned s' -> I s') ->
  forall s, I s ->
    only_fails P (foldM f l s) /\
    (forall s', foldM f l s = Returned s' -> I s').
Proof.
  intros Hfail Hkeep. induction l as [| a l IH]; intros s Hs; cbn [foldM].
  - split; [apply only_fails_Returned |]. intros s' E. congruence.
  - split.
    + apply only_fails_bind; [now apply Hfail |].
      intros s1 E. apply IH. eapply Hkeep; eauto.
    + intros s' E. bind_inv E. eapply IH; [| exact E]. eapply Hkeep; eauto.
Qed.

Lemma set_nth_map {A B} (h : A -> B) (v : list A) : forall i a,
  (forall x, nth_error v i = Some x -> h a = h x) ->
  map h (set_nth v i a) = map h v.
Proof.
  induction v as [| x v IH]; intros [| i] a H; cbn; try reflexivity.
  - f_equal. apply H. reflexivity.
  - f_equal. apply IH. exact H.
Qed.

Lemma nth_error_nth_default {A} (v : list A) i x d :
  nth_error v i = Some x -> nth i v d = x.
Proof. intros H. now apply nth_error_nth. Qed.

(** Breaks a goal [only_fails P m] down along the structure of [m]. *)
Ltac only_fails_step :=
  first
    [ apply only_fails_Returned
    | apply only_fails_Failed; unfold not_slice_mismatch; discriminate
    | apply only_fails_ensure; unfold not_slice_mismatch; discriminate
    | apply only_fails_at; unfold not_slice_mismatch; discriminate
    | apply only_fails_Get; unfold not_slice_mismatch; discriminate
    | apply only_fails_bind; [| intros ? ?]
    | apply only_fails_mapM; intros ? ?
    | match goal with
      | |- only_fails _ (match ?x with _ => _ end) => destruct x
      end ].

Ltac only_fails_tac := cbv zeta; repeat only_fails_step.

(* ================================================================== *)
(** ** The cursor invariant of the fit loop *)

Section CursorInvariant.

Variable Weak : TWeakLearner.
Variable Config : TBoostingOptions.
Variable dataSet : TFeatureParallelDataSetsHolder.
Variable permutationFolds : list (list TFold).

Local Abbreviation sized cursor := (@CursorSizes Weak cursor = FoldSizes permutationFolds).

Lemma Get_CursorSizes (cursor : TCursor Weak) p f point :
  Get cursor p f = Returned point ->
  exists row, nth_error (FoldData cursor) p = Some row /\ nth_error row f = Some point.
Proof.
  unfold Get, at_. intros H.
  destruct (nth_error (FoldData cursor) p) as [row |]; cbn in H; [| discriminate].
  destruct (nth_error row f) as [x |] eqn:E; [| discriminate].
  exists row. split; [reflexivity | congruence].
Qed.

Lemma sized_fold (cursor : TCursor Weak) p f folds fold point :
  sized cursor ->
  nth_error permutationFolds p = Some folds ->
  nth_error folds f = Some fold ->
  Get cursor p f = Returned point ->
  MappingSize Weak point = Right (QualityEvaluateSamples fold).
Proof.
  intros Hsized Hfolds Hfold Hget.
  destruct (Get_CursorSizes _ _ _ _ Hget) as (row & Hrow & Hpoint).
  assert (E : nth_error (CursorSizes cursor) p = nth_error (FoldSizes permutationFolds) p)
    by (rewrite Hsized; reflexivity).
  unfold CursorSizes, FoldSizes in E.
  rewrite !nth_error_map, Hrow, Hfolds in E. cbn in E. injection E as E.
  assert (E' : nth_error (map (MappingSize Weak) row) f
               = nth_error (map (fun fold => Right (QualityEvaluateSamples fold)) folds) f)
    by (rewrite E; reflexivity).
  rewrite !nth_error_map, Hpoint, Hfold in E'. cbn in E'. congruence.
Qed.

Lemma sized_slices_match (cursor : TCursor Weak) :
  sized cursor -> cursor_slices_match permutationFolds cursor.
Proof.
  intros Hsized p f folds fold point Hfolds Hfold Hget.
  unfold GetObjectsSlice. f_equal. eapply sized_fold; eauto.
Qed.

Lemma UpdateFoldCursor_sizes ws models p folds (cursor cursor' : TCursor Weak) f :
  UpdateFoldCursor Weak ws models p folds cursor f = Returned cursor' ->
  CursorSizes cursor' = CursorSizes cursor.
Proof.
  unfold UpdateFoldCursor. intros H.
  bind_inv H. bind_inv H. bind_inv H. bind_inv H.
  injection H as <-.
  destruct (Get_CursorSizes _ _ _ _ Ha0) as (row & Hrow & Hpoint).
  unfold CursorSizes, SetCursor. cbn [FoldData].
  apply set_nth_map. intros x Hx.
  rewrite (nth_error_nth_default _ _ _ _ Hx).
  apply set_nth_map. intros y Hy.
  assert (x = row) by congruence. subst x.
  assert (y = a0) by congruence. subst y. reflexivity.
Qed.

Lemma UpdateFoldCursor_check ws models p folds (cursor : TCursor Weak) f :
  sized cursor ->
  nth_error permutationFolds p = Some folds ->
  only_fails not_slice_mismatch (UpdateFoldCursor Weak ws models p folds cursor f).
Proof.
  intros Hsized Hfolds. unfold UpdateFoldCursor.
  apply only_fails_bind; [only_fails_tac |]. intros fold Hfold.
  apply only_fails_bind; [only_fails_tac |]. intros point Hpoint.
  unfold at_ in Hfold. destruct (nth_error folds f) as [fold' |] eqn:Ef; [| discriminate].
  injection Hfold as ->.
  unfold GetObjectsSlice, TSlice_eqb. cbn [Left Right].
  rewrite (sized_fold cursor p f folds fold point Hsized Hfolds Ef Hpoint).
  rewrite !Z.eqb_refl. cbn [andb]. unfold ensure at 1. cbn [bind].
  only_fails_tac.
Qed.

Lemma UpdateFoldCursors_invariant ws models (cursor : TCursor Weak) :
  sized cursor ->
  only_fails not_slice_mismatch
    (UpdateFoldCursors Weak dataSet permutationFolds ws models cursor) /\
  (forall cursor',
     UpdateFoldCursors Weak dataSet permutationFolds ws models cursor = Returned cursor' ->
     sized cursor' /\ Estimation cursor' = Estimation cursor).
Proof.
  intros Hsized. unfold UpdateFoldCursors.
  pose (I := fun c : TCursor Weak => sized c /\ Estimation c = Estimation cursor).
  assert (Hinner : forall p folds, nth_error permutationFolds p = Some folds ->
            forall l (c : TCursor Weak), I c ->
              only_fails not_slice_mismatch
                (foldM (UpdateFoldCursor Weak ws models p folds) l c) /\
              (forall c', foldM (UpdateFoldCursor Weak ws models p folds) l c = Returned c'
                          -> I c')).
  { intros p folds Hfolds l. apply foldM_invariant.
    - intros c f [Hc _]. now apply UpdateFoldCursor_check.
    - intros c f c' [Hc He] E. split.
      + rewrite (UpdateFoldCursor_sizes _ _ _ _ _ _ _ E). exact Hc.
      + rewrite <- He. unfold UpdateFoldCursor in E.
        bind_inv E. bind_inv E. bind_inv E. bind_inv E. injection E as <-. reflexivity. }
  apply (foldM_invariant I).
  - intros c p Hc. apply only_fails_bind; [only_fails_tac |]. intros folds Hfolds.
    unfold at_ in Hfolds.
    destruct (nth_error permutationFolds p) as [folds' |] eqn:E; [| discriminate].
    injection Hfolds as ->. now apply (Hinner p folds E).
  - intros c p c' Hc H. bind_inv H. unfold at_ in Ha.
    destruct (nth_error permutationFolds p) as [folds' |] eqn:E; [| discriminate].
    injection Ha as ->. eapply (Hinner p a E); eauto.
  - split; [exact Hsized | reflexivity].
Qed.

Lemma AppendModels_invariant ws models (state : TFitState Weak) :
  sized (Cursor Weak state) ->
  only_fails not_slice_mismatch
    (AppendModels Weak dataSet permutationFolds ws models state) /\
  (forall state',
     AppendModels Weak dataSet permutationFolds ws models state = Returned state' ->
     sized (Cursor Weak state') /\
     Result Weak state' = Result Weak state ++ [Estimation models] /\
     BestTestCursor Weak state' = BestTestCursor Weak state).
Proof.
  intros Hsized. unfold AppendModels. cbv zeta.
  match goal with
  | |- context [UpdateFoldCursors _ _ _ _ _ ?c] =>
      destruct (UpdateFoldCursors_invariant ws models c Hsized) as [Hfail Hkeep]
  end.
  split.
  - apply only_fails_bind; [exact Hfail |]. intros; apply only_fails_Returned.
  - intros state' H. bind_inv H. injection H as <-. cbn.
    destruct (Hkeep _ Ha) as [Hs _]. repeat split. exact Hs.
Qed.

Lemma TrackBestTestCursor_keeps input (state state' : TFitState Weak) :
  TrackBestTestCursor Weak input state = Returned state' ->
  Cursor Weak state' = Cursor Weak state /\ Result Weak state' = Result Weak state.
Proof.
  unfold TrackBestTestCursor. intros H.
  destruct (IsBestTestIteration input); [| injection H as <-; split; reflexivity].
  destruct (BestTestCursor Weak state); [| injection H as <-; split; reflexivity].
  destruct (TestCursor Weak state); [| discriminate].
  injection H as <-. split; reflexivity.
Qed.

Lemma FitIteration_invariant input (state : TFitState Weak) :
  sized (Cursor Weak state) ->
  only_fails not_slice_mismatch
    (FitIteration Weak Config dataSet permutationFolds input state) /\
  (forall state',
     FitIteration Weak Config dataSet permutationFolds input state = Returned state' ->
     sized (Cursor Weak state') /\
     exists model, Result Weak state' = Result Weak state ++ [model]).
Proof.
  intros Hsized. unfold FitIteration. split.
  - apply only_fails_bind.
    { unfold SearchWeakModelStructure. only_fails_tac. }
    intros ws _. apply only_fails_bind.
    { unfold IterationModels, DefaultModels, EstimationTasks, FoldEstimationTasks.
      only_fails_tac. }
    intros models _. apply only_fails_bind.
    { now apply AppendModels_invariant. }
    intros state1 _. unfold TrackBestTestCursor. only_fails_tac.
  - intros state' H. bind_inv H. bind_inv H. bind_inv H.
    destruct (AppendModels_invariant a a0 state Hsized) as [_ Hkeep].
    destruct (Hkeep _ Ha1) as (Hs & Hr & _).
    destruct (TrackBestTestCursor_keeps _ _ _ H) as [Ec Er].
    rewrite Ec, Er. split; [exact Hs | eauto].
Qed.

Lemma FitLoop_invariant inputs : forall state : TFitState Weak,
  sized (Cursor Weak state) ->
  only_fails not_slice_mismatch
    (FitLoop Weak Config dataSet permutationFolds inputs state) /\
  (forall state',
     FitLoop Weak Config dataSet permutationFolds inputs state = Returned state' ->
     sized (Cursor Weak state') /\
     exists models, Result Weak state' = Result Weak state ++ models /\
                    length models = length inputs).
Proof.
  induction inputs as [| input inputs IH]; intros state Hsized; cbn [FitLoop].
  - split; [apply only_fails_Returned |].
    intros state' H. injection H as <-. split; [exact Hsized |].
    exists []. rewrite app_nil_r. split; reflexivity.
  - destruct (FitIteration_invariant input state Hsized) as [Hfail Hkeep]. split.
    + apply only_fails_bind; [exact Hfail |]. intros state1 E.
      apply IH. now apply Hkeep.
    + intros state' H. bind_inv H. destruct (Hkeep _ Ha) as (Hs & model & Hm).
      destruct (IH a Hs) as [_ Hrest]. destruct (Hrest _ H) as (Hs' & models & Hr & Hl).
      split; [exact Hs' |]. exists (model :: models).
      rewrite Hr, Hm, <- app_assoc. split; [reflexivity | cbn; lia].
Qed.

End CursorInvariant.

(* ================================================================== *)
(** ** The result model grows by one weak model per iteration *)

Section ResultModel.

Variable Weak : TWeakLearner.
Variable Config : TBoostingOptions.
Variable dataSet : TFeatureParallelDataSetsHolder.
Variable permutationFolds : list (list TFold).

Lemma AppendModels_result ws models (state state' : TFitState Weak) :
  AppendModels Weak dataSet permutationFolds ws models state = Returned state' ->
  Result Weak state' = Result Weak state ++ [Estimation models].
Proof.
  unfold AppendModels. cbv zeta. intros H. bind_inv H. injection H as <-. reflexivity.
Qed.

Lemma FitIteration_result input (state state' : TFitState Weak) :
  FitIteration Weak Config dataSet permutationFolds input state = Returned state' ->
  exists ws models,
    IterationModels Weak Config dataSet permutationFolds ws (Cursor Weak state)
    = Returned models /\
    Result Weak state' = Result Weak state ++ [Estimation models].
Proof.
  unfold FitIteration. intros H. bind_inv H. bind_inv H. bind_inv H.
  destruct (TrackBestTestCursor_keeps _ _ _ _ H) as [_ Er].
  exists a, a0. split; [exact Ha0 |].
  rewrite Er. eapply AppendModels_result; eauto.
Qed.

Lemma FitLoop_result inputs : forall state state' : TFitState Weak,
  FitLoop Weak Config dataSet permutationFolds inputs state = Returned state' ->
  exists models, Result Weak state' = Result Weak state ++ models /\
                 length models = length inputs.
Proof.
  induction inputs as [| input inputs IH]; intros state state' H; cbn [FitLoop] in H.
  - injection H as <-. exists []. rewrite app_nil_r. split; reflexivity.
  - bind_inv H. destruct (FitIteration_result _ _ _ Ha) as (ws & ms & _ & Hm).
    destruct (IH _ _ H) as (models & Hr & Hl).
    exists (Estimation ms :: models).
    rewrite Hr, Hm, <- app_assoc. split; [reflexivity | cbn; lia].
Qed.

Lemma FitLoop_app inputs rest : forall state : TFitState Weak,
  FitLoop Weak Config dataSet permutationFolds (inputs ++ rest) state
  = bind (FitLoop Weak Config dataSet permutationFolds inputs state)
         (FitLoop Weak Config dataSet permutationFolds rest).
Proof.
  induction inputs as [| input inputs IH]; intros state; cbn [FitLoop app bind].
  - reflexivity.
  - destruct (FitIteration Weak Config dataSet permutationFolds input state);
      cbn [bind]; [apply IH | reflexivity | reflexivity].
Qed.

Lemma Fit_FitLoop inputs (state state' : TFitState Weak) :
  Fit Weak Config dataSet permutationFolds inputs state = Returned state' ->
  FitLoop Weak Config dataSet permutationFolds inputs state = Returned state'.
Proof.
  unfold Fit. intros H. bind_inv H. exact H.
Qed.

(** A prefix of the iterations leaves a prefix of the result model. *)
Lemma Fit_prefix inputs rest (state early late : TFitState Weak) :
  Fit Weak Config dataSet permutationFolds inputs state = Returned early ->
  Fit Weak Config dataSet permutationFolds (inputs ++ rest) state = Returned late ->
  exists models, Result Weak late = Result Weak early ++ models.
Proof.
  intros H1 H2. apply Fit_FitLoop in H1, H2.
  rewrite FitLoop_app, H1 in H2. cbn [bind] in H2.
  destruct (FitLoop_result _ _ _ H2) as (models & Hr & _). eauto.
Qed.

Lemma RestoreFromSnapshot_result (saved start restored : TFitState Weak) :
  RestoreFromSnapshot Weak (snapshotSaver Weak saved) start = Returned restored ->
  Result Weak restored = Result Weak saved /\
  Cursor Weak restored = Cursor Weak saved.
Proof.
  unfold RestoreFromSnapshot. cbv zeta. intros H. bind_inv H.
  injection H as <-. split; reflexivity.
Qed.

End ResultModel.

(* ================================================================== *)
(** ** [CreateState] and [Run] *)

Lemma CreateFolds_only_fails Config devCount sampleCount growthRate G :
  only_fails not_slice_mismatch (CreateFolds Config devCount sampleCount growthRate G).
Proof.
  rewrite CreateFolds_checks. intros e H.
  destruct (FirstEstimationSize Config devCount sampleCount G) as [first | e' |] eqn:E;
    cbn [bind] in H; [| | discriminate].
  2: { injection H as <-. destruct (FirstEstimationSize_failure _ _ _ _ _ E) as [-> _].
       discriminate. }
  destruct (negb _); [injection H as <-; discriminate |].
  destruct (_ =? 0); [injection H as <-; discriminate |].
  destruct (negb _); [injection H as <-; discriminate |].
  destruct (BoostingType Config); [discriminate |].
  exfalso. exact (GrowFolds_never_fails _ _ _ _ _ _ H).
Qed.

Section RunCorrect.

Variable Weak : TWeakLearner.
Variable Config : TBoostingOptions.
Variable devCount : Z.
Variables DataProvider TestDataProvider : option TTrainingDataProvider.

Lemma CreateFoldCursors_sizes : forall permutationFolds start,
  map (map (MappingSize Weak))
      (map (fun numbered => CreateFoldCursors Weak (fst numbered) (snd numbered))
           (combine (seq start (length permutationFolds)) permutationFolds))
  = FoldSizes permutationFolds.
Proof.
  induction permutationFolds as [| folds rest IH]; intros start; cbn; [reflexivity |].
  f_equal; [| apply IH].
  unfold CreateFoldCursors. rewrite map_map. reflexivity.
Qed.

Lemma CreateState_sizes state :
  CreateState Weak Config devCount DataProvider TestDataProvider = Returned state ->
  CursorSizes (StateCursor Weak state) = FoldSizes (PermutationFolds Weak state).
Proof.
  unfold CreateState. intros H.
  bind_inv H. bind_inv H. bind_inv H. cbv zeta in H. bind_inv H.
  injection H as <-. cbn. apply CreateFoldCursors_sizes.
Qed.

Lemma CreateState_only_fails :
  only_fails not_slice_mismatch
    (CreateState Weak Config devCount DataProvider TestDataProvider).
Proof.
  unfold CreateState, CreateDataSet, CreateTarget.
  apply only_fails_bind; [only_fails_tac |]. intros dataSets _.
  apply only_fails_bind; [only_fails_tac |]. intros _ _.
  apply only_fails_bind; [only_fails_tac |]. intros testCursor _.
  cbv zeta. apply only_fails_bind; [| intros; apply only_fails_Returned].
  apply only_fails_mapM. intros i _. apply CreateFolds_only_fails.
Qed.

(** A run that restores nothing is [Fit] on the start state of [CreateState]. *)
Lemma RunToState_fresh need inputs :
  RunToState Weak Config devCount DataProvider TestDataProvider
    (Some (FreshTracker need inputs))
  = (ensure (match DataProvider with Some _ => true | None => false end) NoDataProvider ;;;
     state <- CreateState Weak Config devCount DataProvider TestDataProvider ;;
     Fit Weak Config (DataSets Weak state) (PermutationFolds Weak state) inputs
         (StartState Weak state need)).
Proof. reflexivity. Qed.

Lemma RunToState_fresh_inv need inputs final :
  RunToState Weak Config devCount DataProvider TestDataProvider
    (Some (FreshTracker need inputs)) = Returned final ->
  exists state,
    CreateState Weak Config devCount DataProvider TestDataProvider = Returned state /\
    Fit Weak Config (DataSets Weak state) (PermutationFolds Weak state) inputs
        (StartState Weak state need) = Returned final.
Proof.
  rewrite RunToState_fresh. intros H. bind_inv H. bind_inv H. eauto.
Qed.

Lemma RunToState_resuming_inv need saved inputs final :
  RunToState Weak Config devCount DataProvider TestDataProvider
    (Some (ResumingTracker need saved inputs)) = Returned final ->
  exists state restored,
    CreateState Weak Config devCount DataProvider TestDataProvider = Returned state /\
    RestoreFromSnapshot Weak (snapshotSaver Weak saved) (StartState Weak state need)
    = Returned restored /\
    Fit Weak Config (DataSets Weak state) (PermutationFolds Weak state) inputs restored
    = Returned final.
Proof.
  unfold RunToState, ResumingTracker. cbn.
  intros H. bind_inv H. bind_inv H. bind_inv H. eauto.
Qed.

(** C5. In a run that starts from the cursors of [CreateState], the check
    that a fold cursor's object slice is [(0, evaluate-right of its fold)]
    never fails, in no iteration, whatever the weak learner, the data and
    the inputs of the iterations are; and the state a run ends in still has
    every fold cursor on that slice. *)
Theorem cursor_slice_check_never_fails need inputs :
  RunToState Weak Config devCount DataProvider TestDataProvider
    (Some (FreshTracker need inputs)) <> Failed CursorSliceMismatch
  /\
  forall final,
    RunToState Weak Config devCount DataProvider TestDataProvider
      (Some (FreshTracker need inputs)) = Returned final ->
    exists state,
      CreateState Weak Config devCount DataProvider TestDataProvider = Returned state /\
      cursor_slices_match (PermutationFolds Weak state) (Cursor Weak final).
Proof.
  split.
  - assert (Hall : only_fails not_slice_mismatch
                     (RunToState Weak Config devCount DataProvider TestDataProvider
                        (Some (FreshTracker need inputs)))).
    { rewrite RunToState_fresh.
      apply only_fails_bind; [only_fails_tac |]. intros _ _.
      apply only_fails_bind; [apply CreateState_only_fails |]. intros state Hstate.
      unfold Fit. apply only_fails_bind; [only_fails_tac |]. intros _ _.
      apply FitLoop_invariant. cbn. now apply CreateState_sizes. }
    intros H. exact (Hall _ H eq_refl).
  - intros final H. apply RunToState_fresh_inv in H. destruct H as (state & Hstate & Hfit).
    exists state. split; [exact Hstate |].
    apply sized_slices_match.
    apply Fit_FitLoop in Hfit.
    eapply FitLoop_invariant; [| exact Hfit].
    cbn. now apply CreateState_sizes.
Qed.

(** C3. A run of [k] iterations is interrupted and the snapshot of its state
    is saved; a second run restores that snapshot and goes on, on inputs of
    its own.  The first [k] weak models of the resumed run's result are the
    [k] weak models the interrupted run had, and they are the first [k] weak
    models of any uninterrupted run that goes through the same [k]
    iterations and further. *)
Theorem resumed_run_keeps_first_models need need' inputs rest inputs'
    (interrupted uninterrupted resumed : TFitState Weak) :
  RunToState Weak Config devCount DataProvider TestDataProvider
    (Some (FreshTracker need inputs)) = Returned interrupted ->
  RunToState Weak Config devCount DataProvider TestDataProvider
    (Some (FreshTracker need (inputs ++ rest))) = Returned uninterrupted ->
  RunToState Weak Config devCount DataProvider TestDataProvider
    (Some (ResumingTracker need' interrupted inputs')) = Returned resumed ->
  length (Result Weak interrupted) = length inputs /\
  firstn (length inputs) (Result Weak resumed) = Result Weak interrupted /\
  firstn (length inputs) (Result Weak uninterrupted) = Result Weak interrupted.
Proof.
  intros Hint Hfull Hres.
  apply RunToState_fresh_inv in Hint. destruct Hint as (state & Hstate & Hint).
  apply RunToState_fresh_inv in Hfull. destruct Hfull as (state1 & Hstate1 & Hfull).
  apply RunToState_resuming_inv in Hres.
  destruct Hres as (state2 & restored & Hstate2 & Hrestore & Hres).
  assert (state1 = state) by congruence. subst state1.
  assert (Hlen : length (Result Weak interrupted) = length inputs).
  { destruct (FitLoop_result _ _ _ _ _ _ _ (Fit_FitLoop _ _ _ _ _ _ _ Hint))
      as (models & Hr & Hl).
    rewrite Hr. cbn. exact Hl. }
  split; [exact Hlen | split].
  - destruct (RestoreFromSnapshot_result _ _ _ _ Hrestore) as [Hr _].
    destruct (FitLoop_result _ _ _ _ _ _ _ (Fit_FitLoop _ _ _ _ _ _ _ Hres))
      as (models & Hm & _).
    rewrite Hm, Hr, <- Hlen, firstn_app, firstn_all, Nat.sub_diag. cbn.
    apply app_nil_r.
  - destruct (Fit_prefix _ _ _ _ _ _ _ _ _ Hint Hfull) as (models & Hm).
    rewrite Hm, <- Hlen, firstn_app, firstn_all, Nat.sub_diag. cbn.
    apply app_nil_r.
Qed.

End RunCorrect.

Lemma resumed_run_keeps_first_models_witness :
  RunToState SmallLearner Config_small 1 (Some SmallPool) (Some SmallTestPool)
    (Some (FreshTracker true FirstIterations)) = Returned InterruptedState /\
  RunToState SmallLearner Config_small 1 (Some SmallPool) (Some SmallTestPool)
    (Some (FreshTracker true (FirstIterations ++ ThirdIteration)))
  = Returned UninterruptedState /\
  RunToState SmallLearner Config_small 1 (Some SmallPool) (Some SmallTestPool)
    (Some (ResumingTracker true InterruptedState ResumedIterations))
  = Returned ResumedState /\
  length (Result SmallLearner InterruptedState) = length FirstIterations /\
  firstn (length FirstIterations) (Result SmallLearner ResumedState)
  = Result SmallLearner InterruptedState /\
  firstn (length FirstIterations) (Result SmallLearner UninterruptedState)
  = Result SmallLearner InterruptedState.
Proof.
  assert (H1 : RunToState SmallLearner Config_small 1 (Some SmallPool) (Some SmallTestPool)
                 (Some (FreshTracker true FirstIterations)) = Returned InterruptedState)
    by reflexivity.
  assert (H2 : RunToState SmallLearner Config_small 1 (Some SmallPool) (Some SmallTestPool)
                 (Some (FreshTracker true (FirstIterations ++ ThirdIteration)))
               = Returned UninterruptedState)
    by reflexivity.
  assert (H3 : RunToState SmallLearner Config_small 1 (Some SmallPool) (Some SmallTestPool)
                 (Some (ResumingTracker true InterruptedState ResumedIterations))
               = Returned ResumedState)
    by reflexivity.
  split; [exact H1 | split; [exact H2 | split; [exact H3 |]]].
  exact (resumed_run_keeps_first_models SmallLearner Config_small 1
           (Some SmallPool) (Some SmallTestPool) true true
           FirstIterations ThirdIteration ResumedIterations
           InterruptedState UninterruptedState ResumedState H1 H2 H3).
Defined.

(** The three runs, read off the code: the resumed run keeps the two models
    of the interrupted run and adds its own. *)
Example resumed_run_models :
  Result SmallLearner InterruptedState = [8; 28] /\
  Result SmallLearner UninterruptedState = [8; 28; 48] /\
  Result SmallLearner ResumedState = [8; 28; 88; 108].
Proof. split; [| split]; reflexivity. Qed.

(* ================================================================== *)
(** ** Plain mode without an averaging permutation *)

Section PlainFallback.

Variable Weak : TWeakLearner.
Variable Config : TBoostingOptions.
Variable dataSet : TFeatureParallelDataSetsHolder.
Variable permutationFolds : list (list TFold).

Hypothesis plain : BoostingType Config = Plain.
Hypothesis no_averaging : EstimationPermutation (PermutationsCount dataSet) = 0.

Lemma plain_single_learn_permutation :
  learnPermutations dataSet = [0%nat].
Proof.
  unfold learnPermutations, LearnPermutationCount. rewrite no_averaging. reflexivity.
Qed.

Lemma plain_without_averaging : isPlainWithoutAveraging Config dataSet = true.
Proof.
  unfold isPlainWithoutAveraging. rewrite plain, no_averaging. reflexivity.
Qed.

(** A structure search that returns has found one fold for permutation 0 and
    its cursor. *)
Lemma plain_search_single_fold input (cursor : TCursor Weak) ws :
  SearchWeakModelStructure Weak Config dataSet permutationFolds input cursor
  = Returned ws ->
  exists fold point,
    nth_error permutationFolds 0 = Some [fold] /\
    Get cursor 0 0 = Returned point.
Proof.
  unfold SearchWeakModelStructure, LearnPermutationCount.
  rewrite no_averaging, plain. cbn [Z.eqb].
  change (LearnPermutationId 1 (NextUniformL input)) with 0.
  change (Z.to_nat 0) with 0%nat.
  intros H. bind_inv H. bind_inv H. cbv zeta in H. bind_inv H.
  apply ensure_Returned_inv in Ha0. apply Nat.eqb_eq in Ha0.
  unfold at_ in Ha.
  destruct (nth_error permutationFolds 0) as [folds |]; [| discriminate].
  injection Ha as ->.
  destruct a as [| fold [| ? ?]]; try discriminate.
  exists fold, a1. split; [reflexivity | assumption].
Qed.

Lemma plain_EstimationTasks (cursor : TCursor Weak) fold point :
  nth_error permutationFolds 0 = Some [fold] ->
  Get cursor 0 0 = Returned point ->
  EstimationTasks Weak Config dataSet permutationFolds cursor
  = Returned [FoldZeroTask Weak fold point].
Proof.
  intros Hfolds Hpoint.
  unfold EstimationTasks, FoldEstimationTasks.
  rewrite plain_single_learn_permutation, plain_without_averaging.
  cbn [mapM]. unfold at_ at 1. rewrite Hfolds. cbn [bind length seq mapM].
  unfold at_ at 1. cbn [nth_error bind]. rewrite Hpoint. cbn. reflexivity.
Qed.

Lemma plain_IterationModels (cursor : TCursor Weak) ws fold point :
  nth_error permutationFolds 0 = Some [fold] ->
  Get cursor 0 0 = Returned point ->
  let model := Rescale Weak (LearningRate Config)
                 (EstimateLeaves Weak ws [task_view Weak (FoldZeroTask Weak fold point)] 0) in
  IterationModels Weak Config dataSet permutationFolds ws cursor
  = Returned {| FoldData := [[model]]; Estimation := model |}.
Proof.
  intros Hfolds Hpoint model.
  unfold IterationModels.
  rewrite (plain_EstimationTasks cursor fold point Hfolds Hpoint).
  unfold DefaultModels. rewrite plain_single_learn_permutation, plain_without_averaging.
  cbn [mapM]. unfold at_ at 1. rewrite Hfolds. cbn. reflexivity.
Qed.

(** C4. In plain mode with estimation permutation 0, an iteration that
    completes has handed the leaves estimator a single task, the one of
    fold 0 of permutation 0, and no task for the estimation model; the
    estimation model is fold 0's model of permutation 0, the leaf values of
    that task rescaled by the learning rate; and it is the weak model
    appended to the result. *)
Theorem plain_estimation_model_is_fold_model input (state state' : TFitState Weak) :
  FitIteration Weak Config dataSet permutationFolds input state = Returned state' ->
  exists ws task models,
    EstimationTasks Weak Config dataSet permutationFolds (Cursor Weak state)
    = Returned [task] /\
    TaskDst Weak task = FoldModel 0 0 /\
    IterationModels Weak Config dataSet permutationFolds ws (Cursor Weak state)
    = Returned models /\
    Get models 0 0 = Returned (Estimation models) /\
    Estimation models
    = Rescale Weak (LearningRate Config)
        (EstimateLeaves Weak ws [task_view Weak task] 0) /\
    Result Weak state' = Result Weak state ++ [Estimation models].
Proof.
  unfold FitIteration. intros H. bind_inv H. bind_inv H. bind_inv H.
  destruct (plain_search_single_fold _ _ _ Ha) as (fold & point & Hfolds & Hpoint).
  pose proof (plain_IterationModels (Cursor Weak state) a fold point Hfolds Hpoint) as Hm.
  cbv zeta in Hm. rewrite Hm in Ha0. injection Ha0 as <-.
  destruct (TrackBestTestCursor_keeps _ _ _ _ H) as [_ Er].
  exists a, (FoldZeroTask Weak fold point). eexists.
  split; [now apply plain_EstimationTasks |].
  split; [reflexivity |].
  split; [exact Hm |].
  split; [reflexivity |].
  split; [reflexivity |].
  rewrite Er. eapply AppendModels_result. exact Ha1.
Qed.

End PlainFallback.

Lemma plain_estimation_model_is_fold_model_witness :
  BoostingType Config_plain = Plain /\
  EstimationPermutation (PermutationsCount PlainDataSet) = 0 /\
  FitIteration SmallLearner Config_plain PlainDataSet [plain_folds 12]
    (Iteration 3 7 false) PlainStart = Returned PlainAfter /\
  exists ws task models,
    EstimationTasks SmallLearner Config_plain PlainDataSet [plain_folds 12]
      (Cursor SmallLearner PlainStart) = Returned [task] /\
    TaskDst SmallLearner task = FoldModel 0 0 /\
    IterationModels SmallLearner Config_plain PlainDataSet [plain_folds 12] ws
      (Cursor SmallLearner PlainStart) = Returned models /\
    Get models 0 0 = Returned (Estimation models) /\
    Estimation models
    = Rescale SmallLearner (LearningRate Config_plain)
        (EstimateLeaves SmallLearner ws [task_view SmallLearner task] 0) /\
    Result SmallLearner PlainAfter
    = Result SmallLearner PlainStart ++ [Estimation models].
Proof.
  assert (H1 : BoostingType Config_plain = Plain) by reflexivity.
  assert (H2 : EstimationPermutation (PermutationsCount PlainDataSet) = 0) by reflexivity.
  assert (H3 : FitIteration SmallLearner Config_plain PlainDataSet [plain_folds 12]
                 (Iteration 3 7 false) PlainStart = Returned PlainAfter) by reflexivity.
  split; [exact H1 | split; [exact H2 | split; [exact H3 |]]].
  exact (plain_estimation_model_is_fold_model SmallLearner Config_plain PlainDataSet
           [plain_folds 12] H1 H2 (Iteration 3 7 false) PlainStart PlainAfter H3).
Defined.

(** That iteration, read off the code: the structure is 31, the leaf value
    of the single task 124, and the model appended half of it. *)
Example plain_iteration_model :
  Result SmallLearner PlainAfter = [62].
Proof. reflexivity. Qed.

(* ================================================================== *)
(* ================================================================== *)
(** * Further properties of the code *)

(* ================================================================== *)
(** ** The permutation block size is the greatest power of two that fits *)

Lemma ShrinkBlockSize_greatest fuel : forall k sampleCount,
  0 <= k <= 24 -> k < Z.of_nat fuel -> 2 ^ 15 <= sampleCount ->
  exists j, 0 <= j <= k /\
            ShrinkBlockSize fuel (2 ^ k) sampleCount = 2 ^ j /\
            2 ^ j * 128 <= sampleCount /\
            (j < k -> sampleCount < 2 ^ (j + 1) * 128).
Proof.
  induction fuel as [| fuel IH]; intros k s Hk Hfuel Hs; [lia |].
  cbn [ShrinkBlockSize].
  assert (Hpow : 2 ^ k * 128 = 2 ^ (k + 7)) by (rewrite Z.pow_add_r by lia; lia).
  assert (Hlt : 2 ^ (k + 7) < 2 ^ 32) by (apply Z.pow_lt_mono_r; lia).
  assert (Hpos : 0 < 2 ^ (k + 7)) by (apply Z.pow_pos_nonneg; lia).
  rewrite wrap32_small by lia.
  destruct (Z.gtb_spec (2 ^ k * 128) s) as [Hgt | Hle].
  - assert (Hk1 : 1 <= k).
    { destruct (Z.eq_dec k 0) as [-> | ]; [simpl in Hgt; lia | lia]. }
    rewrite Z.shiftr_div_pow2 by lia.
    replace (2 ^ k) with (2 ^ (k - 1) * 2 ^ 1) by (rewrite <- Z.pow_add_r by lia; f_equal; lia).
    rewrite Z.div_mul by lia.
    destruct (IH (k - 1) s ltac:(lia) ltac:(lia) Hs) as (j & Hj & E & B & M).
    exists j. split; [lia | split; [exact E | split; [exact B |]]].
    intros _. destruct (Z.eq_dec j (k - 1)) as [-> | Hne]; [| apply M; lia].
    replace (k - 1 + 1) with k by lia.
    replace (2 ^ (k - 1) * 2 ^ 1) with (2 ^ k) in Hgt
      by (rewrite <- Z.pow_add_r by lia; f_equal; lia).
    lia.
  - exists k. split; [lia | split; [reflexivity | split; [lia | lia]]].
Qed.

(** X1. For a pool of 50000 samples or more and a configured block size above 1
    and at most [2^24], the permutation block size is the greatest power of
    two that is at most [1 << IntLog2(PermutationBlockSize)] and whose
    product with 128 is at most the sample count.  Whichever way [IntLog2]
    rounds, [1 << IntLog2(PermutationBlockSize)] is more than half the
    configured size and less than twice it. *)
Theorem GetPermutationBlockSize_greatest_power Config sampleCount :
  50000 <= sampleCount ->
  1 < PermutationBlockSize Config <= 2 ^ 24 ->
  exists j, 0 <= j <= IntLog2 (PermutationBlockSize Config) /\
    GetPermutationBlockSize Config sampleCount = 2 ^ j /\
    2 ^ j * 128 <= sampleCount /\
    (forall i, j < i <= IntLog2 (PermutationBlockSize Config) ->
               sampleCount < 2 ^ i * 128) /\
    PermutationBlockSize Config < 2 * 2 ^ IntLog2 (PermutationBlockSize Config) /\
    2 ^ IntLog2 (PermutationBlockSize Config) < 2 * PermutationBlockSize Config.
Proof.
  intros Hs Hb. unfold GetPermutationBlockSize.
  destruct (Z.ltb_spec sampleCount 50000); [lia |].
  destruct (Z.gtb_spec (PermutationBlockSize Config) 1); [| lia].
  cbv zeta.
  destruct (IntLog2_block_size _ Hb) as [Hk ->].
  destruct (IntLog2_power (PermutationBlockSize Config) ltac:(lia)) as (_ & Hlow & Hup).
  set (k := IntLog2 (PermutationBlockSize Config)) in *.
  destruct (ShrinkBlockSize_greatest 32 k sampleCount ltac:(lia) ltac:(simpl; lia) ltac:(lia))
    as (j & Hj & E & B & M).
  exists j. split; [lia | split; [exact E | split; [exact B | split; [| split]]]].
  - intros i Hi.
    specialize (M ltac:(lia)).
    assert (Hmono : 2 ^ (j + 1) <= 2 ^ i) by (apply Z.pow_le_mono_r; lia).
    lia.
  - exact Hlow.
  - exact Hup.
Qed.

Lemma GetPermutationBlockSize_greatest_power_witness :
  50000 <= 100000 /\
  1 < PermutationBlockSize (WithPermutationBlockSize Config_large 5000) <= 2 ^ 24 /\
  exists j,
    0 <= j <= IntLog2 (PermutationBlockSize (WithPermutationBlockSize Config_large 5000)) /\
    GetPermutationBlockSize (WithPermutationBlockSize Config_large 5000) 100000 = 2 ^ j /\
    2 ^ j * 128 <= 100000 /\
    (forall i,
       j < i <= IntLog2 (PermutationBlockSize (WithPermutationBlockSize Config_large 5000)) ->
       100000 < 2 ^ i * 128) /\
    PermutationBlockSize (WithPermutationBlockSize Config_large 5000)
    < 2 * 2 ^ IntLog2 (PermutationBlockSize (WithPermutationBlockSize Config_large 5000)) /\
    2 ^ IntLog2 (PermutationBlockSize (WithPermutationBlockSize Config_large 5000))
    < 2 * PermutationBlockSize (WithPermutationBlockSize Config_large 5000).
Proof.
  assert (H1 : 50000 <= 100000) by lia.
  assert (H2 : 1 < PermutationBlockSize (WithPermutationBlockSize Config_large 5000)
               <= 2 ^ 24)
    by (simpl; lia).
  split; [exact H1 | split; [exact H2 |]].
  exact (GetPermutationBlockSize_greatest_power
           (WithPermutationBlockSize Config_large 5000) 100000 H1 H2).
Defined.

(** With 100000 samples a configured block size of 5000 becomes 512. *)
Example GetPermutationBlockSize_5000 :
  GetPermutationBlockSize (WithPermutationBlockSize Config_large 5000) 100000 = 512.
Proof. reflexivity. Qed.

(* ================================================================== *)
(** ** Bounds of the minimum estimation size *)

(** X2. With a positive configured minimum fold size, the minimum estimation
    size is returned, it is at least 1, and from 500 documents on it is at
    most a fiftieth of the documents. *)
Theorem MinEstimationSize_bounds Config docCount :
  0 < MinFoldSize Config ->
  0 <= docCount ->
  exists size,
    MinEstimationSize Config docCount = Returned size /\
    1 <= size <= Z.max 1 (docCount / 50).
Proof.
  intros Hmin Hdoc.
  destruct (Z.lt_ge_cases docCount 500) as [Hsmall | Hbig].
  - exists 1. split; [apply MinEstimationSize_small; exact Hsmall | lia].
  - eexists. split; [apply MinEstimationSize_large; lia |].
    pose proof (Z.div_mod docCount 50 ltac:(lia)) as E50.
    pose proof (Z.mod_pos_bound docCount 50 ltac:(lia)) as M50.
    destruct (18 <=? _).
    + pose proof (ceil_quotient_div docCount (2 ^ 18) ltac:(lia)) as [L U].
      lia.
    + lia.
Qed.

Lemma MinEstimationSize_bounds_witness :
  0 < MinFoldSize Config_large /\ 0 <= 30000000 /\
  exists size,
    MinEstimationSize Config_large 30000000 = Returned size /\
    1 <= size <= Z.max 1 (30000000 / 50).
Proof.
  assert (H1 : 0 < MinFoldSize Config_large) by (simpl; lia).
  assert (H2 : 0 <= 30000000) by lia.
  split; [exact H1 | split; [exact H2 |]].
  exact (MinEstimationSize_bounds Config_large 30000000 H1 H2).
Defined.

(* ================================================================== *)
(** ** The permutation of the structure search is a learn permutation *)

(** X3. For a permutation count that fits 32 bits, the learn permutation count
    is between 1 and the permutation count, the estimation permutation is
    the last permutation, the permutation drawn for the structure search is
    an index below the learn permutation count, and it is the estimation
    permutation only when there is a single permutation. *)
Theorem drawn_permutation_is_learn_permutation permutationCount nextUniformL :
  1 <= permutationCount < 2 ^ 32 ->
  1 <= LearnPermutationCount permutationCount <= permutationCount /\
  EstimationPermutation permutationCount = permutationCount - 1 /\
  0 <= LearnPermutationId (LearnPermutationCount permutationCount) nextUniformL
    < LearnPermutationCount permutationCount /\
  (LearnPermutationId (LearnPermutationCount permutationCount) nextUniformL
   = EstimationPermutation permutationCount -> permutationCount = 1).
Proof.
  intros Hpc.
  assert (Hest : EstimationPermutation permutationCount = permutationCount - 1)
    by (unfold EstimationPermutation; apply wrap32_small; lia).
  unfold LearnPermutationCount. rewrite Hest.
  destruct (Z.eqb_spec (permutationCount - 1) 0) as [E | NE].
  - assert (permutationCount = 1) by lia. subst. cbn. lia.
  - rewrite wrap32_small by lia.
    destruct (Z.eq_dec permutationCount 2) as [-> | Hbig].
    + cbn. lia.
    + pose proof (LearnPermutationId_below_last (permutationCount - 1) nextUniformL
                    ltac:(lia)).
      lia.
Qed.

Lemma drawn_permutation_is_learn_permutation_witness :
  1 <= 4 < 2 ^ 32 /\
  1 <= LearnPermutationCount 4 <= 4 /\
  EstimationPermutation 4 = 4 - 1 /\
  0 <= LearnPermutationId (LearnPermutationCount 4) 123456789 < LearnPermutationCount 4 /\
  (LearnPermutationId (LearnPermutationCount 4) 123456789 = EstimationPermutation 4 ->
   4 = 1).
Proof.
  assert (H : 1 <= 4 < 2 ^ 32) by lia.
  split; [exact H |].
  exact (drawn_permutation_is_learn_permutation 4 123456789 H).
Defined.

(* ================================================================== *)
(** ** The structure of the folds, whatever the grouping does *)

Lemma adjacent_snoc (R : TFold -> TFold -> Prop) folds f :
  folds <> [] -> adjacent R folds -> R (back folds) f -> adjacent R (folds ++ [f]).
Proof.
  intros Hne Hadj Hlast i f1 f2 H1 H2.
  destruct (Nat.lt_ge_cases (S i) (length folds)) as [Hin | Hout].
  - rewrite nth_error_app1 in H1, H2 by lia. eauto.
  - assert (Hlen : (S i < length (folds ++ [f]))%nat)
      by (apply nth_error_Some; congruence).
    rewrite length_app in Hlen. cbn [length] in Hlen.
    assert (Hi : i = (length folds - 1)%nat) by lia.
    rewrite nth_error_app1 in H1 by lia.
    rewrite nth_error_app2 in H2 by lia.
    replace (S i - length folds)%nat with 0%nat in H2 by lia.
    cbn in H2. injection H2 as <-.
    rewrite Hi, (nth_error_back folds Hne) in H1. injection H1 as <-.
    exact Hlast.
Qed.

(** What the loop keeps, and what it has reached when it returns. *)
Lemma GrowFolds_structure fuel sampleCount growthRate G first : forall folds folds',
  nth_error folds 0 = Some first ->
  (forall f, In f folds -> fold_shape f) ->
  adjacent (grown_from sampleCount) folds ->
  GrowFolds fuel sampleCount growthRate G folds = Returned folds' ->
  nth_error folds' 0 = Some first /\
  (forall f, In f folds' -> fold_shape f) /\
  adjacent (grown_from sampleCount) folds' /\
  sampleCount <= Right (QualityEvaluateSamples (back folds')).
Proof.
  induction fuel as [| fuel IH]; intros folds folds' Hfirst Hshape Hadj;
    cbn [GrowFolds]; cbv zeta;
    destruct (Z.ltb_spec (Right (QualityEvaluateSamples (back folds))) sampleCount)
      as [Hlt | Hge]; intros H; try discriminate.
  - injection H as <-.
    split; [exact Hfirst | split; [exact Hshape | split; [exact Hadj | lia]]].
  - assert (Hne : folds <> []) by (intros ->; discriminate).
    apply IH in H; [exact H | | |].
    + destruct folds; [discriminate | exact Hfirst].
    + intros f [Hin | [<- | []]]%in_app_or; [auto |]. split; reflexivity.
    + apply adjacent_snoc; [exact Hne | exact Hadj |]. split; [reflexivity | exact Hlt].
  - injection H as <-.
    split; [exact Hfirst | split; [exact Hshape | split; [exact Hadj | lia]]].
Qed.

(** X4. In ordered mode, whatever the grouping and the growth rate do, the folds
    [CreateFolds] returns start with the fold whose estimate range ends at
    the first estimation size; every estimate range starts at row 0 and
    every evaluate range starts where the estimate range of its fold ends;
    every fold but the last ends before [sampleCount] and the next one's
    estimate range ends where it ends; the last fold reaches
    [sampleCount]. *)
Theorem CreateFolds_ordered_structure Config devCount sampleCount growthRate G folds :
  BoostingType Config = Ordered ->
  CreateFolds Config devCount sampleCount growthRate G = Returned folds ->
  (exists first, nth_error folds 0 = Some first /\
     FirstEstimationSize Config devCount sampleCount G
     = Returned (Right (EstimateSamples first))) /\
  (forall f, In f folds -> fold_shape f) /\
  adjacent (grown_from sampleCount) folds /\
  sampleCount <= Right (QualityEvaluateSamples (back folds)).
Proof.
  intros Hmode. rewrite CreateFolds_checks, Hmode.
  destruct (FirstEstimationSize Config devCount sampleCount G) as [size | e |];
    cbn [bind]; try discriminate.
  destruct (negb _); [discriminate |].
  destruct (_ =? 0); [discriminate |].
  destruct (negb _); [discriminate |].
  match goal with
  | |- GrowFolds _ _ _ _ [?f0] = _ -> _ => set (first := f0)
  end.
  intros H.
  apply (GrowFolds_structure _ _ _ _ first) in H.
  - destruct H as (Hfirst & Hshape & Hadj & Hlast).
    split; [exists first; split; [exact Hfirst | reflexivity] |].
    split; [exact Hshape | split; [exact Hadj | exact Hlast]].
  - reflexivity.
  - intros f [<- | []]. split; reflexivity.
  - intros [| i] f1 f2 H1 H2; cbn in H2; [discriminate |].
    destruct i; discriminate.
Qed.

Lemma CreateFolds_ordered_structure_witness :
  BoostingType Config_thousand = Ordered /\
  exists folds,
    CreateFolds Config_thousand 1 1000 2%float (TWithoutQueriesGrouping 1000)
    = Returned folds /\
    (exists first, nth_error folds 0 = Some first /\
       FirstEstimationSize Config_thousand 1 1000 (TWithoutQueriesGrouping 1000)
       = Returned (Right (EstimateSamples first))) /\
    (forall f, In f folds -> fold_shape f) /\
    adjacent (grown_from 1000) folds /\
    1000 <= Right (QualityEvaluateSamples (back folds)).
Proof.
  assert (H1 : BoostingType Config_thousand = Ordered) by reflexivity.
  split; [exact H1 |].
  eexists. split; [vm_compute; reflexivity |].
  apply (CreateFolds_ordered_structure Config_thousand 1 1000 2%float
           (TWithoutQueriesGrouping 1000) _ H1).
  vm_compute. reflexivity.
Defined.

(* ================================================================== *)
(** ** Which check of [CreateFolds] can fail on a sound grouping *)

(** X5. With a grouping that keeps its promises, at least one device and fewer
    than [2^30], enough groups for the devices and a positive configured
    minimum fold size, the first estimation size is computed and lies in
    [(0, sampleCount]]: [CreateFolds] fails exactly when the
    growth rate is not above 1.0, and it never fails for a minimum learn
    size of zero or for too few groups. *)
Theorem CreateFolds_fails_only_on_growth_rate Config devCount sampleCount growthRate G :
  1 <= devCount < 2 ^ 30 ->
  0 < MinFoldSize Config ->
  grouping_ok G sampleCount ->
  4 * devCount <= GetQueryCount G ->
  (exists first,
     FirstEstimationSize Config devCount sampleCount G = Returned first /\
     0 < first <= sampleCount) /\
  (fails (CreateFolds Config devCount sampleCount growthRate G) <->
   PrimFloat.ltb 1 growthRate = false) /\
  (forall e, CreateFolds Config devCount sampleCount growthRate G = Failed e ->
             e = GrowRateNotAboveOne).
Proof.
  intros Hdev Hmin Hgroup Hgroups.
  destruct (FirstEstimationSize_range Config devCount sampleCount G
              Hdev Hmin Hgroup Hgroups) as (first & Efirst & Hfirst & _).
  split; [exists first; split; [exact Efirst | exact Hfirst] |].
  rewrite CreateFolds_checks, Efirst, (wrap32_small (4 * devCount)) by lia.
  cbn [bind].
  destruct (Z.geb_spec (GetQueryCount G) (4 * devCount)) as [_ | Hlt]; [| lia].
  cbn [negb].
  destruct (Z.eqb_spec first 0) as [Hzero | _]; [lia |].
  destruct (PrimFloat.ltb 1 growthRate); cbn [negb].
  - split.
    + split; [| discriminate]. intros [e He]. exfalso.
      destruct (BoostingType Config); [discriminate |].
      exact (GrowFolds_never_fails _ _ _ _ _ _ He).
    + intros e He. exfalso. destruct (BoostingType Config); [discriminate |].
      exact (GrowFolds_never_fails _ _ _ _ _ _ He).
  - split.
    + split; [reflexivity | intros _; eexists; reflexivity].
    + intros e [= <-]. reflexivity.
Qed.

Lemma CreateFolds_fails_only_on_growth_rate_witness :
  1 <= 1 < 2 ^ 30 /\
  0 < MinFoldSize Config_small /\
  grouping_ok SixGroups 12 /\
  4 * 1 <= GetQueryCount SixGroups /\
  (exists first,
     FirstEstimationSize Config_small 1 12 SixGroups = Returned first /\
     0 < first <= 12) /\
  (fails (CreateFolds Config_small 1 12 0.5%float SixGroups) <->
   PrimFloat.ltb 1 0.5%float = false) /\
  (forall e, CreateFolds Config_small 1 12 0.5%float SixGroups = Failed e ->
             e = GrowRateNotAboveOne).
Proof.
  assert (H1 : 1 <= 1 < 2 ^ 30) by lia.
  assert (H2 : 0 < MinFoldSize Config_small) by (simpl; lia).
  assert (H3 : 4 * 1 <= GetQueryCount SixGroups) by (vm_compute; discriminate).
  split; [exact H1 | split; [exact H2 | split; [exact SixGroups_ok | split; [exact H3 |]]]].
  exact (CreateFolds_fails_only_on_growth_rate Config_small 1 12 0.5%float SixGroups
           H1 H2 SixGroups_ok H3).
Defined.

(* ================================================================== *)
(** ** What the fit loop keeps of its cursors *)

Section FitKeeps.

Variable Weak : TWeakLearner.
Variable Config : TBoostingOptions.
Variable dataSet : TFeatureParallelDataSetsHolder.
Variable permutationFolds : list (list TFold).

Lemma UpdateFoldCursor_estimation ws models p folds (cursor cursor' : TCursor Weak) f :
  UpdateFoldCursor Weak ws models p folds cursor f = Returned cursor' ->
  Estimation cursor' = Estimation cursor.
Proof.
  unfold UpdateFoldCursor. intros H.
  bind_inv H. bind_inv H. bind_inv H. bind_inv H. injection H as <-. reflexivity.
Qed.

Lemma UpdateFoldCursors_keeps ws models (cursor cursor' : TCursor Weak) :
  UpdateFoldCursors Weak dataSet permutationFolds ws models cursor = Returned cursor' ->
  CursorSizes cursor' = CursorSizes cursor /\ Estimation cursor' = Estimation cursor.
Proof.
  unfold UpdateFoldCursors.
  pose (I := fun c : TCursor Weak =>
               CursorSizes c = CursorSizes cursor /\ Estimation c = Estimation cursor).
  assert (Hinner : forall p folds l (c : TCursor Weak), I c ->
            forall c', foldM (UpdateFoldCursor Weak ws models p folds) l c = Returned c'
                       -> I c').
  { intros p folds l c Hc.
    apply (foldM_invariant I any_error); [intros; intros e _; exact Logic.I | | exact Hc].
    intros c1 f c2 [Hs He] E. split.
    - rewrite (UpdateFoldCursor_sizes _ _ _ _ _ _ _ _ E). exact Hs.
    - rewrite (UpdateFoldCursor_estimation _ _ _ _ _ _ _ E). exact He. }
  apply (foldM_invariant I any_error).
  - intros; intros e _; exact Logic.I.
  - intros c p c' Hc H. bind_inv H. eapply Hinner; eauto.
  - split; reflexivity.
Qed.

Lemma AppendModels_keeps ws models (state state' : TFitState Weak) :
  AppendModels Weak dataSet permutationFolds ws models state = Returned state' ->
  CursorSizes (Cursor Weak state') = CursorSizes (Cursor Weak state) /\
  MappingSize Weak (Estimation (Cursor Weak state'))
  = MappingSize Weak (Estimation (Cursor Weak state)) /\
  option_map (MappingSize Weak) (TestCursor Weak state')
  = option_map (MappingSize Weak) (TestCursor Weak state) /\
  BestTestCursor Weak state' = BestTestCursor Weak state.
Proof.
  unfold AppendModels. cbv zeta. intros H. bind_inv H. injection H as <-. cbn.
  destruct (UpdateFoldCursors_keeps _ _ _ _ Ha) as [Hs He].
  split; [exact Hs |]. split; [rewrite He; reflexivity |].
  split; [| reflexivity].
  destruct (TestCursor Weak state); [| reflexivity].
  destruct (HasTestDataSet dataSet); reflexivity.
Qed.

Lemma TrackBestTestCursor_best input (state state' : TFitState Weak) :
  TrackBestTestCursor Weak input state = Returned state' ->
  TestCursor Weak state' = TestCursor Weak state /\
  BestTestCursor Weak state'
  = (if IsBestTestIteration input && present (BestTestCursor Weak state)
     then TestCursor Weak state
     else BestTestCursor Weak state) /\
  (IsBestTestIteration input && present (BestTestCursor Weak state) = true ->
   present (TestCursor Weak state) = true).
Proof.
  unfold TrackBestTestCursor. intros H.
  destruct (IsBestTestIteration input); cbn [andb].
  - destruct (BestTestCursor Weak state) as [best |] eqn:Eb; cbn [present].
    + destruct (TestCursor Weak state) as [point |] eqn:Et; [| discriminate].
      injection H as <-. cbn. repeat split.
    + injection H as <-. rewrite Eb.
      split; [reflexivity | split; [reflexivity | intros ?; discriminate]].
  - injection H as <-.
    split; [reflexivity | split; [reflexivity | intros ?; discriminate]].
Qed.

Lemma FitIteration_keeps input (state state' : TFitState Weak) :
  FitIteration Weak Config dataSet permutationFolds input state = Returned state' ->
  CursorSizes (Cursor Weak state') = CursorSizes (Cursor Weak state) /\
  MappingSize Weak (Estimation (Cursor Weak state'))
  = MappingSize Weak (Estimation (Cursor Weak state)) /\
  option_map (MappingSize Weak) (TestCursor Weak state')
  = option_map (MappingSize Weak) (TestCursor Weak state) /\
  BestTestCursor Weak state'
  = (if IsBestTestIteration input && present (BestTestCursor Weak state)
     then TestCursor Weak state'
     else BestTestCursor Weak state) /\
  (IsBestTestIteration input && present (BestTestCursor Weak state) = true ->
   present (TestCursor Weak state') = true).
Proof.
  unfold FitIteration. intros H. bind_inv H. bind_inv H. bind_inv H.
  destruct (AppendModels_keeps _ _ _ _ Ha1) as (Hs & He & Ht & Hb).
  destruct (TrackBestTestCursor_keeps _ _ _ _ H) as [Ec _].
  destruct (TrackBestTestCursor_best _ _ _ H) as (Et & Eb & Ep).
  rewrite Hb in Eb, Ep. rewrite Ec, Et, Eb.
  split; [exact Hs | split; [exact He | split; [exact Ht | split; [reflexivity |]]]].
  exact Ep.
Qed.

Lemma present_option_map {A B} (f : A -> B) (o o' : option A) :
  option_map f o' = option_map f o -> present o' = present o.
Proof. destruct o, o'; cbn; congruence. Qed.

Lemma FitLoop_keeps inputs : forall state state' : TFitState Weak,
  FitLoop Weak Config dataSet permutationFolds inputs state = Returned state' ->
  CursorSizes (Cursor Weak state') = CursorSizes (Cursor Weak state) /\
  MappingSize Weak (Estimation (Cursor Weak state'))
  = MappingSize Weak (Estimation (Cursor Weak state)) /\
  option_map (MappingSize Weak) (TestCursor Weak state')
  = option_map (MappingSize Weak) (TestCursor Weak state) /\
  present (BestTestCursor Weak state') = present (BestTestCursor Weak state).
Proof.
  induction inputs as [| input inputs IH]; intros state state' H; cbn [FitLoop] in H.
  - injection H as <-. repeat split.
  - bind_inv H.
    destruct (FitIteration_keeps _ _ _ Ha) as (Hs & He & Ht & Hb & Hp).
    destruct (IH _ _ H) as (Hs' & He' & Ht' & Hb').
    rewrite Hs', He', Ht', Hb'.
    split; [exact Hs | split; [exact He | split; [exact Ht |]]].
    rewrite Hb.
    destruct (IsBestTestIteration input && present (BestTestCursor Weak state)) eqn:E;
      [| reflexivity].
    rewrite (Hp eq_refl). apply andb_prop in E. symmetry. apply E.
Qed.

(** X6. Whatever state it starts from, a run of [Fit] that returns has left the
    mapping of every cursor as it was: the fold cursors, the estimation
    cursor and the test cursor keep their sizes, and a test cursor or a best
    test cursor is there at the end exactly if it was there at the start. *)
Theorem Fit_keeps_cursor_mappings inputs (state state' : TFitState Weak) :
  Fit Weak Config dataSet permutationFolds inputs state = Returned state' ->
  CursorSizes (Cursor Weak state') = CursorSizes (Cursor Weak state) /\
  MappingSize Weak (Estimation (Cursor Weak state'))
  = MappingSize Weak (Estimation (Cursor Weak state)) /\
  option_map (MappingSize Weak) (TestCursor Weak state')
  = option_map (MappingSize Weak) (TestCursor Weak state) /\
  present (BestTestCursor Weak state') = present (BestTestCursor Weak state).
Proof.
  intros H. apply Fit_FitLoop in H. exact (FitLoop_keeps inputs state state' H).
Qed.

(** X7. When the best test cursor is tracked, it is, at the end of a run, the
    test cursor as it was after the last iteration the progress tracker
    called the best one: later iterations that are not the best change the
    test cursor and leave the best test cursor alone. *)
Theorem best_test_cursor_is_last_best before input after
    (state final : TFitState Weak) :
  IsBestTestIteration input = true ->
  Forall (fun later => IsBestTestIteration later = false) after ->
  present (BestTestCursor Weak state) = true ->
  Fit Weak Config dataSet permutationFolds (before ++ input :: after) state
  = Returned final ->
  exists middle,
    Fit Weak Config dataSet permutationFolds (before ++ [input]) state = Returned middle /\
    present (TestCursor Weak middle) = true /\
    BestTestCursor Weak final = TestCursor Weak middle.
Proof.
  intros Hbest Hafter Hpresent H.
  unfold Fit in *. bind_inv H. rewrite Ha. cbn [bind].
  replace (before ++ input :: after) with ((before ++ [input]) ++ after) in H
    by (rewrite <- app_assoc; reflexivity).
  rewrite FitLoop_app in H. bind_inv H. rename a0 into middle.
  exists middle. split; [exact Ha0 |].
  rewrite FitLoop_app in Ha0. bind_inv Ha0. rename a0 into earlier.
  cbn [FitLoop] in Ha0. bind_inv Ha0. injection Ha0 as ->.
  destruct (FitLoop_keeps _ _ _ Ha1) as (_ & _ & _ & Hp).
  destruct (FitIteration_keeps _ _ _ Ha2) as (_ & _ & _ & Hb & Ht).
  rewrite Hbest, Hp, Hpresent in Hb, Ht. cbn in Hb, Ht.
  split; [exact (Ht eq_refl) |].
  rewrite <- Hb. clear - Hafter H.
  revert middle H. induction Hafter as [| later after Hl _ IH]; intros middle H;
    cbn [FitLoop] in H.
  - injection H as <-. reflexivity.
  - bind_inv H. destruct (FitIteration_keeps _ _ _ Ha) as (_ & _ & _ & Hb & _).
    rewrite Hl in Hb. cbn in Hb. rewrite (IH _ H). exact Hb.
Qed.

End FitKeeps.

Lemma Fit_keeps_cursor_mappings_witness :
  Fit SmallLearner Config_small SmallDataSet SmallFolds FirstIterations SmallStart
  = Returned InterruptedState /\
  CursorSizes (Cursor SmallLearner InterruptedState)
  = CursorSizes (Cursor SmallLearner SmallStart) /\
  MappingSize SmallLearner (Estimation (Cursor SmallLearner InterruptedState))
  = MappingSize SmallLearner (Estimation (Cursor SmallLearner SmallStart)) /\
  option_map (MappingSize SmallLearner) (TestCursor SmallLearner InterruptedState)
  = option_map (MappingSize SmallLearner) (TestCursor SmallLearner SmallStart) /\
  present (BestTestCursor SmallLearner InterruptedState)
  = present (BestTestCursor SmallLearner SmallStart).
Proof.
  assert (H : Fit SmallLearner Config_small SmallDataSet SmallFolds FirstIterations SmallStart
              = Returned InterruptedState) by reflexivity.
  split; [exact H |].
  exact (Fit_keeps_cursor_mappings SmallLearner Config_small SmallDataSet SmallFolds
           FirstIterations SmallStart InterruptedState H).
Defined.

Lemma best_test_cursor_is_last_best_witness :
  IsBestTestIteration (Iteration 0 7 true) = true /\
  Forall (fun later => IsBestTestIteration later = false) [Iteration 1 8 false] /\
  present (BestTestCursor SmallLearner SmallStart) = true /\
  Fit SmallLearner Config_small SmallDataSet SmallFolds
      ([] ++ Iteration 0 7 true :: [Iteration 1 8 false]) SmallStart
  = Returned InterruptedState /\
  exists middle,
    Fit SmallLearner Config_small SmallDataSet SmallFolds ([] ++ [Iteration 0 7 true])
        SmallStart = Returned middle /\
    present (TestCursor SmallLearner middle) = true /\
    BestTestCursor SmallLearner InterruptedState = TestCursor SmallLearner middle.
Proof.
  assert (H1 : IsBestTestIteration (Iteration 0 7 true) = true) by reflexivity.
  assert (H2 : Forall (fun later => IsBestTestIteration later = false)
                      [Iteration 1 8 false])
    by (constructor; [reflexivity | constructor]).
  assert (H3 : present (BestTestCursor SmallLearner SmallStart) = true) by reflexivity.
  assert (H4 : Fit SmallLearner Config_small SmallDataSet SmallFolds
                   ([] ++ Iteration 0 7 true :: [Iteration 1 8 false]) SmallStart
               = Returned InterruptedState) by reflexivity.
  split; [exact H1 | split; [exact H2 | split; [exact H3 | split; [exact H4 |]]]].
  exact (best_test_cursor_is_last_best SmallLearner Config_small SmallDataSet SmallFolds
           [] (Iteration 0 7 true) [Iteration 1 8 false] SmallStart InterruptedState
           H1 H2 H3 H4).
Defined.

(** The best test cursor of the small run is the test cursor after its
    first iteration, not the one it ended with. *)
Example small_run_best_test_cursor :
  BestTestCursor SmallLearner InterruptedState
  = TestCursor SmallLearner AfterFirstIteration /\
  BestTestCursor SmallLearner InterruptedState
  <> TestCursor SmallLearner InterruptedState.
Proof. split; [reflexivity | discriminate]. Qed.

(* ================================================================== *)
(** ** A resumed run and the run it resumes *)

Section ResumedRun.

Variable Weak : TWeakLearner.
Variable Config : TBoostingOptions.
Variable devCount : Z.
Variables DataProvider TestDataProvider : option TTrainingDataProvider.

(** Restoring the snapshot of a state into a state with the same optional
    cursors gives the saved state back. *)
Lemma RestoreFromSnapshot_saved (saved start : TFitState Weak) :
  present (TestCursor Weak saved) = present (TestCursor Weak start) ->
  present (BestTestCursor Weak saved) = present (BestTestCursor Weak start) ->
  RestoreFromSnapshot Weak (snapshotSaver Weak saved) start = Returned saved.
Proof.
  destruct saved as [cursor test best result], start as [cursor' test' best' result'].
  unfold RestoreFromSnapshot, snapshotSaver, MakeProgress. cbn.
  destruct test, test', best, best'; cbn; intros Ht Hb;
    try discriminate Ht; try discriminate Hb; reflexivity.
Qed.

(** X8. A run is interrupted after the iterations [inputs] and the snapshot of
    its state is saved.  The run that restores this snapshot and goes
    through the iterations [rest] ends exactly as the run that goes through
    [inputs] and then [rest] without interruption: with the same result
    model, the same cursors and the same best test cursor, or with the same
    failure. *)
Theorem resumed_run_is_uninterrupted_run need inputs rest (interrupted : TFitState Weak) :
  RunToState Weak Config devCount DataProvider TestDataProvider
    (Some (FreshTracker need inputs)) = Returned interrupted ->
  RunToState Weak Config devCount DataProvider TestDataProvider
    (Some (ResumingTracker need interrupted rest))
  = RunToState Weak Config devCount DataProvider TestDataProvider
      (Some (FreshTracker need (inputs ++ rest))).
Proof.
  intros H. apply RunToState_fresh_inv in H. destruct H as (state & Hstate & Hfit).
  unfold RunToState, ResumingTracker, FreshTracker.
  cbn [SnapshotToRestore NeedBestTestCursor Iterations].
  destruct (ensure _ NoDataProvider); cbn [bind]; [| reflexivity | reflexivity].
  rewrite Hstate. cbn [bind].
  destruct (FitLoop_keeps _ _ _ _ _ _ _ (Fit_FitLoop _ _ _ _ _ _ _ Hfit))
    as (_ & _ & Ht & Hb).
  rewrite (RestoreFromSnapshot_saved _ _ (present_option_map _ _ _ Ht) Hb). cbn [bind].
  unfold Fit in *. bind_inv Hfit. rewrite Ha. cbn [bind].
  rewrite FitLoop_app, Hfit. reflexivity.
Qed.

End ResumedRun.

Lemma resumed_run_is_uninterrupted_run_witness :
  RunToState SmallLearner Config_small 1 (Some SmallPool) (Some SmallTestPool)
    (Some (FreshTracker true FirstIterations)) = Returned InterruptedState /\
  RunToState SmallLearner Config_small 1 (Some SmallPool) (Some SmallTestPool)
    (Some (ResumingTracker true InterruptedState ThirdIteration))
  = RunToState SmallLearner Config_small 1 (Some SmallPool) (Some SmallTestPool)
      (Some (FreshTracker true (FirstIterations ++ ThirdIteration))).
Proof.
  assert (H : RunToState SmallLearner Config_small 1 (Some SmallPool) (Some SmallTestPool)
                (Some (FreshTracker true FirstIterations)) = Returned InterruptedState)
    by reflexivity.
  split; [exact H |].
  exact (resumed_run_is_uninterrupted_run SmallLearner Config_small 1
           (Some SmallPool) (Some SmallTestPool) true FirstIterations ThirdIteration
           InterruptedState H).
Defined.

(* ================================================================== *)
(** ** A run on the state of [CreateState] completes *)

Lemma returns_Returned {A} (a : A) : returns (Returned a).
Proof. exists a. reflexivity. Qed.

Lemma returns_bind {A B} (m : outcome A) (k : A -> outcome B) :
  returns m -> (forall a, m = Returned a -> returns (k a)) -> returns (bind m k).
Proof. intros [a ->] Hk. cbn. now apply Hk. Qed.

Lemma returns_ensure c e : c = true -> returns (ensure c e).
Proof. intros ->. apply returns_Returned. Qed.

Lemma returns_at {A} (v : list A) i : (i < length v)%nat -> returns (at_ v i).
Proof.
  intros H. unfold at_. destruct (nth_error v i) eqn:E; [apply returns_Returned |].
  apply nth_error_None in E. lia.
Qed.

Lemma at_Returned {A} (v : list A) i a : at_ v i = Returned a -> nth_error v i = Some a.
Proof. unfold at_. destruct (nth_error v i); congruence. Qed.

Lemma returns_mapM {A B} (f : A -> outcome B) l :
  (forall a, In a l -> returns (f a)) -> returns (mapM f l).
Proof.
  induction l as [| a l IH]; intros H; cbn [mapM]; [apply returns_Returned |].
  apply returns_bind; [apply H; now left |]. intros b _.
  apply returns_bind; [apply IH; intros; apply H; now right |].
  intros bs _. apply returns_Returned.
Qed.

Lemma mapM_length {A B} (f : A -> outcome B) l : forall bs,
  mapM f l = Returned bs -> length bs = length l.
Proof.
  induction l as [| a l IH]; intros bs H; cbn [mapM] in H.
  - injection H as <-. reflexivity.
  - bind_inv H. bind_inv H. injection H as <-. cbn. f_equal. now apply IH.
Qed.

Lemma mapM_nth_error {A B} (f : A -> outcome B) l : forall bs i b,
  mapM f l = Returned bs -> nth_error bs i = Some b ->
  exists a, nth_error l i = Some a /\ f a = Returned b.
Proof.
  induction l as [| a l IH]; intros bs i b H Hb; cbn [mapM] in H.
  - injection H as <-. destruct i; discriminate.
  - bind_inv H. bind_inv H. injection H as <-. destruct i as [| i]; cbn in *.
    + injection Hb as <-. eauto.
    + eapply IH; eauto.
Qed.

(** A loop over the indices of [v] that reads [v.at(i)] is a map over [v]. *)
Lemma mapM_at_seq {A B} (g : A -> B) (v : list A) : forall pre,
  mapM (fun i => a <- at_ (pre ++ v) i ;; Returned (g a)) (seq (length pre) (length v))
  = Returned (map g v).
Proof.
  induction v as [| a v IH]; intros pre; cbn [length seq mapM map]; [reflexivity |].
  unfold at_ at 1. rewrite nth_error_app2, Nat.sub_diag by lia. cbn [nth_error bind].
  specialize (IH (pre ++ [a])). rewrite <- app_assoc, length_app in IH. cbn in IH.
  rewrite Nat.add_1_r in IH. rewrite IH. reflexivity.
Qed.

Lemma returns_foldM {A S} (I : S -> Prop) (f : S -> A -> outcome S) l :
  (forall s a, I s -> In a l -> returns (f s a)) ->
  (forall s a s', I s -> In a l -> f s a = Returned s' -> I s') ->
  forall s, I s -> returns (foldM f l s).
Proof.
  induction l as [| a l IH]; intros Hr Hk s Hs; cbn [foldM]; [apply returns_Returned |].
  apply returns_bind; [apply Hr; [exact Hs | now left] |].
  intros s' E. apply IH.
  - intros; apply Hr; [assumption | now right].
  - intros; eapply Hk; [| right |]; eassumption.
  - eapply Hk; [exact Hs | now left | exact E].
Qed.

Lemma length_set_nth {A} (v : list A) : forall i a, length (set_nth v i a) = length v.
Proof. induction v as [| x v IH]; intros [| i] a; cbn; auto. Qed.

Lemma SetModel_Shape {TData} (models : TFoldAndPermutationStorage TData) dst model :
  Shape (SetModel models dst model) = Shape models.
Proof.
  destruct dst as [p f |]; [| reflexivity].
  unfold Shape, SetModel. cbn [FoldData].
  apply set_nth_map. intros row Hrow.
  rewrite (nth_error_nth_default _ _ _ _ Hrow). apply length_set_nth.
Qed.

Lemma Foreach_Shape {TData} (func : TData -> TData) models :
  Shape (Foreach func models) = Shape models.
Proof.
  unfold Shape, Foreach. cbn [FoldData]. rewrite map_map.
  apply map_ext. intros row. apply length_map.
Qed.

Lemma returns_Get {TData} (storage : TFoldAndPermutationStorage TData)
    permutationFolds p f folds :
  Shape storage = FoldCounts permutationFolds ->
  nth_error permutationFolds p = Some folds ->
  (f < length folds)%nat ->
  returns (Get storage p f).
Proof.
  intros Hshape Hfolds Hf.
  assert (E : nth_error (Shape storage) p = nth_error (FoldCounts permutationFolds) p)
    by (rewrite Hshape; reflexivity).
  unfold Shape, FoldCounts in E. rewrite !nth_error_map, Hfolds in E.
  unfold Get, at_ at 1.
  destruct (nth_error (FoldData storage) p) as [row |]; [| discriminate].
  cbn in E. injection E as E. cbn [bind]. apply returns_at. lia.
Qed.

Lemma CursorSizes_Shape {Weak} (cursor : TCursor Weak) permutationFolds :
  CursorSizes cursor = FoldSizes permutationFolds ->
  Shape cursor = FoldCounts permutationFolds.
Proof.
  intros H. apply (f_equal (map (@length Z))) in H.
  unfold CursorSizes, FoldSizes in H. rewrite !map_map in H.
  unfold Shape, FoldCounts.
  erewrite map_ext in H by (intros; apply length_map).
  symmetry in H. erewrite map_ext in H by (intros; apply length_map).
  symmetry. exact H.
Qed.

Section FitCompletes.

Variable Weak : TWeakLearner.
Variable Config : TBoostingOptions.
Variable dataSet : TFeatureParallelDataSetsHolder.
Variable permutationFolds : list (list TFold).

Hypothesis permutations : 1 <= PermutationsCount dataSet < 2 ^ 32.
Hypothesis learn_folds :
  length permutationFolds = Z.to_nat (LearnPermutationCount (PermutationsCount dataSet)).
Hypothesis plain_single :
  BoostingType Config = Plain ->
  forall folds, In folds permutationFolds -> length folds = 1%nat.

Local Abbreviation sized cursor := (@CursorSizes Weak cursor = FoldSizes permutationFolds).
Local Abbreviation shaped models :=
  (@Shape (TWeakModel Weak) models = FoldCounts permutationFolds).

Lemma learnPermutations_seq : learnPermutations dataSet = seq 0 (length permutationFolds).
Proof. unfold learnPermutations. now rewrite learn_folds. Qed.

Lemma drawn_in_range nextUniformL :
  (Z.to_nat (LearnPermutationId (LearnPermutationCount (PermutationsCount dataSet))
                                nextUniformL)
   < length permutationFolds)%nat.
Proof.
  rewrite learn_folds.
  set (pc := PermutationsCount dataSet) in *.
  assert (Hest : EstimationPermutation pc = pc - 1) by (apply wrap32_small; lia).
  unfold LearnPermutationCount. rewrite Hest.
  destruct (Z.eqb_spec (pc - 1) 0) as [E | NE].
  - cbn. lia.
  - rewrite wrap32_small by lia.
    destruct (Z.eq_dec pc 2) as [E | NE2].
    + rewrite E. cbn. lia.
    + pose proof (LearnPermutationId_below_last (pc - 1) nextUniformL ltac:(lia)). lia.
Qed.

Lemma SearchWeakModelStructure_returns input (cursor : TCursor Weak) :
  sized cursor ->
  returns (SearchWeakModelStructure Weak Config dataSet permutationFolds input cursor).
Proof.
  intros Hs. unfold SearchWeakModelStructure. cbv zeta.
  apply returns_bind; [apply returns_at, drawn_in_range |].
  intros taskFolds Ht. apply at_Returned in Ht.
  pose proof (CursorSizes_Shape _ _ Hs) as Hshape.
  destruct (BoostingType Config) eqn:EB.
  - pose proof (plain_single eq_refl taskFolds (nth_error_In _ _ Ht)) as Hone.
    apply returns_bind; [apply returns_ensure; rewrite Hone; reflexivity |].
    intros _ _.
    apply returns_bind; [| intros; apply returns_Returned].
    apply (returns_Get _ _ _ _ _ Hshape Ht). lia.
  - apply returns_bind; [| intros; apply returns_Returned].
    apply returns_mapM. intros f Hf. apply in_seq in Hf.
    apply returns_bind; [apply returns_at; lia |]. intros fold _.
    apply returns_bind; [| intros; apply returns_Returned].
    apply (returns_Get _ _ _ _ _ Hshape Ht). lia.
Qed.

Lemma DefaultModels_all ws :
  DefaultModels Weak dataSet permutationFolds ws
  = Returned {| FoldData := map (fun folds => repeat (DefaultModel Weak ws) (length folds))
                                permutationFolds;
                Estimation := DefaultModel Weak ws |}.
Proof.
  unfold DefaultModels. cbv zeta. rewrite learnPermutations_seq.
  pose proof (mapM_at_seq (fun folds : list TFold =>
                             repeat (DefaultModel Weak ws) (length folds))
                          permutationFolds []) as E.
  cbn [app length] in E. cbv beta in E. rewrite E. reflexivity.
Qed.

Lemma FoldEstimationTasks_returns (cursor : TCursor Weak) :
  sized cursor ->
  returns (FoldEstimationTasks Weak dataSet permutationFolds cursor).
Proof.
  intros Hs. pose proof (CursorSizes_Shape _ _ Hs) as Hshape.
  unfold FoldEstimationTasks. rewrite learnPermutations_seq.
  apply returns_bind; [| intros; apply returns_Returned].
  apply returns_mapM. intros p Hp. apply in_seq in Hp.
  apply returns_bind; [apply returns_at; lia |]. intros folds Hfolds.
  apply at_Returned in Hfolds.
  apply returns_mapM. intros f Hf. apply in_seq in Hf.
  apply returns_bind; [apply returns_at; lia |]. intros fold _.
  apply returns_bind; [| intros; apply returns_Returned].
  apply (returns_Get _ _ _ _ _ Hshape Hfolds). lia.
Qed.

Lemma Estimate_Shape ws tasks (models : TFoldAndPermutationStorage (TWeakModel Weak)) :
  Shape (Estimate Weak ws tasks models) = Shape models.
Proof.
  unfold Estimate. generalize (combine (seq 0 (length tasks)) tasks) as numbered.
  intros numbered. revert models.
  induction numbered as [| n numbered IH]; intros models; cbn [fold_left];
    [reflexivity |].
  rewrite IH. apply SetModel_Shape.
Qed.

(** Plain mode without an averaging permutation has one learn permutation
    of one fold. *)
Lemma plain_single_fold :
  isPlainWithoutAveraging Config dataSet = true ->
  exists fold, permutationFolds = [[fold]].
Proof.
  unfold isPlainWithoutAveraging. intros H. apply andb_prop in H. destruct H as [Hp He].
  assert (Hplain : BoostingType Config = Plain)
    by (destruct (BoostingType Config); [reflexivity | discriminate]).
  unfold LearnPermutationCount in learn_folds. rewrite He in learn_folds.
  destruct permutationFolds as [| folds [| ? ?]] eqn:E; try discriminate.
  pose proof (plain_single Hplain folds (or_introl eq_refl)) as Hone.
  destruct folds as [| fold [| ? ?]]; try discriminate. eauto.
Qed.

Lemma IterationModels_returns ws (cursor : TCursor Weak) :
  sized cursor ->
  returns (IterationModels Weak Config dataSet permutationFolds ws cursor) /\
  forall models,
    IterationModels Weak Config dataSet permutationFolds ws cursor = Returned models ->
    shaped models.
Proof.
  intros Hs. unfold IterationModels, EstimationTasks.
  rewrite DefaultModels_all. cbn [bind].
  destruct (FoldEstimationTasks_returns cursor Hs) as [foldTasks ->]. cbn [bind].
  set (default := {| FoldData := _; Estimation := DefaultModel Weak ws |}).
  assert (Hdefault : shaped default).
  { unfold Shape, FoldCounts, default. cbn [FoldData]. rewrite map_map.
    apply map_ext. intros folds. apply repeat_length. }
  destruct (isPlainWithoutAveraging Config dataSet) eqn:Eplain; cbn [negb bind]; cbv zeta.
  - destruct (plain_single_fold Eplain) as [fold Efolds].
    set (models := Foreach _ _).
    assert (Hmodels : shaped models)
      by (unfold models; rewrite Foreach_Shape, Estimate_Shape; exact Hdefault).
    assert (Hget : returns (Get models 0 0)).
    { apply (returns_Get _ permutationFolds _ _ [fold] Hmodels);
        [rewrite Efolds; reflexivity | cbn; lia]. }
    destruct Hget as [fold0 ->]. cbn [bind]. split; [apply returns_Returned |].
    intros ? [= <-]. exact Hmodels.
  - split; [apply returns_Returned |].
    intros ? [= <-]. rewrite Foreach_Shape, Estimate_Shape. exact Hdefault.
Qed.

Lemma UpdateFoldCursor_returns ws models p folds (cursor : TCursor Weak) f :
  sized cursor -> shaped models ->
  nth_error permutationFolds p = Some folds -> (f < length folds)%nat ->
  returns (UpdateFoldCursor Weak ws models p folds cursor f).
Proof.
  intros Hs Hm Hfolds Hf. pose proof (CursorSizes_Shape _ _ Hs) as Hshape.
  unfold UpdateFoldCursor.
  apply returns_bind; [apply returns_at; lia |]. intros fold Hfold.
  apply at_Returned in Hfold. cbv zeta.
  apply returns_bind; [apply (returns_Get _ _ _ _ _ Hshape Hfolds Hf) |].
  intros point Hpoint.
  apply returns_bind.
  { apply returns_ensure. unfold GetObjectsSlice, TSlice_eqb. cbn [Left Right].
    rewrite (sized_fold Weak permutationFolds cursor p f folds fold point
               Hs Hfolds Hfold Hpoint).
    rewrite !Z.eqb_refl. reflexivity. }
  intros _ _.
  apply returns_bind; [apply (returns_Get _ _ _ _ _ Hm Hfolds Hf) |].
  intros; apply returns_Returned.
Qed.

Lemma UpdateFoldCursors_returns ws models (cursor : TCursor Weak) :
  sized cursor -> shaped models ->
  returns (UpdateFoldCursors Weak dataSet permutationFolds ws models cursor).
Proof.
  intros Hs Hm. unfold UpdateFoldCursors. rewrite learnPermutations_seq.
  assert (Hkeep : forall p folds l (c c' : TCursor Weak),
            foldM (UpdateFoldCursor Weak ws models p folds) l c = Returned c' ->
            sized c -> sized c').
  { intros p folds l c c' H Hc.
    refine (proj2 (foldM_invariant (fun c0 : TCursor Weak => sized c0) any_error
                     _ l _ _ c Hc) c' H).
    - intros; intros e _; exact I.
    - intros c1 g c2 Hc1 E.
      rewrite (UpdateFoldCursor_sizes _ _ _ _ _ _ _ _ E). exact Hc1. }
  apply (returns_foldM (fun c : TCursor Weak => sized c)); [| | exact Hs].
  - intros c p Hc Hp. apply in_seq in Hp.
    apply returns_bind; [apply returns_at; lia |]. intros folds Hfolds.
    apply at_Returned in Hfolds.
    apply (returns_foldM (fun c : TCursor Weak => sized c)); [| | exact Hc].
    + intros c1 f Hc1 Hf. apply in_seq in Hf.
      apply UpdateFoldCursor_returns; [assumption | assumption | assumption | lia].
    + intros c1 f c2 Hc1 _ E.
      rewrite (UpdateFoldCursor_sizes _ _ _ _ _ _ _ _ E). exact Hc1.
  - intros c p c' Hc _ H. bind_inv H. exact (Hkeep _ _ _ _ _ H Hc).
Qed.

Lemma AppendModels_returns ws models (state : TFitState Weak) :
  sized (Cursor Weak state) -> shaped models ->
  returns (AppendModels Weak dataSet permutationFolds ws models state).
Proof.
  intros Hs Hm. unfold AppendModels. cbv zeta.
  apply returns_bind; [| intros; apply returns_Returned].
  apply UpdateFoldCursors_returns; [exact Hs | exact Hm].
Qed.

Lemma FitIteration_returns input (state : TFitState Weak) :
  Ready permutationFolds state ->
  returns (FitIteration Weak Config dataSet permutationFolds input state) /\
  forall state',
    FitIteration Weak Config dataSet permutationFolds input state = Returned state' ->
    Ready permutationFolds state'.
Proof.
  intros [Hs Hb].
  assert (Hkeep : forall state',
            FitIteration Weak Config dataSet permutationFolds input state
            = Returned state' ->
            Ready permutationFolds state').
  { intros state' H.
    destruct (FitIteration_keeps _ _ _ _ _ _ _ H) as (Hs' & _ & Ht & Hbest & Hp).
    split; [rewrite Hs'; exact Hs |].
    rewrite Hbest.
    destruct (IsBestTestIteration input && present (BestTestCursor Weak state)) eqn:E.
    - intros _. exact (Hp eq_refl).
    - intros Hpresent. rewrite (present_option_map _ _ _ Ht). exact (Hb Hpresent). }
  split; [| exact Hkeep].
  unfold FitIteration.
  apply returns_bind; [now apply SearchWeakModelStructure_returns |]. intros ws _.
  destruct (IterationModels_returns ws (Cursor Weak state) Hs) as [Hreturns Hshape].
  apply returns_bind; [exact Hreturns |]. intros models Hmodels.
  apply returns_bind; [apply AppendModels_returns; [exact Hs | now apply Hshape] |].
  intros state1 Happend.
  destruct (AppendModels_keeps _ _ _ _ _ _ _ Happend) as (_ & _ & Ht & Hbest).
  unfold TrackBestTestCursor. rewrite Hbest.
  destruct (IsBestTestIteration input); [| apply returns_Returned].
  destruct (BestTestCursor Weak state); [| apply returns_Returned].
  specialize (Hb eq_refl). rewrite <- (present_option_map _ _ _ Ht) in Hb.
  destruct (TestCursor Weak state1); [apply returns_Returned | discriminate].
Qed.

Lemma FitLoop_returns inputs : forall state : TFitState Weak,
  Ready permutationFolds state ->
  returns (FitLoop Weak Config dataSet permutationFolds inputs state).
Proof.
  induction inputs as [| input inputs IH]; intros state Hready; cbn [FitLoop].
  - apply returns_Returned.
  - destruct (FitIteration_returns input state Hready) as [Hreturns Hkeep].
    apply returns_bind; [exact Hreturns |]. intros state1 E. apply IH. now apply Hkeep.
Qed.

End FitCompletes.

Section RunCompletes.

Variable Weak : TWeakLearner.
Variable Config : TBoostingOptions.
Variable devCount : Z.
Variables DataProvider TestDataProvider : option TTrainingDataProvider.

Lemma CreateFolds_plain_single sampleCount growthRate G folds :
  BoostingType Config = Plain ->
  CreateFolds Config devCount sampleCount growthRate G = Returned folds ->
  length folds = 1%nat.
Proof.
  intros Hplain. rewrite CreateFolds_checks, Hplain. intros H.
  destruct (FirstEstimationSize Config devCount sampleCount G) as [first | e |];
    cbn [bind] in H; try discriminate.
  destruct (negb _); [discriminate |].
  destruct (_ =? 0); [discriminate |].
  destruct (negb _); [discriminate |].
  injection H as <-. reflexivity.
Qed.

(** What [CreateState] has set up when it returns. *)
Lemma CreateState_ready state :
  CreateState Weak Config devCount DataProvider TestDataProvider = Returned state ->
  exists provider,
    DataProvider = Some provider /\
    PermutationsCount (DataSets Weak state) = RequestedPermutationCount Config provider /\
    length (PermutationFolds Weak state)
    = Z.to_nat (LearnPermutationCount (PermutationsCount (DataSets Weak state))) /\
    (BoostingType Config = Plain ->
     forall folds, In folds (PermutationFolds Weak state) -> length folds = 1%nat) /\
    present (StateTestCursor Weak state) = present TestDataProvider.
Proof.
  unfold CreateState. intros H.
  bind_inv H. bind_inv H. bind_inv H. cbv zeta in H. bind_inv H.
  injection H as <-. cbn [DataSets PermutationFolds StateTestCursor].
  unfold CreateDataSet in Ha. destruct DataProvider as [provider |]; [| discriminate].
  injection Ha as <-. exists provider. cbn [BuildDataSet PermutationsCount] in *.
  split; [reflexivity | split; [reflexivity | split; [| split]]].
  - rewrite (mapM_length _ _ _ Ha2), length_seq. reflexivity.
  - intros Hplain folds Hin. apply In_nth_error in Hin. destruct Hin as [i Hi].
    destruct (mapM_nth_error _ _ _ _ _ Ha2 Hi) as (p & _ & Hp).
    exact (CreateFolds_plain_single _ _ _ _ Hplain Hp).
  - cbn [TestObjectCount] in Ha1.
    destruct TestDataProvider as [test |]; cbn [option_map] in Ha1.
    + bind_inv Ha1. injection Ha1 as <-. reflexivity.
    + injection Ha1 as <-. reflexivity.
Qed.

(** X9. Once [CreateState] has succeeded, with a permutation count of at least
    one and a test pool whenever the best test cursor is wanted, a run
    without a snapshot completes whatever the weak learner and the inputs of
    the iterations are: no [at] is out of range, no check of [Fit] fails,
    and the result has one weak model per iteration. *)
Theorem fresh_run_completes need inputs :
  returns (CreateState Weak Config devCount DataProvider TestDataProvider) ->
  1 <= PermutationCount Config < 2 ^ 32 ->
  (need = true -> TestDataProvider <> None) ->
  exists final,
    RunToState Weak Config devCount DataProvider TestDataProvider
      (Some (FreshTracker need inputs)) = Returned final /\
    length (Result Weak final) = length inputs.
Proof.
  intros [state Hstate] Hpc Hneed.
  destruct (CreateState_ready state Hstate)
    as (provider & Hprovider & Hcount & Hlen & Hplain & Htest).
  assert (Hperm : 1 <= PermutationsCount (DataSets Weak state) < 2 ^ 32).
  { rewrite Hcount. unfold RequestedPermutationCount.
    destruct (GetOrder provider); lia. }
  assert (Hready : Ready (PermutationFolds Weak state) (StartState Weak state need)).
  { split; cbn [StartState Cursor TestCursor BestTestCursor].
    - exact (CreateState_sizes _ _ _ _ _ _ Hstate).
    - rewrite Htest. destruct need; [| discriminate]. intros _.
      destruct TestDataProvider; [reflexivity | exfalso; now apply Hneed]. }
  destruct (FitLoop_returns Weak Config _ _ Hperm Hlen Hplain inputs _ Hready)
    as [final Hfinal].
  exists final. split.
  - rewrite RunToState_fresh, Hstate, Hprovider. cbn [ensure bind]. unfold Fit.
    replace (PermutationsCount (DataSets Weak state) >=? 1) with true
      by (symmetry; apply Z.geb_le; lia).
    cbn [ensure bind]. exact Hfinal.
  - destruct (FitLoop_result _ _ _ _ _ _ _ Hfinal) as (models & Hr & Hl).
    rewrite Hr. cbn. exact Hl.
Qed.

End RunCompletes.

Lemma fresh_run_completes_witness :
  returns (CreateState SmallLearner Config_small 1 (Some SmallPool) (Some SmallTestPool)) /\
  1 <= PermutationCount Config_small < 2 ^ 32 /\
  (true = true -> Some SmallTestPool <> None) /\
  exists final,
    RunToState SmallLearner Config_small 1 (Some SmallPool) (Some SmallTestPool)
      (Some (FreshTracker true FirstIterations)) = Returned final /\
    length (Result SmallLearner final) = length FirstIterations.
Proof.
  assert (H1 : returns (CreateState SmallLearner Config_small 1
                          (Some SmallPool) (Some SmallTestPool)))
    by (eexists; reflexivity).
  assert (H2 : 1 <= PermutationCount Config_small < 2 ^ 32) by (simpl; lia).
  assert (H3 : true = true -> Some SmallTestPool <> None) by (intros _; discriminate).
  split; [exact H1 | split; [exact H2 | split; [exact H3 |]]].
  exact (fresh_run_completes SmallLearner Config_small 1 (Some SmallPool)
           (Some SmallTestPool) true FirstIterations H1 H2 H3).
Defined.

(* ================================================================== *)
(** ** [CalcTrainSubsets] *)

Lemma nth_error_set_nth {A} (v : list A) : forall i k a,
  nth_error (set_nth v i a) k
  = if Nat.eqb k i then option_map (fun _ => a) (nth_error v k) else nth_error v k.
Proof.
  induction v as [| x v IH]; intros [| i] [| k] a; cbn; try reflexivity.
  - destruct (Nat.eqb k i); reflexivity.
  - apply IH.
Qed.

Lemma PushToOtherFolds_nth_error testFold (srcIdx : Z) k : forall n a train,
  nth_error
    (fold_left (fun train fold =>
                  if Nat.eqb testFold fold then train
                  else set_nth train fold (nth fold train [] ++ [srcIdx]))
               (seq a n) train) k
  = if (a <=? k)%nat && (k <? a + n)%nat && negb (Nat.eqb testFold k)
    then option_map (fun row => row ++ [srcIdx]) (nth_error train k)
    else nth_error train k.
Proof.
  induction n as [| n IH]; intros a train; cbn [seq fold_left].
  - replace ((a <=? k)%nat && (k <? a + 0)%nat) with false; [reflexivity |].
    symmetry. apply andb_false_iff.
    destruct (Nat.leb_spec a k); [right; apply Nat.ltb_ge; lia | now left].
  - rewrite IH.
    assert (Hstep : nth_error (if Nat.eqb testFold a then train
                               else set_nth train a (nth a train [] ++ [srcIdx])) k
                    = if Nat.eqb k a && negb (Nat.eqb testFold k)
                      then option_map (fun row => row ++ [srcIdx]) (nth_error train k)
                      else nth_error train k).
    { destruct (Nat.eqb_spec k a) as [-> | NE]; cbn [andb].
      - destruct (Nat.eqb testFold a); cbn [negb]; [reflexivity |].
        rewrite nth_error_set_nth, Nat.eqb_refl.
        destruct (nth_error train a) as [row |] eqn:E; cbn [option_map]; [| reflexivity].
        rewrite (nth_error_nth_default _ _ _ _ E). reflexivity.
      - destruct (Nat.eqb testFold a); [reflexivity |].
        rewrite nth_error_set_nth. apply Nat.eqb_neq in NE. rewrite NE. reflexivity. }
    rewrite Hstep.
    destruct (Nat.eqb_spec k a) as [-> | NE]; cbn [andb].
    + replace (S a <=? a)%nat with false by (symmetry; apply Nat.leb_gt; lia).
      replace (a <=? a)%nat with true by (symmetry; apply Nat.leb_le; lia).
      replace (a <? a + S n)%nat with true by (symmetry; apply Nat.ltb_lt; lia).
      reflexivity.
    + replace (S a + n)%nat with (a + S n)%nat by lia.
      replace (S a <=? k)%nat with (a <=? k)%nat; [reflexivity |].
      destruct (Nat.leb_spec a k), (Nat.leb_spec (S a) k); try reflexivity; lia.
Qed.

(** One source index goes to the end of every row but the test fold's. *)
Lemma PushToOtherFolds_row testFold train srcIdx k :
  nth_error (PushToOtherFolds testFold train srcIdx) k
  = option_map (fun row => if Nat.eqb testFold k then row else row ++ [srcIdx])
               (nth_error train k).
Proof.
  unfold PushToOtherFolds. rewrite PushToOtherFolds_nth_error. cbn [Nat.leb andb plus].
  destruct (nth_error train k) as [row |] eqn:E.
  - assert (k < length train)%nat by (apply nth_error_Some; congruence).
    replace (k <? length train)%nat with true by (symmetry; apply Nat.ltb_lt; lia).
    cbn [andb option_map]. destruct (Nat.eqb testFold k); reflexivity.
  - destruct (_ && _); reflexivity.
Qed.

(** A whole test subset goes, in its order, to the end of every row but its
    own fold's. *)
Lemma push_subset_row testFold k : forall subset train,
  nth_error (fold_left (PushToOtherFolds testFold) subset train) k
  = option_map (fun row => if Nat.eqb testFold k then row else row ++ subset)
               (nth_error train k).
Proof.
  induction subset as [| srcIdx subset IH]; intros train; cbn [fold_left].
  - destruct (nth_error train k); cbn; [| reflexivity].
    destruct (Nat.eqb testFold k); [reflexivity | now rewrite app_nil_r].
  - rewrite IH, PushToOtherFolds_row.
    destruct (nth_error train k); cbn; [| reflexivity].
    destruct (Nat.eqb testFold k); [reflexivity | now rewrite <- app_assoc].
Qed.

Lemma push_subsets_row k : forall subsets a train,
  nth_error
    (fold_left (fun train numbered =>
                  fold_left (PushToOtherFolds (fst numbered)) (snd numbered) train)
               (combine (seq a (length subsets)) subsets) train) k
  = option_map
      (fun row => row ++ concat (if (a <=? k)%nat then OtherFolds (k - a) subsets
                                 else subsets))
      (nth_error train k).
Proof.
  induction subsets as [| subset subsets IH]; intros a train;
    cbn [length seq combine fold_left].
  - destruct (nth_error train k); cbn; [| reflexivity].
    unfold OtherFolds. rewrite firstn_nil, skipn_nil.
    destruct (a <=? k)%nat; cbn; now rewrite app_nil_r.
  - rewrite IH. cbn [fst snd]. rewrite push_subset_row.
    destruct (nth_error train k) as [row |]; cbn [option_map]; [| reflexivity].
    f_equal. unfold OtherFolds.
    destruct (Nat.eqb_spec a k) as [-> | NE].
    + replace (S k <=? k)%nat with false by (symmetry; apply Nat.leb_gt; lia).
      replace (k <=? k)%nat with true by (symmetry; apply Nat.leb_le; lia).
      rewrite Nat.sub_diag. reflexivity.
    + destruct (Nat.leb_spec a k) as [Hle | Hgt].
      * replace (S a <=? k)%nat with true by (symmetry; apply Nat.leb_le; lia).
        replace (k - a)%nat with (S (k - S a)) by lia.
        cbn [firstn skipn app concat]. now rewrite <- app_assoc.
      * replace (S a <=? k)%nat with false by (symmetry; apply Nat.leb_gt; lia).
        cbn [concat]. now rewrite <- app_assoc.
Qed.

Lemma CalcTrainSubsets_row testSubsets groupCount k :
  nth_error (CalcTrainSubsets testSubsets groupCount) k
  = if (k <? length testSubsets)%nat then Some (concat (OtherFolds k testSubsets))
    else None.
Proof.
  unfold CalcTrainSubsets. cbv zeta. rewrite push_subsets_row.
  cbn [Nat.leb]. rewrite Nat.sub_0_r.
  destruct (Nat.ltb_spec k (length testSubsets)) as [Hlt | Hge].
  - rewrite nth_error_repeat by exact Hlt. reflexivity.
  - replace (nth_error (repeat [] (length testSubsets)) k) with (@None (list Z));
      [reflexivity |].
    symmetry. apply nth_error_None. rewrite repeat_length. exact Hge.
Qed.

Lemma NoDup_app_inv {A} (l1 l2 : list A) :
  NoDup (l1 ++ l2) -> NoDup l1 /\ NoDup l2 /\ forall a, In a l1 -> ~ In a l2.
Proof.
  induction l1 as [| x l1 IH]; cbn; intros H.
  - split; [constructor | split; [exact H | intros a []]].
  - inversion H as [| ? ? Hx Hrest]; subst.
    destruct (IH Hrest) as (N1 & N2 & D).
    split; [constructor; [intros Hin; apply Hx, in_or_app; now left | exact N1] |].
    split; [exact N2 |].
    intros b [<- | Hb] Hin; [apply Hx, in_or_app; now right | exact (D b Hb Hin)].
Qed.

(** X10. [CalcTrainSubsets] returns one train subset per test subset, and the
    train subset of a fold is the test subsets of the other folds one after
    the other, in the order of the folds: first the folds before it, then the
    folds after it.  [groupCount] changes nothing of the result. *)
Theorem CalcTrainSubsets_other_folds testSubsets groupCount :
  length (CalcTrainSubsets testSubsets groupCount) = length testSubsets /\
  forall fold, (fold < length testSubsets)%nat ->
    nth_error (CalcTrainSubsets testSubsets groupCount) fold
    = Some (concat (OtherFolds fold testSubsets)).
Proof.
  split.
  - destruct (Nat.lt_trichotomy (length (CalcTrainSubsets testSubsets groupCount))
                                (length testSubsets)) as [Hlt | [E | Hgt]];
      [| exact E |].
    + exfalso.
      pose proof (CalcTrainSubsets_row testSubsets groupCount
                    (length (CalcTrainSubsets testSubsets groupCount))) as E.
      rewrite (proj2 (nth_error_None _ _) (Nat.le_refl _)) in E.
      apply Nat.ltb_lt in Hlt. rewrite Hlt in E. discriminate.
    + exfalso.
      pose proof (CalcTrainSubsets_row testSubsets groupCount (length testSubsets)) as E.
      rewrite Nat.ltb_irrefl in E. apply nth_error_None in E. lia.
  - intros fold Hfold. rewrite CalcTrainSubsets_row.
    apply Nat.ltb_lt in Hfold. rewrite Hfold. reflexivity.
Qed.

(** X11. When no source index is in two test subsets or twice in one, the train
    subset of a fold holds every index of the test subsets but the ones of
    its own test subset, each once: no index is both in the train and in the
    test subset of a fold.  Its size is the total less the size of the test
    subset, which is the room the code reserved for it when [groupCount] is
    the total. *)
Theorem CalcTrainSubsets_partition testSubsets groupCount fold test :
  NoDup (concat testSubsets) ->
  nth_error testSubsets fold = Some test ->
  exists train,
    nth_error (CalcTrainSubsets testSubsets groupCount) fold = Some train /\
    NoDup train /\
    (forall srcIdx,
       In srcIdx train <-> In srcIdx (concat testSubsets) /\ ~ In srcIdx test) /\
    Z.of_nat (length train)
    = Z.of_nat (length (concat testSubsets)) - Z.of_nat (length test) /\
    (groupCount = Z.of_nat (length (concat testSubsets)) -> groupCount < 2 ^ 32 ->
     ReservedTrainSize testSubsets groupCount fold = Z.of_nat (length train)).
Proof.
  intros Hnodup Htest.
  assert (Hfold : (fold < length testSubsets)%nat) by (apply nth_error_Some; congruence).
  exists (concat (OtherFolds fold testSubsets)).
  rewrite CalcTrainSubsets_row. unfold TArraySubsetIndexing in *.
  apply Nat.ltb_lt in Hfold. rewrite Hfold.
  split; [reflexivity |].
  pose proof (firstn_skipn_middle fold testSubsets Htest) as Esplit.
  unfold OtherFolds. rewrite concat_app.
  set (before := concat (firstn fold testSubsets)) in *.
  set (after := concat (skipn (S fold) testSubsets)) in *.
  assert (Eall : concat testSubsets = before ++ test ++ after).
  { rewrite <- Esplit at 1. rewrite concat_app. reflexivity. }
  rewrite Eall in *.
  destruct (NoDup_app_inv _ _ Hnodup) as (Nb & Nta & Db).
  destruct (NoDup_app_inv _ _ Nta) as (Nt & Na & Dt).
  assert (Hlen : Z.of_nat (length (before ++ after))
                 = Z.of_nat (length (before ++ test ++ after)) - Z.of_nat (length test))
    by (rewrite !length_app; lia).
  split; [| split; [| split; [exact Hlen |]]].
  - apply NoDup_app; [exact Nb | exact Na |].
    intros a Ha Hin. apply (Db a Ha). apply in_or_app. now right.
  - intros srcIdx. rewrite !in_app_iff. split.
    + intros [Hb | Ha].
      * split; [now left |]. intros Hin. apply (Db srcIdx Hb), in_or_app. now left.
      * split; [right; now right |]. intros Hin. exact (Dt srcIdx Hin Ha).
    + intros [[Hb | [Ht | Ha]] Hnot]; [now left | contradiction | now right].
  - intros Hcount Hsmall. unfold ReservedTrainSize.
    rewrite (nth_error_nth_default _ _ _ _ Htest), Hcount, <- Hlen.
    apply wrap32_small. lia.
Qed.

Lemma CalcTrainSubsets_partition_witness :
  NoDup (concat [[4; 1]; [0; 5]; [3; 2]]) /\
  nth_error [[4; 1]; [0; 5]; [3; 2]] 1 = Some [0; 5] /\
  exists train,
    nth_error (CalcTrainSubsets [[4; 1]; [0; 5]; [3; 2]] 6) 1 = Some train /\
    NoDup train /\
    (forall srcIdx,
       In srcIdx train <->
       In srcIdx (concat [[4; 1]; [0; 5]; [3; 2]]) /\ ~ In srcIdx [0; 5]) /\
    Z.of_nat (length train)
    = Z.of_nat (length (concat [[4; 1]; [0; 5]; [3; 2]])) - Z.of_nat (length [0; 5]) /\
    (6 = Z.of_nat (length (concat [[4; 1]; [0; 5]; [3; 2]])) -> 6 < 2 ^ 32 ->
     ReservedTrainSize [[4; 1]; [0; 5]; [3; 2]] 6 1 = Z.of_nat (length train)).
Proof.
  assert (H1 : NoDup (concat [[4; 1]; [0; 5]; [3; 2]])).
  { cbn. repeat (constructor; [cbn; intuition discriminate |]). constructor. }
  assert (H2 : nth_error [[4; 1]; [0; 5]; [3; 2]] 1 = Some [0; 5]) by reflexivity.
  split; [exact H1 | split; [exact H2 |]].
  exact (CalcTrainSubsets_partition [[4; 1]; [0; 5]; [3; 2]] 6 1 [0; 5] H1 H2).
Defined.

(** Three folds of two rows: the train subsets, in the order of the code. *)
Example CalcTrainSubsets_three_folds :
  CalcTrainSubsets [[4; 1]; [0; 5]; [3; 2]] 6
  = [[0; 5; 3; 2]; [4; 1; 3; 2]; [4; 1; 0; 5]].
Proof. reflexivity. Qed.

(* ================================================================== *)
(** ** The metric values the callback stores are where they are read *)

Lemma set_nth_same {A} (v : list A) : forall i d, set_nth v i (nth i v d) = v.
Proof. induction v as [| x v IH]; intros [| i] d; cbn; try reflexivity. f_equal. apply IH. Qed.

Lemma set_nth_set_nth {A} (v : list A) : forall i a b,
  set_nth (set_nth v i a) i b = set_nth v i b.
Proof. induction v as [| x v IH]; intros [| i] a b; cbn; try reflexivity. f_equal. apply IH. Qed.

Lemma nth_set_nth {A} (v : list A) : forall i a d,
  (i < length v)%nat -> nth i (set_nth v i a) d = a.
Proof.
  induction v as [| x v IH]; intros [| i] a d H; cbn in *; try lia; [reflexivity |].
  apply IH. lia.
Qed.

Lemma Forall2_nth_error {A B} (R : A -> B -> Prop) l l' :
  Forall2 R l l' ->
  forall i a, nth_error l i = Some a -> exists b, nth_error l' i = Some b /\ R a b.
Proof.
  induction 1 as [| x y l l' Hxy _ IH]; intros [| i] a Ha; cbn in *; try discriminate.
  - injection Ha as <-. eauto.
  - eauto.
Qed.

Section StoredMetrics.

Variable TString : Type.
Variable metrics : list TString.
Variable skipMetricOnTrain : list bool.
Variable history : TMetricsAndTimeLeftHistory TString.
Variables calcMetrics isErrorTrackerActive : bool.
Variable iteration : nat.

Local Abbreviation errorTrackerMetricIdx :=
  (ErrorTrackerMetricIdx calcMetrics isErrorTrackerActive).
Local Abbreviation keeps := (@KeepsMetric TString calcMetrics isErrorTrackerActive).

(** The loop over the metrics appends to the rows of the iteration, in the
    order of the metrics, the values of the metrics it does not skip. *)
Lemma StoreMetric_rows : forall numbered context context',
  cv_foldM (StoreMetric TString skipMetricOnTrain history calcMetrics
                        errorTrackerMetricIdx iteration)
           numbered context = CvReturned context' ->
  (iteration < length (MetricValuesOnTrain context))%nat ->
  (iteration < length (MetricValuesOnTest context))%nat ->
  exists trains tests,
    MetricValuesOnTrain context'
    = set_nth (MetricValuesOnTrain context) iteration
              (nth iteration (MetricValuesOnTrain context) [] ++ trains) /\
    MetricValuesOnTest context'
    = set_nth (MetricValuesOnTest context) iteration
              (nth iteration (MetricValuesOnTest context) [] ++ tests) /\
    Forall2 (StoredOnTrain skipMetricOnTrain history) (filter keeps numbered) trains /\
    Forall2 (StoredOnTest history) (filter keeps numbered) tests.
Proof.
  induction numbered as [| [metricIdx description] numbered IH];
    intros context context' H Htrain Htest; cbn [cv_foldM] in H.
  - injection H as <-. exists [], []. rewrite !app_nil_r, !set_nth_same.
    repeat split; constructor.
  - cbn [filter].
    assert (Ek : keeps (metricIdx, description)
                 = negb (SkipsMetric calcMetrics errorTrackerMetricIdx metricIdx))
      by reflexivity.
    rewrite Ek. clear Ek. unfold StoreMetric at 1 in H.
    destruct (SkipsMetric calcMetrics errorTrackerMetricIdx metricIdx) eqn:Eskip;
      cbn [cv_bind negb] in H.
    + exact (IH _ _ H Htrain Htest).
    + destruct (nth (Z.to_nat metricIdx) skipMetricOnTrain false) eqn:Eskiptrain;
        cbn [cv_bind] in H.
      * unfold at_description in H.
        destruct (LastTestMetrics history description) as [test |] eqn:Et;
          cbn [cv_bind] in H; [| discriminate].
        destruct (IH _ _ H) as (trains & tests & Etrain & Etest & Ftrain & Ftest);
          cbn [MetricValuesOnTrain MetricValuesOnTest] in *;
          [unfold push_back_row; rewrite length_set_nth; exact Htrain
          |unfold push_back_row; rewrite length_set_nth; exact Htest |].
        exists (0%float :: trains), (test :: tests).
        unfold push_back_row in Etrain, Etest.
        rewrite nth_set_nth, set_nth_set_nth, <- app_assoc in Etrain by exact Htrain.
        rewrite nth_set_nth, set_nth_set_nth, <- app_assoc in Etest by exact Htest.
        split; [exact Etrain | split; [exact Etest | split]].
        -- constructor; [| exact Ftrain]. unfold StoredOnTrain. cbn [fst snd].
           rewrite Eskiptrain. reflexivity.
        -- constructor; [exact Et | exact Ftest].
      * unfold at_description in H.
        destruct (LastLearnMetrics history description) as [train |] eqn:El;
          cbn [cv_bind] in H; [| discriminate].
        destruct (LastTestMetrics history description) as [test |] eqn:Et;
          cbn [cv_bind] in H; [| discriminate].
        destruct (IH _ _ H) as (trains & tests & Etrain & Etest & Ftrain & Ftest);
          cbn [MetricValuesOnTrain MetricValuesOnTest] in *;
          [unfold push_back_row; rewrite length_set_nth; exact Htrain
          |unfold push_back_row; rewrite length_set_nth; exact Htest |].
        exists (train :: trains), (test :: tests).
        unfold push_back_row in Etrain, Etest.
        rewrite nth_set_nth, set_nth_set_nth, <- app_assoc in Etrain by exact Htrain.
        rewrite nth_set_nth, set_nth_set_nth, <- app_assoc in Etest by exact Htest.
        split; [exact Etrain | split; [exact Etest | split]].
        -- constructor; [| exact Ftrain]. unfold StoredOnTrain. cbn [fst snd].
           rewrite Eskiptrain. exact El.
        -- constructor; [exact Et | exact Ftest].
Qed.

End StoredMetrics.

Lemma nth_error_combine {A B} (l : list A) : forall (l' : list B) i,
  nth_error (combine l l') i
  = match nth_error l i, nth_error l' i with
    | Some a, Some b => Some (a, b)
    | _, _ => None
    end.
Proof.
  induction l as [| a l IH]; intros [| b l'] [| i]; cbn; try reflexivity.
  - destruct (nth_error l i); reflexivity.
  - apply IH.
Qed.

Lemma filter_index_before {B} (c : Z) : forall n a (l : list B),
  c < Z.of_nat a ->
  filter (fun numbered : Z * B => fst numbered =? c)
         (combine (map Z.of_nat (seq a n)) l) = [].
Proof.
  induction n as [| n IH]; intros a [| b l] H; cbn; try reflexivity.
  destruct (Z.eqb_spec (Z.of_nat a) c); [lia |]. apply IH. lia.
Qed.

Lemma resize_rows_grow rows n :
  (length rows < n)%nat ->
  length (resize_rows rows n) = n /\
  nth (n - 1) (resize_rows rows n) [] = [] /\
  forall i, (i < length rows)%nat -> nth_error (resize_rows rows n) i = nth_error rows i.
Proof.
  intros H. unfold resize_rows. rewrite firstn_all2 by lia. split; [| split].
  - rewrite length_app, repeat_length. lia.
  - rewrite app_nth2 by lia. apply nth_repeat.
  - intros i Hi. now apply nth_error_app1.
Qed.

Section StoredMetricsRead.

Variable TString : Type.
Variable metrics : list TString.
Variable skipMetricOnTrain : list bool.

(** The metrics a pass keeps are the first ones: the metric of the error
    tracker is metric 0. *)
Lemma kept_metrics_first calcMetrics isErrorTrackerActive :
  exists m,
    filter (KeepsMetric calcMetrics isErrorTrackerActive) (NumberedMetrics TString metrics)
    = firstn m (NumberedMetrics TString metrics) /\
    forall i (description : TString),
      nth_error metrics i = Some description ->
      KeepsMetric calcMetrics isErrorTrackerActive (Z.of_nat i, description) = true ->
      (i < m)%nat.
Proof.
  unfold NumberedMetrics, Zrange. rewrite Nat2Z.id.
  destruct calcMetrics; [| destruct isErrorTrackerActive].
  - exists (length metrics). split.
    + rewrite firstn_all2 by (rewrite length_combine; lia).
      rewrite <- filter_true. apply filter_ext. reflexivity.
    + intros i description Hi _. apply nth_error_Some. congruence.
  - exists 1%nat. split.
    + destruct metrics as [| description rest]; [reflexivity |].
      cbn [length seq map combine filter firstn].
      unfold KeepsMetric at 1. cbn.
      f_equal. erewrite filter_ext; [apply (filter_index_before 0); lia |].
      intros [idx ?]. unfold KeepsMetric, SkipsMetric, ErrorTrackerMetricIdx. cbn.
      now rewrite negb_involutive.
    + intros i description _. unfold KeepsMetric, SkipsMetric, ErrorTrackerMetricIdx. cbn.
      rewrite negb_involutive. intros H. apply Z.eqb_eq in H. lia.
  - exists 0%nat. split.
    + cbn [firstn]. erewrite filter_ext; [apply (filter_index_before (-1)); lia |].
      intros [idx ?]. unfold KeepsMetric, SkipsMetric, ErrorTrackerMetricIdx. cbn.
      now rewrite negb_involutive.
    + intros i description _. unfold KeepsMetric, SkipsMetric, ErrorTrackerMetricIdx. cbn.
      rewrite negb_involutive. intros H. apply Z.eqb_eq in H. lia.
Qed.

(** What the callback leaves when it is called for an iteration it has not
    seen. *)
Lemma TrainUpToIterationCallback_stores
    upToIteration globalMaxIteration metricPeriod isErrorTrackerActive
    (history : TMetricsAndTimeLeftHistory TString) (iteration : nat)
    (context context' : TFoldContext) (goesOn : bool) :
  TimeHistorySize history = Z.of_nat iteration + 1 ->
  length (MetricValuesOnTrain context) = length (MetricValuesOnTest context) ->
  (length (MetricValuesOnTest context) <= iteration)%nat ->
  TrainUpToIterationCallback TString metrics skipMetricOnTrain upToIteration
    globalMaxIteration metricPeriod isErrorTrackerActive history context
  = CvReturned (context', goesOn) ->
  metricPeriod <> 0 /\
  length (MetricValuesOnTrain context') = S iteration /\
  length (MetricValuesOnTest context') = S iteration /\
  (forall earlier, (earlier < length (MetricValuesOnTest context))%nat ->
     nth_error (MetricValuesOnTrain context') earlier
     = nth_error (MetricValuesOnTrain context) earlier /\
     nth_error (MetricValuesOnTest context') earlier
     = nth_error (MetricValuesOnTest context) earlier) /\
  goesOn = (Z.of_nat iteration + 1 <? upToIteration) /\
  forall metricIdx description,
    nth_error metrics metricIdx = Some description ->
    SkipsMetric
      (DivisibleOrLast (to_int (Z.of_nat iteration)) (to_int globalMaxIteration)
                       metricPeriod)
      (ErrorTrackerMetricIdx
         (DivisibleOrLast (to_int (Z.of_nat iteration))
                          (to_int globalMaxIteration) metricPeriod)
         isErrorTrackerActive)
      (Z.of_nat metricIdx) = false ->
    exists train test,
      ReadMetric context' iteration metricIdx = Some (train, test) /\
      StoredOnTrain skipMetricOnTrain history (Z.of_nat metricIdx, description) train /\
      StoredOnTest history (Z.of_nat metricIdx, description) test.
Proof.
  intros Hsize Hrows Hnew H. unfold TrainUpToIterationCallback in H.
  replace (TimeHistorySize history >? 0) with true in H
    by (symmetry; apply Z.gtb_lt; lia).
  cbn [negb] in H. cbv zeta in H.
  replace (TimeHistorySize history - 1) with (Z.of_nat iteration) in H by lia.
  replace (Z.of_nat iteration <? Z.of_nat (length (MetricValuesOnTest context)))
    with false in H by (symmetry; apply Z.ltb_ge; lia).
  rewrite Nat2Z.id in H.
  replace (Z.to_nat (Z.of_nat iteration + 1)) with (S iteration) in H by lia.
  unfold DivisibleOrLastIteration in H.
  destruct (Z.eqb_spec metricPeriod 0) as [Hzero | Hperiod]; cbn [cv_bind] in H;
    [discriminate |].
  set (calcMetrics := DivisibleOrLast _ _ _) in *.
  destruct (cv_foldM _ _ _) as [stored | e] eqn:Efold; cbn [cv_bind] in H;
    [| discriminate].
  injection H as <- <-.
  split; [exact Hperiod |].
  destruct (resize_rows_grow (MetricValuesOnTrain context) (S iteration) ltac:(lia))
    as (Ltrain & Ntrain & Ktrain).
  destruct (resize_rows_grow (MetricValuesOnTest context) (S iteration) ltac:(lia))
    as (Ltest & Ntest & Ktest).
  replace (S iteration - 1)%nat with iteration in Ntrain, Ntest by lia.
  apply StoreMetric_rows in Efold;
    cbn [MetricValuesOnTrain MetricValuesOnTest]; [| lia | lia].
  cbn [MetricValuesOnTrain MetricValuesOnTest] in Efold.
  destruct Efold as (trains & tests & Etrain & Etest & Ftrain & Ftest).
  rewrite Ntrain in Etrain. rewrite Ntest in Etest. cbn [app] in Etrain, Etest.
  split; [rewrite Etrain, length_set_nth; exact Ltrain |].
  split; [rewrite Etest, length_set_nth; exact Ltest |].
  split; [| split; [reflexivity |]].
  - intros earlier Hearlier. rewrite Etrain, Etest, !nth_error_set_nth.
    replace (Nat.eqb earlier iteration) with false by (symmetry; apply Nat.eqb_neq; lia).
    split; [apply Ktrain; lia | apply Ktest; lia].
  - intros metricIdx description Hmetric Hkept.
    destruct (kept_metrics_first calcMetrics isErrorTrackerActive) as (m & Em & Hm).
    rewrite Em in Ftrain, Ftest.
    assert (Hlt : (metricIdx < m)%nat).
    { apply (Hm metricIdx description Hmetric). unfold KeepsMetric. cbn [fst].
      rewrite Hkept. reflexivity. }
    assert (Hnumbered : nth_error (firstn m (NumberedMetrics TString metrics)) metricIdx
                        = Some (Z.of_nat metricIdx, description)).
    { rewrite nth_error_firstn. apply Nat.ltb_lt in Hlt. rewrite Hlt.
      unfold NumberedMetrics, Zrange. rewrite Nat2Z.id, nth_error_combine, Hmetric.
      rewrite nth_error_map, nth_error_seq.
      assert (Hin : (metricIdx < length metrics)%nat)
        by (apply nth_error_Some; congruence).
      apply Nat.ltb_lt in Hin. rewrite Hin. reflexivity. }
    destruct (Forall2_nth_error _ _ _ Ftrain _ _ Hnumbered) as (train & Et & Rt).
    destruct (Forall2_nth_error _ _ _ Ftest _ _ Hnumbered) as (test & Es & Rs).
    exists train, test. split; [| split; [exact Rt | exact Rs]].
    unfold ReadMetric. rewrite Etrain, Etest, !nth_error_set_nth, Nat.eqb_refl.
    destruct (nth_error (resize_rows (MetricValuesOnTrain context) (S iteration)) iteration)
      eqn:E1; [| apply nth_error_None in E1; lia].
    destruct (nth_error (resize_rows (MetricValuesOnTest context) (S iteration)) iteration)
      eqn:E2; [| apply nth_error_None in E2; lia].
    cbn [option_map]. rewrite Et, Es. reflexivity.
Qed.

(** X12. The callback is called for an iteration it has not seen.  When it
    returns, the metric period is not 0, for the remainder by it was taken;
    both tables have a row for every iteration up to this one, the
    rows of the earlier iterations are as they were, and for every metric
    the loop of [CrossValidate] does not skip in this iteration the entries
    [MetricValuesOnTrain[iteration][metricIdx]] and
    [MetricValuesOnTest[iteration][metricIdx]] it reads are there and are
    the values of that metric: the learn value of the history, or 0 when the
    metric is skipped on train, and the test value of the history.  The
    training goes on exactly if the next iteration is below
    [upToIteration]. *)
Theorem stored_metrics_are_read_in_place
    upToIteration globalMaxIteration metricPeriod isErrorTrackerActive
    (history : TMetricsAndTimeLeftHistory TString) (iteration : nat)
    (context context' : TFoldContext) (goesOn : bool) :
  TimeHistorySize history = Z.of_nat iteration + 1 ->
  length (MetricValuesOnTrain context) = length (MetricValuesOnTest context) ->
  (length (MetricValuesOnTest context) <= iteration)%nat ->
  TrainUpToIterationCallback TString metrics skipMetricOnTrain upToIteration
    globalMaxIteration metricPeriod isErrorTrackerActive history context
  = CvReturned (context', goesOn) ->
  metricPeriod <> 0 /\
  length (MetricValuesOnTrain context') = S iteration /\
  length (MetricValuesOnTest context') = S iteration /\
  (forall earlier, (earlier < length (MetricValuesOnTest context))%nat ->
     nth_error (MetricValuesOnTrain context') earlier
     = nth_error (MetricValuesOnTrain context) earlier /\
     nth_error (MetricValuesOnTest context') earlier
     = nth_error (MetricValuesOnTest context) earlier) /\
  goesOn = (Z.of_nat iteration + 1 <? upToIteration) /\
  forall metricIdx description,
    nth_error metrics metricIdx = Some description ->
    SkipsMetric
      (DivisibleOrLast (to_int (Z.of_nat iteration)) (to_int globalMaxIteration)
                       metricPeriod)
      (ErrorTrackerMetricIdx
         (DivisibleOrLast (to_int (Z.of_nat iteration))
                          (to_int globalMaxIteration) metricPeriod)
         isErrorTrackerActive)
      (Z.of_nat metricIdx) = false ->
    exists train test,
      ReadMetric context' iteration metricIdx = Some (train, test) /\
      StoredOnTrain skipMetricOnTrain history (Z.of_nat metricIdx, description) train /\
      StoredOnTest history (Z.of_nat metricIdx, description) test.
Proof.
  intros Hsize Hrows Hnew H.
  exact (TrainUpToIterationCallback_stores upToIteration globalMaxIteration metricPeriod
           isErrorTrackerActive history iteration context context' goesOn
           Hsize Hrows Hnew H).
Qed.

End StoredMetricsRead.

Lemma stored_metrics_are_read_in_place_witness :
  TimeHistorySize SecondHistory = Z.of_nat 1 + 1 /\
  length (MetricValuesOnTrain AfterFirstCallback)
  = length (MetricValuesOnTest AfterFirstCallback) /\
  (length (MetricValuesOnTest AfterFirstCallback) <= 1)%nat /\
  TrainUpToIterationCallback Z TwoMetrics [false; false] 5 10 2 true SecondHistory
    AfterFirstCallback
  = CvReturned (AfterSecondCallback, true) /\
  2 <> 0 /\
  length (MetricValuesOnTrain AfterSecondCallback) = 2%nat /\
  length (MetricValuesOnTest AfterSecondCallback) = 2%nat /\
  (forall earlier, (earlier < length (MetricValuesOnTest AfterFirstCallback))%nat ->
     nth_error (MetricValuesOnTrain AfterSecondCallback) earlier
     = nth_error (MetricValuesOnTrain AfterFirstCallback) earlier /\
     nth_error (MetricValuesOnTest AfterSecondCallback) earlier
     = nth_error (MetricValuesOnTest AfterFirstCallback) earlier) /\
  true = (Z.of_nat 1 + 1 <? 5) /\
  forall metricIdx description,
    nth_error TwoMetrics metricIdx = Some description ->
    SkipsMetric
      (DivisibleOrLast (to_int (Z.of_nat 1)) (to_int 10) 2)
      (ErrorTrackerMetricIdx
         (DivisibleOrLast (to_int (Z.of_nat 1)) (to_int 10) 2) true)
      (Z.of_nat metricIdx) = false ->
    exists train test,
      ReadMetric AfterSecondCallback 1 metricIdx = Some (train, test) /\
      StoredOnTrain [false; false] SecondHistory (Z.of_nat metricIdx, description) train /\
      StoredOnTest SecondHistory (Z.of_nat metricIdx, description) test.
Proof.
  assert (H1 : TimeHistorySize SecondHistory = Z.of_nat 1 + 1) by reflexivity.
  assert (H2 : length (MetricValuesOnTrain AfterFirstCallback)
               = length (MetricValuesOnTest AfterFirstCallback)) by reflexivity.
  assert (H3 : (length (MetricValuesOnTest AfterFirstCallback) <= 1)%nat)
    by (simpl; lia).
  assert (H4 : TrainUpToIterationCallback Z TwoMetrics [false; false] 5 10 2 true
                 SecondHistory AfterFirstCallback
               = CvReturned (AfterSecondCallback, true)) by reflexivity.
  split; [exact H1 | split; [exact H2 | split; [exact H3 | split; [exact H4 |]]]].
  exact (stored_metrics_are_read_in_place Z TwoMetrics [false; false] 5 10 2 true
           SecondHistory 1 AfterFirstCallback AfterSecondCallback true H1 H2 H3 H4).
Defined.

(* ================================================================== *)
(** ** The sizes of the cross-validation split *)

(** X13. When the first lines of [CrossValidate] get through, the fold count is
    at least 1 and below the pool size, and the train size and the test pool
    size are a split of the pool: they add up to it and no [ui32] wrapped.
    With two folds or more both are at least 1; with one fold the train size
    (or, inverted, the test pool size) is 0. *)
Theorem CvTrainAndTestSize_split allDataObjectCount order cvParams cvTrainSize testPoolSize :
  0 <= allDataObjectCount < 2 ^ 32 ->
  0 <= FoldCount cvParams < 2 ^ 32 ->
  CvTrainAndTestSize allDataObjectCount order cvParams
  = CvReturned (cvTrainSize, testPoolSize) ->
  1 <= FoldCount cvParams < allDataObjectCount /\
  cvTrainSize + testPoolSize = allDataObjectCount /\
  0 <= cvTrainSize /\ 0 <= testPoolSize /\
  (2 <= FoldCount cvParams -> 1 <= cvTrainSize /\ 1 <= testPoolSize) /\
  (FoldCount cvParams = 1 ->
   if Inverted cvParams then testPoolSize = 0 else cvTrainSize = 0).
Proof.
  intros Hall Hfolds. unfold CvTrainAndTestSize.
  destruct (Z.eqb_spec allDataObjectCount 0) as [| Hnonempty]; [discriminate |].
  destruct (Z.gtb_spec allDataObjectCount (FoldCount cvParams)) as [Hgt |];
    [| discriminate].
  cbn [negb].
  assert (Hbody :
    (if FoldCount cvParams =? 0 then CvFailed DivisionByZero
     else
       let oneFoldSize := allDataObjectCount / FoldCount cvParams in
       let cvTrainSize :=
         if Inverted cvParams then oneFoldSize
         else wrap32 (oneFoldSize * wrap32 (FoldCount cvParams - 1)) in
       CvReturned (cvTrainSize, wrap32 (allDataObjectCount - cvTrainSize)))
    = CvReturned (cvTrainSize, testPoolSize) ->
    1 <= FoldCount cvParams < allDataObjectCount /\
    cvTrainSize + testPoolSize = allDataObjectCount /\
    0 <= cvTrainSize /\ 0 <= testPoolSize /\
    (2 <= FoldCount cvParams -> 1 <= cvTrainSize /\ 1 <= testPoolSize) /\
    (FoldCount cvParams = 1 ->
     if Inverted cvParams then testPoolSize = 0 else cvTrainSize = 0)).
  { destruct (Z.eqb_spec (FoldCount cvParams) 0) as [| Hfc]; [discriminate |].
    cbv zeta.
    set (fc := FoldCount cvParams) in *.
    set (one := allDataObjectCount / fc).
    assert (Hfc1 : 1 <= fc) by lia.
    pose proof (Z.div_mod allDataObjectCount fc ltac:(lia)) as Ediv.
    pose proof (Z.mod_pos_bound allDataObjectCount fc ltac:(lia)) as Emod.
    fold one in Ediv.
    assert (Hone : 1 <= one) by (unfold one; apply Z.div_le_lower_bound; lia).
    assert (Hone_le : one <= allDataObjectCount) by nia.
    rewrite (wrap32_small (fc - 1)) by lia.
    assert (Hprod : 0 <= one * (fc - 1) <= allDataObjectCount - one) by nia.
    destruct (Inverted cvParams).
    - rewrite wrap32_small by lia. intros [= <- <-].
      split; [lia | split; [lia | split; [lia | split; [lia | split]]]].
      + intros Htwo. split; [lia | nia].
      + intros Hfc_one. rewrite Hfc_one in Ediv, Emod. lia.
    - rewrite (wrap32_small (one * (fc - 1))) by lia.
      rewrite wrap32_small by lia. intros [= <- <-].
      split; [lia | split; [lia | split; [lia | split; [lia | split]]]].
      + intros Htwo. split; [nia | lia].
      + intros Hfc_one. rewrite Hfc_one. lia. }
  destruct order; [discriminate | exact Hbody | exact Hbody].
Qed.

Lemma CvTrainAndTestSize_split_witness :
  0 <= 103 < 2 ^ 32 /\
  0 <= FoldCount {| FoldCount := 5; Inverted := false; IterationsBatchSize := 10 |}
    < 2 ^ 32 /\
  CvTrainAndTestSize 103 NCB.Undefined
    {| FoldCount := 5; Inverted := false; IterationsBatchSize := 10 |}
  = CvReturned (80, 23) /\
  1 <= FoldCount {| FoldCount := 5; Inverted := false; IterationsBatchSize := 10 |} < 103 /\
  80 + 23 = 103 /\
  0 <= 80 /\ 0 <= 23 /\
  (2 <= FoldCount {| FoldCount := 5; Inverted := false; IterationsBatchSize := 10 |} ->
   1 <= 80 /\ 1 <= 23) /\
  (FoldCount {| FoldCount := 5; Inverted := false; IterationsBatchSize := 10 |} = 1 ->
   if Inverted {| FoldCount := 5; Inverted := false; IterationsBatchSize := 10 |}
   then 23 = 0 else 80 = 0).
Proof.
  assert (H1 : 0 <= 103 < 2 ^ 32) by lia.
  assert (H2 : 0 <= FoldCount {| FoldCount := 5; Inverted := false;
                                 IterationsBatchSize := 10 |} < 2 ^ 32)
    by (simpl; lia).
  assert (H3 : CvTrainAndTestSize 103 NCB.Undefined
                 {| FoldCount := 5; Inverted := false; IterationsBatchSize := 10 |}
               = CvReturned (80, 23)) by reflexivity.
  split; [exact H1 | split; [exact H2 | split; [exact H3 |]]].
  exact (CvTrainAndTestSize_split 103 NCB.Undefined
           {| FoldCount := 5; Inverted := false; IterationsBatchSize := 10 |}
           80 23 H1 H2 H3).
Defined.

(** X14. A fold count of 0 passes the checks of every pool that is not empty and
    not ordered: the division by the fold count that follows has a zero
    divisor. *)
Theorem zero_folds_pass_the_checks allDataObjectCount order inverted batchSize :
  0 < allDataObjectCount ->
  order <> NCB.Ordered ->
  CvTrainAndTestSize allDataObjectCount order
    {| FoldCount := 0; Inverted := inverted; IterationsBatchSize := batchSize |}
  = CvFailed DivisionByZero.
Proof.
  intros Hpool Horder. unfold CvTrainAndTestSize. cbn [FoldCount].
  destruct (Z.eqb_spec allDataObjectCount 0); [lia |].
  destruct (Z.gtb_spec allDataObjectCount 0); [| lia].
  cbn. destruct order; [contradiction | reflexivity | reflexivity].
Qed.

Lemma zero_folds_pass_the_checks_witness :
  0 < 103 /\ NCB.RandomShuffled <> NCB.Ordered /\
  CvTrainAndTestSize 103 NCB.RandomShuffled
    {| FoldCount := 0; Inverted := false; IterationsBatchSize := 10 |}
  = CvFailed DivisionByZero.
Proof.
  assert (H1 : 0 < 103) by lia.
  assert (H2 : NCB.RandomShuffled <> NCB.Ordered) by discriminate.
  split; [exact H1 | split; [exact H2 |]].
  exact (zero_folds_pass_the_checks 103 NCB.RandomShuffled false 10 H1 H2).
Defined.

(* ================================================================== *)
(** ** [DropUnusedTables] *)

Section DropUnusedTablesCorrect.

Variable TModelCtrBase : Type.
Variable base_eqb : TModelCtrBase -> TModelCtrBase -> bool.
Variable TCtrValueTable : Type.
Variable ModelCtrBase : TCtrValueTable -> TModelCtrBase.
Variable EmptyTable : TCtrValueTable.
Variable MovedFrom : TCtrValueTable -> TCtrValueTable.

Hypothesis base_eqb_eq : forall a b, base_eqb a b = true <-> a = b.

Local Abbreviation TLearnCtrs := (TLearnCtrs TModelCtrBase TCtrValueTable).
Local Abbreviation listed := (TimesListed base_eqb).
Local Abbreviation source := (TableOrEmpty EmptyTable).

Lemma base_eqb_refl base : base_eqb base base = true.
Proof. now apply base_eqb_eq. Qed.

(** The new and the old map after the loop has gone through [moved]. *)
Lemma MoveTable_loop (LearnCtrs : TLearnCtrs) :
  forall rest moved (maps : TLearnCtrs * TLearnCtrs),
  (forall base,
     fst maps base
     = match listed base moved with
       | O => None
       | S n => Some (Nat.iter n MovedFrom (source LearnCtrs base))
       end /\
     snd maps base
     = match listed base moved with
       | O => LearnCtrs base
       | S n => Some (Nat.iter (S n) MovedFrom (source LearnCtrs base))
       end) ->
  forall base,
    fst (fold_left (MoveTable base_eqb EmptyTable MovedFrom) rest maps) base
    = match listed base (moved ++ rest) with
      | O => None
      | S n => Some (Nat.iter n MovedFrom (source LearnCtrs base))
      end.
Proof.
  induction rest as [| used rest IH]; intros moved maps Hmaps base; cbn [fold_left].
  - rewrite app_nil_r. apply Hmaps.
  - replace (moved ++ used :: rest) with ((moved ++ [used]) ++ rest)
      by (rewrite <- app_assoc; reflexivity).
    apply IH. clear base. intros base.
    destruct maps as [ctrData CtrData]. cbn [fst snd] in Hmaps.
    unfold TimesListed. rewrite filter_app, length_app. cbn [filter].
    fold (listed base moved).
    unfold MoveTable, IndexCtr.
    destruct (Hmaps base) as [Hnew Hold].
    destruct (base_eqb base used) eqn:Ebase.
    + apply base_eqb_eq in Ebase. subst used.
      cbn [length]. rewrite Nat.add_1_r.
      unfold TableOrEmpty in *.
      destruct (CtrData base) as [table |] eqn:Eold;
        destruct (ctrData base) as [table' |] eqn:Enew;
        cbn [fst snd]; unfold SetCtr; rewrite ?base_eqb_refl;
        destruct (listed base moved) as [| n];
        try discriminate;
        rewrite <- ?Hold; cbn [Nat.iter]; try (injection Hold as ->);
        split; reflexivity.
    + cbn [length]. rewrite Nat.add_0_r.
      destruct (CtrData used) as [table |] eqn:Eold;
        destruct (ctrData used) as [table' |] eqn:Enew;
        cbn [fst snd]; unfold SetCtr; rewrite ?Ebase; split; assumption.
Qed.

Lemma DropUnusedTables_lookup (LearnCtrs : TLearnCtrs) used base :
  DropUnusedTables base_eqb EmptyTable MovedFrom LearnCtrs used base
  = match listed base used with
    | O => None
    | S n => Some (Nat.iter n MovedFrom (source LearnCtrs base))
    end.
Proof.
  unfold DropUnusedTables.
  apply (MoveTable_loop LearnCtrs used [] (NoCtrs, LearnCtrs)).
  intros b. split; reflexivity.
Qed.

Lemma listed_once used base :
  NoDup used -> In base used -> listed base used = 1%nat.
Proof.
  unfold TimesListed. induction 1 as [| x used Hx Hnodup IH]; intros Hin; [destruct Hin |].
  cbn [filter]. destruct (base_eqb base x) eqn:E.
  - apply base_eqb_eq in E. subst x. cbn [length]. f_equal.
    destruct (filter (base_eqb base) used) as [| y ?] eqn:Ef; [reflexivity |].
    exfalso. assert (Hy : In y (filter (base_eqb base) used)) by (rewrite Ef; now left).
    apply filter_In in Hy. destruct Hy as [Hy Ey]. apply base_eqb_eq in Ey. now subst y.
  - destruct Hin as [-> | Hin]; [rewrite base_eqb_refl in E; discriminate | now apply IH].
Qed.

Lemma listed_never used base : ~ In base used -> listed base used = 0%nat.
Proof.
  unfold TimesListed. intros Hnot.
  destruct (filter (base_eqb base) used) as [| y ?] eqn:Ef; [reflexivity |].
  exfalso. assert (Hy : In y (filter (base_eqb base) used)) by (rewrite Ef; now left).
  apply filter_In in Hy. destruct Hy as [Hy Ey]. apply base_eqb_eq in Ey. now subst y.
Qed.

(** X15. With every used base listed once, [DropUnusedTables] leaves the provider
    with exactly the used bases: a used base keeps the table it had, or gets
    a default-constructed table when it had none, and every other base is
    gone.  A table added by [AddCtrCalcerData] is kept when its base is
    used. *)
Theorem DropUnusedTables_keeps_used (LearnCtrs : TLearnCtrs) used :
  NoDup used ->
  (forall base, In base used ->
     DropUnusedTables base_eqb EmptyTable MovedFrom LearnCtrs used base
     = Some (source LearnCtrs base)) /\
  (forall base, ~ In base used ->
     DropUnusedTables base_eqb EmptyTable MovedFrom LearnCtrs used base = None) /\
  (forall valueTable, In (ModelCtrBase valueTable) used ->
     DropUnusedTables base_eqb EmptyTable MovedFrom
       (AddCtrCalcerData base_eqb ModelCtrBase EmptyTable LearnCtrs valueTable) used
       (ModelCtrBase valueTable)
     = Some valueTable).
Proof.
  intros Hnodup. split; [| split].
  - intros base Hin. rewrite DropUnusedTables_lookup, (listed_once _ _ Hnodup Hin).
    reflexivity.
  - intros base Hnot. rewrite DropUnusedTables_lookup, (listed_never _ _ Hnot).
    reflexivity.
  - intros valueTable Hin.
    rewrite DropUnusedTables_lookup, (listed_once _ _ Hnodup Hin). cbn [Nat.iter].
    unfold TableOrEmpty, AddCtrCalcerData, SetCtr. cbv zeta.
    rewrite base_eqb_refl. reflexivity.
Qed.

(** X16. A base listed more than once does not keep its table: what the provider
    has for it is the table after it was moved from, once for every further
    time the base is listed. *)
Theorem DropUnusedTables_listed_twice (LearnCtrs : TLearnCtrs) used base n :
  listed base used = S (S n) ->
  DropUnusedTables base_eqb EmptyTable MovedFrom LearnCtrs used base
  = Some (Nat.iter (S n) MovedFrom (source LearnCtrs base)).
Proof.
  intros H. rewrite DropUnusedTables_lookup, H. reflexivity.
Qed.

End DropUnusedTablesCorrect.

Lemma DropUnusedTables_keeps_used_witness :
  (forall a b, (a =? b) = true <-> a = b) /\
  NoDup [2; 3] /\
  (forall base, In base [2; 3] ->
     DropUnusedTables Z.eqb SmallEmptyTable SmallMovedFrom TwoTables [2; 3] base
     = Some (TableOrEmpty SmallEmptyTable TwoTables base)) /\
  (forall base, ~ In base [2; 3] ->
     DropUnusedTables Z.eqb SmallEmptyTable SmallMovedFrom TwoTables [2; 3] base = None) /\
  (forall valueTable, In (fst valueTable) [2; 3] ->
     DropUnusedTables Z.eqb SmallEmptyTable SmallMovedFrom
       (AddCtrCalcerData Z.eqb fst SmallEmptyTable TwoTables valueTable) [2; 3]
       (fst valueTable)
     = Some valueTable).
Proof.
  assert (H1 : forall a b, (a =? b) = true <-> a = b) by exact Z.eqb_eq.
  assert (H2 : NoDup [2; 3]).
  { repeat (constructor; [cbn; intuition discriminate |]). constructor. }
  split; [exact H1 | split; [exact H2 |]].
  exact (DropUnusedTables_keeps_used Z Z.eqb (Z * list Z)%type fst SmallEmptyTable
           SmallMovedFrom H1 TwoTables [2; 3] H2).
Defined.

Lemma DropUnusedTables_listed_twice_witness :
  (forall a b, (a =? b) = true <-> a = b) /\
  TimesListed Z.eqb 1 [1; 2; 1] = 2%nat /\
  DropUnusedTables Z.eqb SmallEmptyTable SmallMovedFrom TwoTables [1; 2; 1] 1
  = Some (Nat.iter 1 SmallMovedFrom (TableOrEmpty SmallEmptyTable TwoTables 1)).
Proof.
  assert (H1 : forall a b, (a =? b) = true <-> a = b) by exact Z.eqb_eq.
  assert (H2 : TimesListed Z.eqb 1 [1; 2; 1] = 2%nat) by reflexivity.
  split; [exact H1 | split; [exact H2 |]].
  exact (DropUnusedTables_listed_twice Z Z.eqb (Z * list Z)%type SmallEmptyTable
           SmallMovedFrom H1 TwoTables [1; 2; 1] 1 0 H2).
Defined.

(** Used bases 2 and 3: table 1 is dropped, table 2 is kept and base 3 gets
    an empty table; with base 1 listed twice its values are lost. *)
Example DropUnusedTables_two_tables :
  DropUnusedTables Z.eqb SmallEmptyTable SmallMovedFrom TwoTables [2; 3] 1 = None /\
  DropUnusedTables Z.eqb SmallEmptyTable SmallMovedFrom TwoTables [2; 3] 2 = Some (2, [20]) /\
  DropUnusedTables Z.eqb SmallEmptyTable SmallMovedFrom TwoTables [2; 3] 3 = Some (0, []) /\
  DropUnusedTables Z.eqb SmallEmptyTable SmallMovedFrom TwoTables [1; 2; 1] 1 = Some (1, []).
Proof. repeat split. Qed.

(* ================================================================== *)
(** ** [TFoldAndPermutationStorage] *)

(** X17. [Foreach] applies the function to every entry where it is: what [Get]
    finds at an index afterwards is the function's value on what it found
    there before, an index that was out of range still is, the estimation
    entry is changed by the function too, and two passes are one pass with
    the composed function. *)
Theorem Foreach_Get {TData} (func other : TData -> TData)
    (storage : TFoldAndPermutationStorage TData) :
  (forall permutationId foldId,
     Get (Foreach func storage) permutationId foldId
     = (entry <- Get storage permutationId foldId ;; Returned (func entry))) /\
  Estimation (Foreach func storage) = func (Estimation storage) /\
  Foreach other (Foreach func storage) = Foreach (fun entry => other (func entry)) storage.
Proof.
  split; [| split].
  - intros p f. unfold Get, Foreach, at_. cbn [FoldData].
    rewrite nth_error_map.
    destruct (nth_error (FoldData storage) p) as [row |]; cbn; [| reflexivity].
    rewrite nth_error_map. destruct (nth_error row f); reflexivity.
  - reflexivity.
  - unfold Foreach. cbn [FoldData Estimation]. f_equal.
    rewrite map_map. apply map_ext. intros row. apply map_map.
Qed.

(* ================================================================== *)
(** ** The hash of a tuple *)

Section TupleHashCorrect.

Variable CombineHashes : Z -> Z -> Z.

Lemma skipn_nth_error {A} (l : list A) : forall n x,
  nth_error l n = Some x -> skipn n l = x :: skipn (S n) l.
Proof.
  induction l as [| y l IH]; intros [| n] x H; cbn in *; try discriminate.
  - injection H as <-. reflexivity.
  - apply IH. exact H.
Qed.

Lemma TupleHashHelper_from hashes : forall fuel I hash,
  nth_error hashes I = Some hash ->
  (length hashes <= S I + fuel)%nat ->
  TupleHashHelper CombineHashes fuel I (length hashes <=? I + 1)%nat hashes
  = Some (CombineRight CombineHashes hash (skipn (S I) hashes)).
Proof.
  induction fuel as [| fuel IH]; intros I hash Hhash Hfuel.
  - cbn [TupleHashHelper]. rewrite Hhash, skipn_all2 by lia.
    replace (length hashes <=? I + 1)%nat with true by (symmetry; apply Nat.leb_le; lia).
    reflexivity.
  - cbn [TupleHashHelper]. rewrite Hhash.
    destruct (Nat.leb_spec (length hashes) (I + 1)) as [Hlast | Hmore].
    + rewrite skipn_all2 by lia. reflexivity.
    + destruct (nth_error hashes (S I)) as [next |] eqn:Enext;
        [| apply nth_error_None in Enext; lia].
      rewrite (skipn_nth_error _ _ _ Enext).
      replace (I + 2)%nat with (S I + 1)%nat by lia.
      replace (I + 1)%nat with (S I) by lia.
      rewrite (IH (S I) next Enext) by lia.
      reflexivity.
Qed.

(** X18. The hash of a tuple that has an element is there, and it is the hashes
    of the elements combined from the right; a tuple of one element hashes
    as its element and a tuple of two as the pair of them.  The hash of the
    empty tuple does not compile. *)
Theorem THashTuple_combines_right :
  (forall hash hashes,
     THashTuple CombineHashes (hash :: hashes)
     = Some (CombineRight CombineHashes hash hashes)) /\
  (forall hash, THashTuple CombineHashes [hash] = Some hash) /\
  (forall first second,
     THashTuple CombineHashes [first; second]
     = Some (TPairHash CombineHashes first second)) /\
  THashTuple CombineHashes [] = None.
Proof.
  split; [| split; [| split]]; try reflexivity.
  intros hash hashes. unfold THashTuple.
  apply (TupleHashHelper_from (hash :: hashes) _ 0 hash); [reflexivity |].
  cbn. lia.
Qed.

End TupleHashCorrect.

(* ================================================================== *)
(** ** The loop over the batches of [CrossValidate] *)

Lemma CheckEvents_snoc events event :
  CheckEvents (events ++ [event]) = CheckEvent (CheckEvents events) event.
Proof. unfold CheckEvents. rewrite fold_left_app. reflexivity. Qed.

Lemma Zrange_succ n : 0 <= n -> Zrange (n + 1) = Zrange n ++ [n].
Proof.
  intros H. unfold Zrange.
  replace (Z.to_nat (n + 1)) with (S (Z.to_nat n)) by lia.
  rewrite seq_S, map_app. cbn. rewrite Z2Nat.id by lia. reflexivity.
Qed.

(** Events that check are the evaluations of the iterations from 0 on, one
    after the other. *)
Lemma CheckEvents_evaluated events : forall trained next,
  CheckEvents events = (trained, next, true) ->
  0 <= next /\ EvaluatedIterations events = Zrange next.
Proof.
  induction events as [| event events IH] using rev_ind; intros trained next H.
  - injection H as <- <-. split; [lia | reflexivity].
  - rewrite CheckEvents_snoc in H.
    destruct (CheckEvents events) as [[trained0 next0] ok0] eqn:E.
    unfold EvaluatedIterations. rewrite flat_map_app. fold (EvaluatedIterations events).
    destruct event as [batchEnd | iteration]; cbn in H |- *.
    + injection H as <- <- ->. rewrite app_nil_r. exact (IH _ _ eq_refl).
    + injection H as <- <- Hok.
      apply andb_prop in Hok. destruct Hok as [Hok _].
      apply andb_prop in Hok. destruct Hok as [-> Hnext].
      apply Z.eqb_eq in Hnext. subst iteration.
      destruct (IH _ _ eq_refl) as [Hpos ->].
      split; [lia | now rewrite Zrange_succ].
Qed.

Section CrossValidateLoopCorrect.

Variable TErrorTracker : Type.
Variable GetIsNeedStop : TErrorTracker -> bool.
Variable IsActive : TErrorTracker -> bool.
Variable AddError : TErrorTracker -> Z -> TErrorTracker.
Variable metricCount : Z.
Variable globalMaxIteration : Z.
Variable metricPeriod : Z.
Variable iterationsBatchSize : Z.

Hypothesis batch_positive : 1 <= iterationsBatchSize.
Hypothesis iterations_fit :
  0 <= globalMaxIteration /\ globalMaxIteration + iterationsBatchSize < 2 ^ 32.

Local Abbreviation evaluate :=
  (EvaluateIteration TErrorTracker IsActive AddError metricCount
                     globalMaxIteration metricPeriod).
Local Abbreviation batch :=
  (EvaluateBatch TErrorTracker GetIsNeedStop IsActive AddError metricCount
                 globalMaxIteration metricPeriod).
Local Abbreviation batches :=
  (TrainAndEvaluateBatches TErrorTracker GetIsNeedStop IsActive AddError metricCount
                           globalMaxIteration metricPeriod iterationsBatchSize).

(** An iteration is evaluated unless the metric period is 0. *)
Lemma EvaluateIteration_period (state : TCvLoopState TErrorTracker) :
  (metricPeriod = 0 -> evaluate state = CvFailed DivisionByZero) /\
  (metricPeriod <> 0 ->
   exists tracker,
     evaluate state
     = CvReturned {| Tracker := tracker; CvIteration := CvIteration state;
                     Events := Events state ++ [Evaluated (CvIteration state)] |}).
Proof.
  unfold EvaluateIteration, DivisibleOrLastIteration. cbv zeta.
  destruct (Z.eqb_spec metricPeriod 0) as [Hzero | Hperiod]; cbn [cv_bind]; split;
    try contradiction; try reflexivity.
  intros _. eexists. reflexivity.
Qed.

(** A batch evaluates the iterations from where it starts, in order, and
    stops at its end or before it when the tracker wants to stop. *)
Lemma EvaluateBatch_in_order batchEnd : forall fuel (state : TCvLoopState TErrorTracker),
  metricPeriod <> 0 ->
  0 <= CvIteration state < batchEnd ->
  batchEnd < 2 ^ 32 ->
  (Z.to_nat (batchEnd - CvIteration state) <= fuel)%nat ->
  CheckEvents (Events state) = (batchEnd, CvIteration state, true) ->
  exists state',
    batch fuel batchEnd state = Some (CvReturned state') /\
    CheckEvents (Events state') = (batchEnd, CvIteration state', true) /\
    CvIteration state < CvIteration state' <= batchEnd /\
    (GetIsNeedStop (Tracker state') = false -> CvIteration state' = batchEnd).
Proof.
  intros fuel state Hperiod. revert state.
  induction fuel as [| fuel IH]; intros state Hit Hend Hfuel Hcheck; [lia |].
  cbn [EvaluateBatch].
  destruct (proj2 (EvaluateIteration_period state) Hperiod) as [tracker ->].
  cbn [Tracker CvIteration Events]. cbv zeta.
  rewrite (wrap32_small (CvIteration state + 1)) by lia.
  assert (Hchecked : CheckEvents (Events state ++ [Evaluated (CvIteration state)])
                     = (batchEnd, CvIteration state + 1, true)).
  { rewrite CheckEvents_snoc, Hcheck. cbn.
    rewrite Z.eqb_refl. replace (CvIteration state <? batchEnd) with true
      by (symmetry; apply Z.ltb_lt; lia).
    reflexivity. }
  destruct (GetIsNeedStop tracker) eqn:Estop; cbn [orb].
  - eexists. split; [reflexivity |]. cbn [Tracker CvIteration Events].
    split; [exact Hchecked | split; [lia |]]. rewrite Estop. discriminate.
  - destruct (Z.eqb_spec (CvIteration state + 1) batchEnd) as [Eend | Hmore].
    + eexists. split; [reflexivity |]. cbn [Tracker CvIteration Events].
      split; [exact Hchecked | split; [lia |]]. intros _. exact Eend.
    + set (next := {| Tracker := tracker; CvIteration := CvIteration state + 1;
                      Events := Events state ++ [Evaluated (CvIteration state)] |}).
      destruct (IH next) as (state' & Hrun & Hcheck' & Hrange & Hstop);
        cbn [Tracker CvIteration Events next]; try lia; [exact Hchecked |].
      exists state'. unfold next in Hrange. cbn [Tracker CvIteration Events] in Hrange.
      split; [exact Hrun | split; [exact Hcheck' | split; [lia | exact Hstop]]].
Qed.

Lemma TrainAndEvaluateBatches_in_order :
  forall fuel batchStart (state : TCvLoopState TErrorTracker) trained,
  metricPeriod <> 0 ->
  0 <= batchStart ->
  (Z.to_nat (globalMaxIteration - batchStart) <= fuel)%nat ->
  0 <= CvIteration state <= globalMaxIteration ->
  (GetIsNeedStop (Tracker state) = false ->
   CvIteration state = Z.min batchStart globalMaxIteration) ->
  CheckEvents (Events state) = (trained, CvIteration state, true) ->
  exists final trained',
    batches fuel batchStart state = Some (CvReturned final) /\
    CheckEvents (Events final) = (trained', CvIteration final, true) /\
    0 <= CvIteration final <= globalMaxIteration /\
    (GetIsNeedStop (Tracker final) = false -> CvIteration final = globalMaxIteration).
Proof.
  intros fuel batchStart state trained Hperiod. revert batchStart state trained.
  induction fuel as [| fuel IH]; intros batchStart state trained Hstart Hfuel Hit Hinv Hcheck.
  - cbn [TrainAndEvaluateBatches].
    destruct (GetIsNeedStop (Tracker state)) eqn:Estop; cbn [negb andb].
    + exists state, trained. split; [reflexivity | split; [exact Hcheck | split; [lia |]]].
      intros Hgo. congruence.
    + replace (batchStart <? globalMaxIteration) with false
        by (symmetry; apply Z.ltb_ge; lia).
      exists state, trained. split; [reflexivity | split; [exact Hcheck | split; [lia |]]].
      intros _. rewrite (Hinv eq_refl). lia.
  - cbn [TrainAndEvaluateBatches].
    destruct (GetIsNeedStop (Tracker state)) eqn:Estop; cbn [negb andb].
    + exists state, trained. split; [reflexivity | split; [exact Hcheck | split; [lia |]]].
      intros Hgo. congruence.
    + destruct (Z.ltb_spec batchStart globalMaxIteration) as [Hlt | Hge].
      * specialize (Hinv eq_refl). cbv zeta.
        rewrite (wrap32_small (batchStart + iterationsBatchSize)) by lia.
        set (batchEnd := Z.min (batchStart + iterationsBatchSize) globalMaxIteration).
        set (trainedState := {| Tracker := Tracker state; CvIteration := CvIteration state;
                                Events := Events state ++ [TrainedUpTo batchEnd] |}).
        destruct (EvaluateBatch_in_order batchEnd (Z.to_nat batchEnd) trainedState Hperiod)
          as (state' & Hrun & Hcheck' & Hrange & Hstop);
          cbn [Tracker CvIteration Events trainedState]; try (unfold batchEnd; lia).
        { rewrite CheckEvents_snoc, Hcheck. reflexivity. }
        rewrite Hrun. unfold trainedState in Hrange.
        cbn [Tracker CvIteration Events] in Hrange.
        apply (IH (batchStart + iterationsBatchSize) state' batchEnd).
        -- lia.
        -- lia.
        -- unfold batchEnd in *. lia.
        -- intros Hgo. rewrite (Hstop Hgo). reflexivity.
        -- exact Hcheck'.
      * exists state, trained.
        split; [reflexivity | split; [exact Hcheck | split; [lia |]]].
        intros _. rewrite (Hinv eq_refl). lia.
Qed.

(** With a metric period of 0 the first iteration that is evaluated stops
    the loop. *)
Lemma TrainAndEvaluateBatches_period_zero fuel batchStart
    (state : TCvLoopState TErrorTracker) :
  metricPeriod = 0 ->
  GetIsNeedStop (Tracker state) = false ->
  0 <= batchStart < globalMaxIteration ->
  batches (S fuel) batchStart state = Some (CvFailed DivisionByZero).
Proof.
  intros Hzero Hgo Hstart. cbn [TrainAndEvaluateBatches]. rewrite Hgo. cbn [negb andb].
  replace (batchStart <? globalMaxIteration) with true by (symmetry; apply Z.ltb_lt; lia).
  cbv zeta. rewrite (wrap32_small (batchStart + iterationsBatchSize)) by lia.
  set (batchEnd := Z.min (batchStart + iterationsBatchSize) globalMaxIteration).
  assert (Hfuel : Z.to_nat batchEnd = S (Z.to_nat (batchEnd - 1)))
    by (unfold batchEnd; lia).
  rewrite Hfuel. cbn [EvaluateBatch].
  rewrite (proj1 (EvaluateIteration_period _) Hzero). reflexivity.
Qed.

(** X19. With a batch size of at least 1 and iterations that fit 32 bits, the
    loop of [CrossValidate] ends, whatever the error tracker does.  With a
    metric period other than 0 it has evaluated the iterations from 0 on,
    one after the other, each of them only after every fold was trained up
    to beyond it; it has gone through all the iterations unless the tracker
    wanted to stop.  With a metric period of 0 it stops on the division by
    zero of the first iteration it evaluates, if it evaluates one (the
    training before it, taken to return here, divides by the same period
    when it stores a row). *)
Theorem CrossValidateLoop_in_order (errorTracker : TErrorTracker) :
  (metricPeriod <> 0 ->
   exists final trained,
     CrossValidateLoop TErrorTracker GetIsNeedStop IsActive AddError metricCount
       globalMaxIteration metricPeriod iterationsBatchSize errorTracker
     = Some (CvReturned final) /\
     CheckEvents (Events final) = (trained, CvIteration final, true) /\
     EvaluatedIterations (Events final) = Zrange (CvIteration final) /\
     0 <= CvIteration final <= globalMaxIteration /\
     (GetIsNeedStop (Tracker final) = false -> CvIteration final = globalMaxIteration)) /\
  (metricPeriod = 0 ->
   CrossValidateLoop TErrorTracker GetIsNeedStop IsActive AddError metricCount
     globalMaxIteration metricPeriod iterationsBatchSize errorTracker
   = if negb (GetIsNeedStop errorTracker) && (0 <? globalMaxIteration)
     then Some (CvFailed DivisionByZero)
     else Some (CvReturned {| Tracker := errorTracker; CvIteration := 0; Events := [] |})).
Proof.
  unfold CrossValidateLoop. split.
  - intros Hperiod.
    destruct (TrainAndEvaluateBatches_in_order (Z.to_nat globalMaxIteration) 0
                {| Tracker := errorTracker; CvIteration := 0; Events := [] |} 0 Hperiod)
      as (final & trained & Hrun & Hcheck & Hrange & Hstop);
      cbn [Tracker CvIteration Events]; try lia; try reflexivity.
    exists final, trained.
    split; [exact Hrun | split; [exact Hcheck | split; [| split; [exact Hrange | exact Hstop]]]].
    exact (proj2 (CheckEvents_evaluated _ _ _ Hcheck)).
  - intros Hzero.
    destruct (GetIsNeedStop errorTracker) eqn:Estop; cbn [negb andb].
    + destruct (Z.to_nat globalMaxIteration); cbn [TrainAndEvaluateBatches Tracker];
        rewrite Estop; reflexivity.
    + destruct (Z.ltb_spec 0 globalMaxIteration) as [Hlt | Hge].
      * assert (Hfuel : Z.to_nat globalMaxIteration = S (Z.to_nat (globalMaxIteration - 1)))
          by lia.
        rewrite Hfuel. apply TrainAndEvaluateBatches_period_zero;
          [exact Hzero | exact Estop | lia].
      * destruct (Z.to_nat globalMaxIteration); cbn [TrainAndEvaluateBatches Tracker];
          rewrite Estop; cbn [negb andb];
          replace (0 <? globalMaxIteration) with false
            by (symmetry; apply Z.ltb_ge; lia);
          reflexivity.
Qed.

End CrossValidateLoopCorrect.

Lemma CrossValidateLoop_in_order_witness :
  1 <= 3 /\
  (0 <= 10 /\ 10 + 3 < 2 ^ 32) /\
  (1 <> 0 ->
   exists final trained,
     CrossValidateLoop (list Z) StopsAfterFour AlwaysActive AddsIteration 2 10 1 3 []
     = Some (CvReturned final) /\
     CheckEvents (Events final) = (trained, CvIteration final, true) /\
     EvaluatedIterations (Events final) = Zrange (CvIteration final) /\
     0 <= CvIteration final <= 10 /\
     (StopsAfterFour (Tracker final) = false -> CvIteration final = 10)) /\
  (1 = 0 ->
   CrossValidateLoop (list Z) StopsAfterFour AlwaysActive AddsIteration 2 10 1 3 []
   = if negb (StopsAfterFour []) && (0 <? 10)
     then Some (CvFailed DivisionByZero)
     else Some (CvReturned {| Tracker := []; CvIteration := 0; Events := [] |})).
Proof.
  assert (H1 : 1 <= 3) by lia.
  assert (H2 : 0 <= 10 /\ 10 + 3 < 2 ^ 32) by lia.
  split; [exact H1 | split; [exact H2 |]].
  exact (CrossValidateLoop_in_order (list Z) StopsAfterFour AlwaysActive AddsIteration
           2 10 1 3 H1 H2 []).
Defined.

(** Ten iterations in batches of three, with a tracker that wants to stop
    after iteration 4: the folds are trained up to 3 and then up to 6, and
    the iterations 0 to 4 are evaluated. *)
Example CrossValidateLoop_stops_after_four :
  CrossValidateLoop (list Z) StopsAfterFour AlwaysActive AddsIteration 2 10 1 3 []
  = Some (CvReturned
            {| Tracker := [4; 3; 2; 1; 0];
               CvIteration := 5;
               Events := [TrainedUpTo 3; Evaluated 0; Evaluated 1; Evaluated 2;
                          TrainedUpTo 6; Evaluated 3; Evaluated 4] |}).
Proof. reflexivity. Qed.

(** The same loop with a metric period of 0: the folds are trained up to 3,
    and the evaluation of iteration 0 divides by zero. *)
Example CrossValidateLoop_period_zero :
  CrossValidateLoop (list Z) StopsAfterFour AlwaysActive AddsIteration 2 10 0 3 []
  = Some (CvFailed DivisionByZero).
Proof. reflexivity. Qed.

(* ================================================================== *)
(** ** Every model of an iteration is the estimate of its own task *)

Lemma nth_as_nth_error {A} (v : list A) : forall i d,
  nth i v d = match nth_error v i with Some a => a | None => d end.
Proof. induction v as [| x v IH]; intros [| i] d; cbn; auto. Qed.

Lemma TModelRef_eq_dec (a b : TModelRef) : {a = b} + {a <> b}.
Proof. decide equality; apply Nat.eq_dec. Qed.

Lemma ModelAt_SetModel_same {TData} (models : TFoldAndPermutationStorage TData) dst model :
  ModelAt models dst <> None -> ModelAt (SetModel models dst model) dst = Some model.
Proof.
  destruct dst as [p f |]; [| reflexivity].
  unfold ModelAt, SetModel. cbn [FoldData]. rewrite !nth_as_nth_error.
  rewrite nth_error_set_nth, Nat.eqb_refl.
  destruct (nth_error (FoldData models) p) as [row |]; cbn [option_map].
  - rewrite nth_error_set_nth, Nat.eqb_refl.
    destruct (nth_error row f); [reflexivity | intros H; now elim H].
  - intros H. destruct f; now elim H.
Qed.

Lemma ModelAt_SetModel_other {TData} (models : TFoldAndPermutationStorage TData)
    dst dst' model :
  dst <> dst' -> ModelAt (SetModel models dst model) dst' = ModelAt models dst'.
Proof.
  intros Hne. destruct dst as [p f |], dst' as [p' f' |]; try reflexivity;
    [| now elim Hne].
  unfold ModelAt, SetModel. cbn [FoldData]. rewrite !nth_as_nth_error.
  rewrite nth_error_set_nth.
  destruct (Nat.eqb_spec p' p) as [-> | Hp]; [| reflexivity].
  destruct (nth_error (FoldData models) p) as [row |]; cbn [option_map]; [| reflexivity].
  rewrite nth_error_set_nth.
  destruct (Nat.eqb_spec f' f) as [-> | Hf]; [now elim Hne | reflexivity].
Qed.

Lemma ModelAt_Foreach {TData} (func : TData -> TData) models dst :
  ModelAt (Foreach func models) dst = option_map func (ModelAt models dst).
Proof.
  destruct dst as [p f |]; [| reflexivity].
  unfold ModelAt, Foreach. cbn [FoldData]. rewrite !nth_as_nth_error, nth_error_map.
  destruct (nth_error (FoldData models) p) as [row |]; cbn [option_map].
  - apply nth_error_map.
  - destruct f; reflexivity.
Qed.

Lemma NoDup_map_injective {A B} (f : A -> B) (l : list A) :
  (forall a b, f a = f b -> a = b) -> NoDup l -> NoDup (map f l).
Proof.
  intros Hinj. induction 1 as [| x l Hx _ IH]; cbn; constructor; [| exact IH].
  intros Hin. apply in_map_iff in Hin. destruct Hin as (y & Hy & Hin).
  apply Hinj in Hy. now subst y.
Qed.

Lemma FoldModels_NoDup permutationFolds learnPermutations :
  NoDup learnPermutations -> NoDup (FoldModels permutationFolds learnPermutations).
Proof.
  unfold FoldModels. induction 1 as [| p ps Hp _ IH]; cbn [flat_map]; [constructor |].
  apply NoDup_app; [| exact IH |].
  - apply NoDup_map_injective; [intros a b [= ->]; reflexivity | apply seq_NoDup].
  - intros dst Hin Hrest. apply in_map_iff in Hin. destruct Hin as (f & <- & _).
    apply in_flat_map in Hrest. destruct Hrest as (q & Hq & Hin).
    apply in_map_iff in Hin. destruct Hin as (g & [= -> ->] & _). contradiction.
Qed.

Lemma mapM_map {A B C} (f : A -> outcome B) (g : B -> C) (h : A -> C) l : forall bs,
  mapM f l = Returned bs ->
  (forall a b, In a l -> f a = Returned b -> g b = h a) ->
  map g bs = map h l.
Proof.
  induction l as [| a l IH]; intros bs H Hgh; cbn [mapM] in H.
  - injection H as <-. reflexivity.
  - bind_inv H. bind_inv H. injection H as <-. cbn [map]. f_equal.
    + apply Hgh; [now left | assumption].
    + apply IH; [assumption |]. intros; apply Hgh; [now right | assumption].
Qed.

Lemma mapM_flat_map {A B C} (f : A -> outcome (list B)) (g : B -> C) (h : A -> list C) l :
  forall bs,
  mapM f l = Returned bs ->
  (forall a b, In a l -> f a = Returned b -> map g b = h a) ->
  map g (concat bs) = flat_map h l.
Proof.
  induction l as [| a l IH]; intros bs H Hgh; cbn [mapM] in H.
  - injection H as <-. reflexivity.
  - bind_inv H. bind_inv H. injection H as <-. cbn [concat flat_map].
    rewrite map_app. f_equal.
    + apply Hgh; [now left | assumption].
    + apply IH; [assumption |]. intros; apply Hgh; [now right | assumption].
Qed.

Lemma mapM_nth_forward {A B} (f : A -> outcome B) l : forall bs i a,
  mapM f l = Returned bs -> nth_error l i = Some a ->
  exists b, nth_error bs i = Some b /\ f a = Returned b.
Proof.
  induction l as [| x l IH]; intros bs i a H Ha; cbn [mapM] in H.
  - destruct i; discriminate.
  - bind_inv H. bind_inv H. injection H as <-. destruct i as [| i]; cbn in *.
    + injection Ha as <-. eauto.
    + eapply IH; eauto.
Qed.

Lemma map_snd_combine_seq {A} (l : list A) : forall start,
  map snd (combine (seq start (length l)) l) = l.
Proof. induction l as [| a l IH]; intros start; cbn; [reflexivity | f_equal; apply IH]. Qed.

Section TaskModels.

Variable Weak : TWeakLearner.
Variable Config : TBoostingOptions.
Variable dataSet : TFeatureParallelDataSetsHolder.
Variable permutationFolds : list (list TFold).

(** The destinations of the fold tasks are the fold models of the learn
    permutations, permutation by permutation and fold by fold. *)
Lemma FoldEstimationTasks_destinations (cursor : TCursor Weak) foldTasks :
  FoldEstimationTasks Weak dataSet permutationFolds cursor = Returned foldTasks ->
  map (TaskDst Weak) foldTasks = FoldModels permutationFolds (learnPermutations dataSet).
Proof.
  unfold FoldEstimationTasks. intros H. bind_inv H. injection H as <-.
  apply (mapM_flat_map _ _ _ _ _ Ha). intros p row _ Hrow.
  bind_inv Hrow. apply at_Returned in Ha0.
  rewrite (nth_error_nth_default _ _ _ _ Ha0).
  apply (mapM_map _ _ _ _ _ Hrow). intros f task _ Htask.
  bind_inv Htask. bind_inv Htask. injection Htask as <-. reflexivity.
Qed.

Lemma EstimationTasks_destinations (cursor : TCursor Weak) tasks :
  EstimationTasks Weak Config dataSet permutationFolds cursor = Returned tasks ->
  map (TaskDst Weak) tasks
  = FoldModels permutationFolds (learnPermutations dataSet)
    ++ (if isPlainWithoutAveraging Config dataSet then [] else [EstimationModel]).
Proof.
  unfold EstimationTasks. intros H. bind_inv H.
  apply FoldEstimationTasks_destinations in Ha.
  destruct (isPlainWithoutAveraging Config dataSet); cbn [negb] in H; injection H as <-.
  - rewrite app_nil_r. exact Ha.
  - rewrite map_app, Ha. reflexivity.
Qed.

Lemma EstimationTasks_NoDup (cursor : TCursor Weak) tasks :
  EstimationTasks Weak Config dataSet permutationFolds cursor = Returned tasks ->
  NoDup (map (TaskDst Weak) tasks).
Proof.
  intros H. rewrite (EstimationTasks_destinations _ _ H).
  apply NoDup_app.
  - apply FoldModels_NoDup. apply seq_NoDup.
  - destruct (isPlainWithoutAveraging Config dataSet); [constructor |].
    constructor; [intros [] | constructor].
  - intros dst Hin Hest.
    destruct (isPlainWithoutAveraging Config dataSet); [destruct Hest |].
    destruct Hest as [<- | []].
    apply in_flat_map in Hin. destruct Hin as (p & _ & Hin).
    apply in_map_iff in Hin. destruct Hin as (f & Hf & _). discriminate.
Qed.

(** The default models have a model where a task points to. *)
Lemma DefaultModels_valid ws models (cursor : TCursor Weak) tasks :
  DefaultModels Weak dataSet permutationFolds ws = Returned models ->
  EstimationTasks Weak Config dataSet permutationFolds cursor = Returned tasks ->
  forall dst, In dst (map (TaskDst Weak) tasks) -> ModelAt models dst <> None.
Proof.
  intros Hmodels Htasks dst Hin.
  rewrite (EstimationTasks_destinations _ _ Htasks) in Hin.
  destruct dst as [p f |]; [| discriminate].
  apply in_app_or in Hin. destruct Hin as [Hin | Hin].
  - apply in_flat_map in Hin. destruct Hin as (q & Hq & Hin).
    apply in_map_iff in Hin. destruct Hin as (g & [= -> ->] & Hg).
    apply in_seq in Hg.
    unfold DefaultModels in Hmodels. cbv zeta in Hmodels.
    bind_inv Hmodels. injection Hmodels as <-.
    unfold learnPermutations in Hq, Ha. apply in_seq in Hq.
    assert (Hnth : nth_error (seq 0 (Z.to_nat (LearnPermutationCount
                                                 (PermutationsCount dataSet)))) p
                   = Some p).
    { rewrite nth_error_seq. destruct (Nat.ltb_spec p (Z.to_nat (LearnPermutationCount
                                                 (PermutationsCount dataSet)))); [reflexivity | lia]. }
    destruct (mapM_nth_forward _ _ _ _ _ Ha Hnth) as (row & Hrow & Erow).
    bind_inv Erow. injection Erow as <-. apply at_Returned in Ha0.
    rewrite (nth_error_nth_default _ _ _ _ Ha0) in Hg.
    unfold ModelAt. cbn [FoldData]. rewrite (nth_error_nth_default _ _ _ _ Hrow).
    intros Hnone. apply nth_error_None in Hnone. rewrite repeat_length in Hnone. lia.
  - destruct (isPlainWithoutAveraging Config dataSet); [destruct Hin |].
    destruct Hin as [Hin | []]. discriminate.
Qed.

(** [Estimate] on models that have every destination, each of them once:
    the model of a task is the leaf values of that task, and a model no
    task points to is as it was. *)
Lemma Estimate_loop ws (views : list (Z * TSlice * TBuf Weak)) :
  forall (numbered : list (nat * TEstimationTask Weak))
         (models : TFoldAndPermutationStorage (TWeakModel Weak)),
  NoDup (map (fun task => TaskDst Weak (snd task)) numbered) ->
  (forall task, In task numbered -> ModelAt models (TaskDst Weak (snd task)) <> None) ->
  (forall task, In task numbered ->
     ModelAt (fold_left (fun models numbered =>
                           SetModel models (TaskDst Weak (snd numbered))
                                    (EstimateLeaves Weak ws views (fst numbered)))
                        numbered models)
             (TaskDst Weak (snd task))
     = Some (EstimateLeaves Weak ws views (fst task))) /\
  (forall dst, ~ In dst (map (fun task => TaskDst Weak (snd task)) numbered) ->
     ModelAt (fold_left (fun models numbered =>
                           SetModel models (TaskDst Weak (snd numbered))
                                    (EstimateLeaves Weak ws views (fst numbered)))
                        numbered models) dst
     = ModelAt models dst).
Proof.
  induction numbered as [| first numbered IH]; intros models Hnodup Hvalid;
    cbn [fold_left map] in *.
  - split; [intros task [] | reflexivity].
  - inversion Hnodup as [| ? ? Hfirst Hrest]; subst.
    set (models1 := SetModel models (TaskDst Weak (snd first))
                             (EstimateLeaves Weak ws views (fst first))).
    assert (Hvalid1 : forall task, In task numbered ->
                        ModelAt models1 (TaskDst Weak (snd task)) <> None).
    { intros task Hin. unfold models1.
      rewrite ModelAt_SetModel_other; [apply Hvalid; now right |].
      intros E. apply Hfirst. rewrite E. apply in_map_iff. eauto. }
    destruct (IH models1 Hrest Hvalid1) as [Hset Hkeep]. split.
    + intros task [<- | Hin]; [| now apply Hset].
      rewrite (Hkeep _ Hfirst). unfold models1.
      apply ModelAt_SetModel_same. apply Hvalid. now left.
    + intros dst Hnot. rewrite Hkeep by (intros Hin; apply Hnot; now right).
      unfold models1. apply ModelAt_SetModel_other.
      intros E. apply Hnot. now left.
Qed.

(** The model a task points to is the rescaled estimate of that task. *)
Lemma IterationModels_task_estimate ws (cursor : TCursor Weak) tasks models :
  EstimationTasks Weak Config dataSet permutationFolds cursor = Returned tasks ->
  IterationModels Weak Config dataSet permutationFolds ws cursor = Returned models ->
  forall taskId task,
    nth_error tasks taskId = Some task ->
    ModelAt models (TaskDst Weak task)
    = Some (Rescale Weak (LearningRate Config)
              (EstimateLeaves Weak ws (map (task_view Weak) tasks) taskId)).
Proof.
  intros Htasks Hmodels.
  pose proof (EstimationTasks_NoDup _ _ Htasks) as Hnodup.
  intros taskId task Htask.
  unfold IterationModels in Hmodels. bind_inv Hmodels. rename a into default.
  rewrite Htasks in Hmodels. cbn [bind] in Hmodels. cbv zeta in Hmodels.
  pose proof (DefaultModels_valid _ _ _ _ Ha Htasks) as Hvalid.
  set (numbered := combine (seq 0 (length tasks)) tasks) in *.
  assert (Hsnd : map (fun task => TaskDst Weak (snd task)) numbered
                 = map (TaskDst Weak) tasks).
  { unfold numbered. rewrite <- (map_map snd (TaskDst Weak)).
    apply f_equal, map_snd_combine_seq. }
  assert (Hin : In (taskId, task) numbered).
  { unfold numbered. apply (nth_error_In _ taskId).
    rewrite nth_error_combine, nth_error_seq, Htask.
    assert (Hlt : (taskId < length tasks)%nat) by (apply nth_error_Some; congruence).
    apply Nat.ltb_lt in Hlt. rewrite Hlt. reflexivity. }
  destruct (Estimate_loop ws (map (task_view Weak) tasks) numbered default) as [Hset _].
  { rewrite Hsnd. exact Hnodup. }
  { intros numberedTask Hnumbered. apply Hvalid.
    rewrite <- Hsnd. apply in_map_iff. eauto. }
  specialize (Hset _ Hin). cbn [fst snd] in Hset.
  fold (Estimate Weak ws tasks default) in Hset. unfold numbered in Hset.
  change (fold_left _ _ default) with (Estimate Weak ws tasks default) in Hset.
  assert (Hrescaled :
    ModelAt (Foreach (Rescale Weak (LearningRate Config)) (Estimate Weak ws tasks default))
            (TaskDst Weak task)
    = Some (Rescale Weak (LearningRate Config)
              (EstimateLeaves Weak ws (map (task_view Weak) tasks) taskId)))
    by (rewrite ModelAt_Foreach, Hset; reflexivity).
  destruct (isPlainWithoutAveraging Config dataSet) eqn:Eplain.
  - bind_inv Hmodels. injection Hmodels as <-.
    destruct (TaskDst Weak task) as [p f |] eqn:Edst; [exact Hrescaled |].
    exfalso.
    assert (Hdst : In EstimationModel (map (TaskDst Weak) tasks)).
    { rewrite <- Edst. apply in_map. eapply nth_error_In; eauto. }
    rewrite (EstimationTasks_destinations _ _ Htasks), Eplain, app_nil_r in Hdst.
    apply in_flat_map in Hdst. destruct Hdst as (q & _ & Hdst).
    apply in_map_iff in Hdst. destruct Hdst as (g & Hg & _). discriminate.
  - injection Hmodels as <-. exact Hrescaled.
Qed.

(** X20. In every mode, the models an iteration ends with are the estimates of
    the tasks: no two tasks write to the same model, and the model a task
    points to is the leaf values the estimator computed for that task,
    rescaled once by the learning rate. *)
Theorem every_model_is_its_task_estimate ws (cursor : TCursor Weak) tasks models :
  EstimationTasks Weak Config dataSet permutationFolds cursor = Returned tasks ->
  IterationModels Weak Config dataSet permutationFolds ws cursor = Returned models ->
  NoDup (map (TaskDst Weak) tasks) /\
  forall taskId task,
    nth_error tasks taskId = Some task ->
    ModelAt models (TaskDst Weak task)
    = Some (Rescale Weak (LearningRate Config)
              (EstimateLeaves Weak ws (map (task_view Weak) tasks) taskId)).
Proof.
  intros Htasks Hmodels. split.
  - exact (EstimationTasks_NoDup _ _ Htasks).
  - intros taskId task Htask.
    exact (IterationModels_task_estimate ws cursor tasks models Htasks Hmodels
             taskId task Htask).
Qed.

End TaskModels.

Lemma every_model_is_its_task_estimate_witness :
  EstimationTasks SmallLearner Config_small SmallDataSet SmallFolds
    (Cursor SmallLearner SmallStart) = Returned SmallTasks /\
  IterationModels SmallLearner Config_small SmallDataSet SmallFolds 3
    (Cursor SmallLearner SmallStart) = Returned SmallModels /\
  NoDup (map (TaskDst SmallLearner) SmallTasks) /\
  forall taskId task,
    nth_error SmallTasks taskId = Some task ->
    ModelAt SmallModels (TaskDst SmallLearner task)
    = Some (Rescale SmallLearner (LearningRate Config_small)
              (EstimateLeaves SmallLearner 3 (map (task_view SmallLearner) SmallTasks)
                              taskId)).
Proof.
  assert (H1 : EstimationTasks SmallLearner Config_small SmallDataSet SmallFolds
                 (Cursor SmallLearner SmallStart) = Returned SmallTasks) by reflexivity.
  assert (H2 : IterationModels SmallLearner Config_small SmallDataSet SmallFolds 3
                 (Cursor SmallLearner SmallStart) = Returned SmallModels) by reflexivity.
  split; [exact H1 | split; [exact H2 |]].
  exact (every_model_is_its_task_estimate SmallLearner Config_small SmallDataSet SmallFolds
           3 (Cursor SmallLearner SmallStart) SmallTasks SmallModels H1 H2).
Defined.

(** The small run has two folds and so three tasks: the models of the folds
    and the estimation model, each the estimate of its task. *)
Example small_run_task_models :
  map (TaskDst SmallLearner) SmallTasks
  = [FoldModel 0 0; FoldModel 0 1; EstimationModel] /\
  SmallModels = {| FoldData := [[6; 8]]; Estimation := 10 |}.
Proof. split; reflexivity. Qed.

(* ================================================================== *)
(** ** The cursor of a fold is advanced by the model of that fold *)

Lemma Get_ModelAt {TData} (storage : TFoldAndPermutationStorage TData) p f entry :
  Get storage p f = Returned entry <-> ModelAt storage (FoldModel p f) = Some entry.
Proof.
  unfold Get, at_, ModelAt. rewrite nth_as_nth_error.
  destruct (nth_error (FoldData storage) p) as [row |]; cbn [bind].
  - destruct (nth_error row f); split; congruence.
  - destruct f; split; cbn; congruence.
Qed.

Section FoldCursorUpdate.

Variable Weak : TWeakLearner.
Variable Config : TBoostingOptions.
Variable dataSet : TFeatureParallelDataSetsHolder.
Variable permutationFolds : list (list TFold).

(** One turn of the inner loop writes one cursor. *)
Lemma UpdateFoldCursor_step ws models p folds (cursor cursor' : TCursor Weak) g :
  UpdateFoldCursor Weak ws models p folds cursor g = Returned cursor' ->
  exists fold point model,
    nth_error folds g = Some fold /\
    ModelAt cursor (FoldModel p g) = Some point /\
    ModelAt models (FoldModel p g) = Some model /\
    cursor' = SetModel cursor (FoldModel p g) (UpdatedFoldCursor Weak ws model p fold point).
Proof.
  unfold UpdateFoldCursor. intros H.
  bind_inv H. bind_inv H. bind_inv H. bind_inv H. injection H as <-.
  apply at_Returned in Ha. apply Get_ModelAt in Ha0. apply Get_ModelAt in Ha2.
  exists a, a0, a2. repeat split; assumption.
Qed.

Lemma UpdateFoldCursor_loop ws models p folds :
  forall foldIds (cursor cursor' : TCursor Weak),
  NoDup foldIds ->
  foldM (UpdateFoldCursor Weak ws models p folds) foldIds cursor = Returned cursor' ->
  (forall g, In g foldIds ->
     exists fold point model,
       nth_error folds g = Some fold /\
       ModelAt cursor (FoldModel p g) = Some point /\
       ModelAt models (FoldModel p g) = Some model /\
       ModelAt cursor' (FoldModel p g)
       = Some (UpdatedFoldCursor Weak ws model p fold point)) /\
  (forall dst, (forall g, In g foldIds -> dst <> FoldModel p g) ->
     ModelAt cursor' dst = ModelAt cursor dst).
Proof.
  induction foldIds as [| first foldIds IH]; intros cursor cursor' Hnodup H;
    cbn [foldM] in H.
  - injection H as <-. split; [intros g [] | reflexivity].
  - bind_inv H. rename a into cursor1.
    inversion Hnodup as [| ? ? Hfirst Hrest]; subst.
    destruct (UpdateFoldCursor_step _ _ _ _ _ _ _ Ha)
      as (fold & point & model & Hfold & Hpoint & Hmodel & ->).
    destruct (IH _ _ Hrest H) as [Hset Hkeep]. split.
    + intros g [<- | Hin].
      * exists fold, point, model.
        split; [exact Hfold | split; [exact Hpoint | split; [exact Hmodel |]]].
        rewrite Hkeep by (intros g Hg [= ->]; contradiction).
        apply ModelAt_SetModel_same. congruence.
      * destruct (Hset g Hin) as (fold' & point' & model' & Hf & Hp & Hm & Hu).
        exists fold', point', model'.
        split; [exact Hf | split; [| split; [exact Hm | exact Hu]]].
        rewrite ModelAt_SetModel_other in Hp; [exact Hp |].
        intros [= ->]. contradiction.
    + intros dst Hdst. rewrite Hkeep by (intros g Hg; apply Hdst; now right).
      apply ModelAt_SetModel_other. intros E. apply (Hdst first); [now left | now symmetry].
Qed.

Lemma UpdateFoldCursors_loop ws models :
  forall permutations (cursor cursor' : TCursor Weak),
  NoDup permutations ->
  foldM (fun cursor permutation =>
           folds <- at_ permutationFolds permutation ;;
           foldM (UpdateFoldCursor Weak ws models permutation folds)
                 (seq 0 (length folds)) cursor)
        permutations cursor = Returned cursor' ->
  (forall p folds g,
     In p permutations -> nth_error permutationFolds p = Some folds ->
     (g < length folds)%nat ->
     exists fold point model,
       nth_error folds g = Some fold /\
       ModelAt cursor (FoldModel p g) = Some point /\
       ModelAt models (FoldModel p g) = Some model /\
       ModelAt cursor' (FoldModel p g)
       = Some (UpdatedFoldCursor Weak ws model p fold point)) /\
  (forall dst, (forall p g, In p permutations -> dst <> FoldModel p g) ->
     ModelAt cursor' dst = ModelAt cursor dst).
Proof.
  induction permutations as [| first permutations IH]; intros cursor cursor' Hnodup H;
    cbn [foldM] in H.
  - injection H as <-. split; [intros p folds g [] | reflexivity].
  - bind_inv H. rename a into cursor1. bind_inv Ha. rename a into firstFolds.
    apply at_Returned in Ha0.
    inversion Hnodup as [| ? ? Hfirst Hrest]; subst.
    destruct (UpdateFoldCursor_loop _ _ _ _ _ _ _ (seq_NoDup _ _) Ha) as [Hset1 Hkeep1].
    destruct (IH _ _ Hrest H) as [Hset Hkeep]. split.
    + intros p folds g [<- | Hin] Hfolds Hg.
      * assert (folds = firstFolds) by congruence. subst folds.
        destruct (Hset1 g) as (fold & point & model & Hf & Hp & Hm & Hu);
          [apply in_seq; lia |].
        exists fold, point, model.
        split; [exact Hf | split; [exact Hp | split; [exact Hm |]]].
        rewrite Hkeep; [exact Hu |].
        intros q h Hq [= -> _]. contradiction.
      * destruct (Hset p folds g Hin Hfolds Hg)
          as (fold & point & model & Hf & Hp & Hm & Hu).
        exists fold, point, model.
        split; [exact Hf | split; [| split; [exact Hm | exact Hu]]].
        rewrite Hkeep1 in Hp; [exact Hp |].
        intros h _ [= -> _]. contradiction.
    + intros dst Hdst. rewrite Hkeep by (intros p g Hp; apply Hdst; now right).
      apply Hkeep1. intros g _. apply Hdst. now left.
Qed.

(** The task of a fold: where it is among the tasks and what it holds. *)
Lemma FoldEstimationTasks_task (cursor : TCursor Weak) foldTasks p folds g fold point :
  FoldEstimationTasks Weak dataSet permutationFolds cursor = Returned foldTasks ->
  In p (learnPermutations dataSet) ->
  nth_error permutationFolds p = Some folds ->
  nth_error folds g = Some fold ->
  Get cursor p g = Returned point ->
  In {| TaskPermutation := Z.of_nat p;
        TaskSlice := EstimateSamples fold;
        TaskCurrent := Content Weak point;
        TaskDst := FoldModel p g |} foldTasks.
Proof.
  unfold FoldEstimationTasks. intros H Hp Hfolds Hfold Hpoint.
  bind_inv H. injection H as <-. rename a into rows.
  apply In_nth_error in Hp. destruct Hp as [i Hi].
  destruct (mapM_nth_forward _ _ _ _ _ Ha Hi) as (row & Hrow & Erow).
  bind_inv Erow. apply at_Returned in Ha0.
  assert (a = folds) by congruence. subst a.
  assert (Hg : nth_error (seq 0 (length folds)) g = Some g).
  { rewrite nth_error_seq.
    assert (Hlt : (g < length folds)%nat) by (apply nth_error_Some; congruence).
    apply Nat.ltb_lt in Hlt. rewrite Hlt. reflexivity. }
  destruct (mapM_nth_forward _ _ _ _ _ Erow Hg) as (task & Htask & Etask).
  unfold at_ at 1 in Etask. rewrite Hfold in Etask. cbn [bind] in Etask.
  rewrite Hpoint in Etask. cbn [bind] in Etask. injection Etask as <-.
  apply in_concat. exists row. split; [eapply nth_error_In; eauto |].
  eapply nth_error_In; eauto.
Qed.

(** X21. An iteration that completes has advanced the cursor of every fold of
    every learn permutation by the model of that fold, over the fold's
    whole range: the leaf values, rescaled by the learning rate, of the task
    that was given the fold's estimate range and the fold's cursor.  For a
    fold of the shape the ordered mode gives, whose evaluate range starts
    where its estimate range ends, every row of the evaluate range is in
    the range the model is added over and outside the slice of the task the
    model was estimated on.  For a fold whose two ranges are the same, as
    they are in the single fold of the plain mode, the rows of the evaluate
    range are the rows of that slice. *)
Theorem fold_cursor_gets_its_fold_model input (state state' : TFitState Weak)
    p folds g fold point :
  FitIteration Weak Config dataSet permutationFolds input state = Returned state' ->
  In p (learnPermutations dataSet) ->
  nth_error permutationFolds p = Some folds ->
  nth_error folds g = Some fold ->
  Get (Cursor Weak state) p g = Returned point ->
  exists ws tasks taskId task,
    EstimationTasks Weak Config dataSet permutationFolds (Cursor Weak state)
    = Returned tasks /\
    nth_error tasks taskId = Some task /\
    task = {| TaskPermutation := Z.of_nat p;
              TaskSlice := EstimateSamples fold;
              TaskCurrent := Content Weak point;
              TaskDst := FoldModel p g |} /\
    Get (Cursor Weak state') p g
    = Returned (UpdatedFoldCursor Weak ws
                  (Rescale Weak (LearningRate Config)
                     (EstimateLeaves Weak ws (map (task_view Weak) tasks) taskId))
                  p fold point) /\
    (fold_shape fold ->
     forall row, 0 <= row -> in_slice row (QualityEvaluateSamples fold) ->
       in_slice row {| Left := 0; Right := Right (QualityEvaluateSamples fold) |} /\
       ~ in_slice row (TaskSlice Weak task)) /\
    (QualityEvaluateSamples fold = EstimateSamples fold ->
     forall row, in_slice row (QualityEvaluateSamples fold) <->
                 in_slice row (TaskSlice Weak task)).
Proof.
  intros H Hp Hfolds Hfold Hpoint. unfold FitIteration in H.
  bind_inv H. rename a into ws. bind_inv H. rename a into models.
  bind_inv H. rename a into state1.
  destruct (TrackBestTestCursor_keeps _ _ _ _ H) as [-> _].
  pose proof Ha0 as Hmodels. unfold IterationModels in Ha0.
  bind_inv Ha0. bind_inv Ha0. rename a0 into tasks. clear Ha0.
  pose proof Ha3 as Htasks. unfold EstimationTasks in Ha3. bind_inv Ha3.
  pose proof (FoldEstimationTasks_task _ _ _ _ _ _ _ Ha0 Hp Hfolds Hfold Hpoint) as Hin.
  assert (Hin' : In {| TaskPermutation := Z.of_nat p;
                       TaskSlice := EstimateSamples fold;
                       TaskCurrent := Content Weak point;
                       TaskDst := FoldModel p g |} tasks).
  { destruct (negb _); injection Ha3 as <-; [apply in_or_app; now left | exact Hin]. }
  apply In_nth_error in Hin'. destruct Hin' as [taskId Htask].
  exists ws, tasks, taskId. eexists. split; [exact Htasks |].
  split; [exact Htask | split; [reflexivity |]].
  split.
  2: { split.
       - intros [_ Hshape] row Hrow [Hleft Hright]. unfold in_slice.
         cbn [TaskSlice Left Right]. split; lia.
       - intros Hsame row. cbn [TaskSlice]. rewrite Hsame. reflexivity. }
  pose proof (IterationModels_task_estimate _ _ _ _ _ _ _ _ Htasks Hmodels _ _ Htask)
    as Hmodel.
  cbn [TaskDst] in Hmodel.
  unfold AppendModels in Ha1. cbv zeta in Ha1. bind_inv Ha1. injection Ha1 as <-.
  cbn [Cursor]. unfold UpdateFoldCursors in Ha4.
  destruct (UpdateFoldCursors_loop _ _ _ _ _ (seq_NoDup _ _) Ha4) as [Hset _].
  assert (Hg : (g < length folds)%nat) by (apply nth_error_Some; congruence).
  destruct (Hset p folds g Hp Hfolds Hg) as (fold' & point' & model' & Hf & Hq & Hm & Hu).
  apply Get_ModelAt in Hpoint.
  unfold ModelAt in Hq, Hpoint. cbn [FoldData] in Hq.
  assert (fold' = fold) by congruence.
  assert (point' = point) by congruence.
  assert (model' = Rescale Weak (LearningRate Config)
                     (EstimateLeaves Weak ws (map (task_view Weak) tasks) taskId))
    by congruence.
  subst fold' point' model'. apply Get_ModelAt. exact Hu.
Qed.

End FoldCursorUpdate.

Lemma fold_cursor_gets_its_fold_model_witness :
  FitIteration SmallLearner Config_small SmallDataSet SmallFolds (Iteration 0 7 true)
    SmallStart = Returned AfterFirstIteration /\
  In 0%nat (learnPermutations SmallDataSet) /\
  nth_error SmallFolds 0 = Some (nth 0 SmallFolds []) /\
  nth_error (nth 0 SmallFolds []) 1 = Some SecondFold /\
  Get (Cursor SmallLearner SmallStart) 0 1 = Returned SecondFoldCursor /\
  exists ws tasks taskId task,
    EstimationTasks SmallLearner Config_small SmallDataSet SmallFolds
      (Cursor SmallLearner SmallStart) = Returned tasks /\
    nth_error tasks taskId = Some task /\
    task = {| TaskPermutation := Z.of_nat 0;
              TaskSlice := EstimateSamples SecondFold;
              TaskCurrent := Content SmallLearner SecondFoldCursor;
              TaskDst := FoldModel 0 1 |} /\
    Get (Cursor SmallLearner AfterFirstIteration) 0 1
    = Returned (UpdatedFoldCursor SmallLearner ws
                  (Rescale SmallLearner (LearningRate Config_small)
                     (EstimateLeaves SmallLearner ws
                        (map (task_view SmallLearner) tasks) taskId))
                  0 SecondFold SecondFoldCursor) /\
    (fold_shape SecondFold ->
     forall row, 0 <= row -> in_slice row (QualityEvaluateSamples SecondFold) ->
       in_slice row {| Left := 0; Right := Right (QualityEvaluateSamples SecondFold) |} /\
       ~ in_slice row (TaskSlice SmallLearner task)) /\
    (QualityEvaluateSamples SecondFold = EstimateSamples SecondFold ->
     forall row, in_slice row (QualityEvaluateSamples SecondFold) <->
                 in_slice row (TaskSlice SmallLearner task)).
Proof.
  assert (H1 : FitIteration SmallLearner Config_small SmallDataSet SmallFolds
                 (Iteration 0 7 true) SmallStart = Returned AfterFirstIteration)
    by reflexivity.
  assert (H2 : In 0%nat (learnPermutations SmallDataSet)) by (left; reflexivity).
  assert (H3 : nth_error SmallFolds 0 = Some (nth 0 SmallFolds [])) by reflexivity.
  assert (H4 : nth_error (nth 0 SmallFolds []) 1 = Some SecondFold) by reflexivity.
  assert (H5 : Get (Cursor SmallLearner SmallStart) 0 1 = Returned SecondFoldCursor)
    by reflexivity.
  split; [exact H1 | split; [exact H2 | split; [exact H3 | split; [exact H4 |
  split; [exact H5 |]]]]].
  exact (fold_cursor_gets_its_fold_model SmallLearner Config_small SmallDataSet SmallFolds
           (Iteration 0 7 true) SmallStart AfterFirstIteration
           0%nat (nth 0 SmallFolds []) 1%nat SecondFold SecondFoldCursor
           H1 H2 H3 H4 H5).
Defined.

(* ================================================================== *)
(** ** The weak model of an iteration outside the plain fallback *)

Section EstimationModelUpdate.

Variable Weak : TWeakLearner.
Variable Config : TBoostingOptions.
Variable dataSet : TFeatureParallelDataSetsHolder.
Variable permutationFolds : list (list TFold).

(** X22. Unless the mode is plain without an averaging permutation, the last
    task given to the estimator is the one of the estimation permutation:
    over all the rows, on the estimation cursor.  The weak model an
    iteration appends to the result is the leaf values of that task rescaled
    by the learning rate, and the same model is added to the estimation
    cursor and, when there is a test set, to the test cursor. *)
Theorem result_model_is_estimation_task_estimate input (state state' : TFitState Weak) :
  isPlainWithoutAveraging Config dataSet = false ->
  FitIteration Weak Config dataSet permutationFolds input state = Returned state' ->
  exists ws foldTasks model,
    EstimationTasks Weak Config dataSet permutationFolds (Cursor Weak state)
    = Returned
        (foldTasks ++
         [{| TaskPermutation := EstimationPermutation (PermutationsCount dataSet);
             TaskSlice := {| Left := 0; Right := LearnObjectCount dataSet |};
             TaskCurrent := Content Weak (Estimation (Cursor Weak state));
             TaskDst := EstimationModel |}]) /\
    model
    = Rescale Weak (LearningRate Config)
        (EstimateLeaves Weak ws
           (map (task_view Weak)
              (foldTasks ++
               [{| TaskPermutation := EstimationPermutation (PermutationsCount dataSet);
                   TaskSlice := {| Left := 0; Right := LearnObjectCount dataSet |};
                   TaskCurrent := Content Weak (Estimation (Cursor Weak state));
                   TaskDst := EstimationModel |}]))
           (length foldTasks)) /\
    Result Weak state' = Result Weak state ++ [model] /\
    Estimation (Cursor Weak state')
    = {| MappingSize := MappingSize Weak (Estimation (Cursor Weak state));
         Content := AddModelValue Weak ws model
                      (DataSetForPermutation
                         (EstimationPermutation (PermutationsCount dataSet)))
                      (GetObjectsSlice Weak (Estimation (Cursor Weak state)))
                      (Content Weak (Estimation (Cursor Weak state))) |} /\
    TestCursor Weak state'
    = (if HasTestDataSet dataSet
       then option_map
              (fun point =>
                 {| MappingSize := MappingSize Weak point;
                    Content := AddModelValue Weak ws model TestDataSet
                                 (GetObjectsSlice Weak point) (Content Weak point) |})
              (TestCursor Weak state)
       else TestCursor Weak state).
Proof.
  intros Hmode H. unfold FitIteration in H.
  bind_inv H. rename a into ws. bind_inv H. rename a into models.
  bind_inv H. rename a into state1.
  destruct (TrackBestTestCursor_keeps _ _ _ _ H) as [-> ->].
  destruct (TrackBestTestCursor_best _ _ _ _ H) as (-> & _ & _).
  pose proof Ha0 as Hmodels. unfold IterationModels in Ha0.
  bind_inv Ha0. bind_inv Ha0. rename a0 into tasks. clear Ha0.
  pose proof Ha3 as Htasks. unfold EstimationTasks in Ha3. bind_inv Ha3.
  rename a0 into foldTasks. rewrite Hmode in Ha3. cbn [negb] in Ha3. cbv zeta in Ha3.
  injection Ha3 as <-.
  set (task := {| TaskPermutation := EstimationPermutation (PermutationsCount dataSet);
                  TaskSlice := {| Left := 0; Right := LearnObjectCount dataSet |};
                  TaskCurrent := Content Weak (Estimation (Cursor Weak state));
                  TaskDst := EstimationModel |}) in *.
  assert (Htask : nth_error (foldTasks ++ [task]) (length foldTasks) = Some task)
    by (rewrite nth_error_app2, Nat.sub_diag by lia; reflexivity).
  pose proof (IterationModels_task_estimate _ _ _ _ _ _ _ _ Htasks Hmodels _ _ Htask)
    as Hmodel.
  cbn [TaskDst task ModelAt] in Hmodel. injection Hmodel as Hmodel.
  exists ws, foldTasks, (Estimation models).
  split; [exact Htasks | split; [exact Hmodel |]].
  unfold AppendModels in Ha1. cbv zeta in Ha1. bind_inv Ha1. injection Ha1 as <-.
  cbn [Result Cursor TestCursor].
  destruct (UpdateFoldCursors_keeps _ _ _ _ _ _ _ Ha3) as [_ ->]. cbn [Estimation].
  split; [reflexivity | split; [reflexivity |]].
  destruct (TestCursor Weak state); [| destruct (HasTestDataSet dataSet); reflexivity].
  destruct (HasTestDataSet dataSet); reflexivity.
Qed.

End EstimationModelUpdate.

Lemma result_model_is_estimation_task_estimate_witness :
  isPlainWithoutAveraging Config_small SmallDataSet = false /\
  FitIteration SmallLearner Config_small SmallDataSet SmallFolds (Iteration 0 7 true)
    SmallStart = Returned AfterFirstIteration /\
  exists ws foldTasks model,
    EstimationTasks SmallLearner Config_small SmallDataSet SmallFolds
      (Cursor SmallLearner SmallStart)
    = Returned
        (foldTasks ++
         [{| TaskPermutation := EstimationPermutation (PermutationsCount SmallDataSet);
             TaskSlice := {| Left := 0; Right := LearnObjectCount SmallDataSet |};
             TaskCurrent := Content SmallLearner (Estimation (Cursor SmallLearner SmallStart));
             TaskDst := EstimationModel |}]) /\
    model
    = Rescale SmallLearner (LearningRate Config_small)
        (EstimateLeaves SmallLearner ws
           (map (task_view SmallLearner)
              (foldTasks ++
               [{| TaskPermutation := EstimationPermutation (PermutationsCount SmallDataSet);
                   TaskSlice := {| Left := 0; Right := LearnObjectCount SmallDataSet |};
                   TaskCurrent :=
                     Content SmallLearner (Estimation (Cursor SmallLearner SmallStart));
                   TaskDst := EstimationModel |}]))
           (length foldTasks)) /\
    Result SmallLearner AfterFirstIteration = Result SmallLearner SmallStart ++ [model] /\
    Estimation (Cursor SmallLearner AfterFirstIteration)
    = {| MappingSize := MappingSize SmallLearner (Estimation (Cursor SmallLearner SmallStart));
         Content := AddModelValue SmallLearner ws model
                      (DataSetForPermutation
                         (EstimationPermutation (PermutationsCount SmallDataSet)))
                      (GetObjectsSlice SmallLearner
                         (Estimation (Cursor SmallLearner SmallStart)))
                      (Content SmallLearner
                         (Estimation (Cursor SmallLearner SmallStart))) |} /\
    TestCursor SmallLearner AfterFirstIteration
    = (if HasTestDataSet SmallDataSet
       then option_map
              (fun point =>
                 {| MappingSize := MappingSize SmallLearner point;
                    Content := AddModelValue SmallLearner ws model TestDataSet
                                 (GetObjectsSlice SmallLearner point)
                                 (Content SmallLearner point) |})
              (TestCursor SmallLearner SmallStart)
       else TestCursor SmallLearner SmallStart).
Proof.
  assert (H1 : isPlainWithoutAveraging Config_small SmallDataSet = false) by reflexivity.
  assert (H2 : FitIteration SmallLearner Config_small SmallDataSet SmallFolds
                 (Iteration 0 7 true) SmallStart = Returned AfterFirstIteration)
    by reflexivity.
  split; [exact H1 | split; [exact H2 |]].
  exact (result_model_is_estimation_task_estimate SmallLearner Config_small SmallDataSet
           SmallFolds (Iteration 0 7 true) SmallStart AfterFirstIteration H1 H2).
Defined.

(* ================================================================== *)
(** ** The standard deviation of a single fold *)

Lemma sqrt_of_quotient_by_zero (x : float) :
  not_a_finite_number (PrimFloat.sqrt (PrimFloat.div x 0%float)).
Proof.
  unfold not_a_finite_number.
  rewrite classify_spec, FloatAxioms.sqrt_spec, FloatAxioms.div_spec.
  change (Prim2SF 0%float) with (S754_zero false).
  destruct (Prim2SF x) as [s | s | | s m e]; cbn; try destruct s; cbn; auto.
Qed.

(** X23. With the errors of a single fold, the standard deviations of an
    iteration are not finite numbers, whatever the errors are: the sum of
    the squares is divided by [values.size() - 1], which is 0. *)
Theorem single_fold_deviation_is_not_finite (trainError testError : float) :
  not_a_finite_number (StdDevTrain (ComputeIterationResults [trainError] [testError] 1)) /\
  not_a_finite_number (StdDevTest (ComputeIterationResults [trainError] [testError] 1)).
Proof.
  unfold ComputeIterationResults, ComputeStdDev. cbv zeta.
  cbn [StdDevTrain StdDevTest length SizeLessOne].
  change (PrimFloat.of_uint63 (of_Z (Z.of_nat 0))) with 0%float.
  split; apply sqrt_of_quotient_by_zero.
Qed.

(** Errors 0.5 and 0.25 of one fold: both deviations are not a number. *)
Example single_fold_deviation :
  PrimFloat.classify (StdDevTrain (ComputeIterationResults [0.5%float] [0.25%float] 1)) = NaN /\
  PrimFloat.classify (StdDevTest (ComputeIterationResults [0.5%float] [0.25%float] 1)) = NaN.
Proof. split; reflexivity. Qed.

(* ================================================================== *)
(** ** Training a fold up to an iteration *)

Section TrainUpToIterationCorrect.

Variable TString : Type.
Variable metrics : list TString.
Variable skipMetricOnTrain : list bool.
Variable globalMaxIteration : Z.
Variable metricPeriod : Z.
Variable isErrorTrackerActive : bool.
Variable HistoryAfter : Z -> TMetricsAndTimeLeftHistory TString.

(** The history has one time entry per iteration done. *)
Hypothesis history_sizes :
  forall iteration, TimeHistorySize (HistoryAfter iteration) = iteration + 1.

Variable upToIteration : Z.

Local Abbreviation train :=
  (TrainModel TString metrics skipMetricOnTrain globalMaxIteration metricPeriod
              isErrorTrackerActive HistoryAfter).
Local Abbreviation stored :=
  (MetricsOfIteration TString metrics skipMetricOnTrain globalMaxIteration metricPeriod
                      isErrorTrackerActive HistoryAfter).

Lemma MetricsOfIteration_same_rows iteration (context context' : TFoldContext) :
  nth_error (MetricValuesOnTrain context') iteration
  = nth_error (MetricValuesOnTrain context) iteration ->
  nth_error (MetricValuesOnTest context') iteration
  = nth_error (MetricValuesOnTest context) iteration ->
  stored iteration context -> stored iteration context'.
Proof.
  intros Htrain Htest H metricIdx description Hmetric Hkept.
  destruct (H metricIdx description Hmetric Hkept) as (trainValue & testValue & Hread & R).
  exists trainValue, testValue. split; [| exact R].
  unfold ReadMetric in *. rewrite Htrain, Htest. exact Hread.
Qed.

(** From the first iteration that is not stored on, every turn stores a
    row. *)
Lemma TrainModel_stores : forall fuel (iteration : nat) (context context' : TFoldContext),
  length (MetricValuesOnTrain context) = iteration ->
  length (MetricValuesOnTest context) = iteration ->
  Z.of_nat iteration < upToIteration ->
  (Z.to_nat (upToIteration - Z.of_nat iteration) <= fuel)%nat ->
  train fuel upToIteration (Z.of_nat iteration) context = CvReturned context' ->
  metricPeriod <> 0 /\
  length (MetricValuesOnTrain context') = Z.to_nat upToIteration /\
  length (MetricValuesOnTest context') = Z.to_nat upToIteration /\
  (forall earlier, (earlier < iteration)%nat ->
     nth_error (MetricValuesOnTrain context') earlier
     = nth_error (MetricValuesOnTrain context) earlier /\
     nth_error (MetricValuesOnTest context') earlier
     = nth_error (MetricValuesOnTest context) earlier) /\
  (forall later, (iteration <= later)%nat -> Z.of_nat later < upToIteration ->
     stored later context').
Proof.
  induction fuel as [| fuel IH]; intros iteration context context' Htrain Htest Hbelow Hfuel H;
    [lia |].
  cbn [TrainModel] in H.
  destruct (TrainUpToIterationCallback _ _ _ _ _ _ _ _ _) as [[context1 goesOn] | e] eqn:Ecall;
    cbn [cv_bind fst snd] in H; [| discriminate].
  destruct (TrainUpToIterationCallback_stores TString metrics skipMetricOnTrain
              upToIteration globalMaxIteration metricPeriod isErrorTrackerActive
              (HistoryAfter (Z.of_nat iteration)) iteration context context1 goesOn)
    as (Hperiod & Ltrain & Ltest & Hearlier & Hgoes & Hstored);
    [apply history_sizes | congruence | lia | exact Ecall |].
  split; [exact Hperiod |].
  destruct goesOn.
  - symmetry in Hgoes. apply Z.ltb_lt in Hgoes.
    replace (Z.of_nat iteration + 1) with (Z.of_nat (S iteration)) in H by lia.
    destruct (IH (S iteration) context1 context' Ltrain Ltest ltac:(lia) ltac:(lia) H)
      as (_ & Ltrain' & Ltest' & Hearlier' & Hstored').
    split; [exact Ltrain' | split; [exact Ltest' | split]].
    + intros earlier Hlt.
      destruct (Hearlier' earlier ltac:(lia)) as [-> ->].
      apply Hearlier. lia.
    + intros later Hle Hlater.
      destruct (Nat.eq_dec later iteration) as [-> | Hne]; [| apply Hstored'; lia].
      destruct (Hearlier' iteration ltac:(lia)) as [Et Es].
      exact (MetricsOfIteration_same_rows _ _ _ Et Es Hstored).
  - symmetry in Hgoes. apply Z.ltb_ge in Hgoes.
    injection H as <-.
    split; [rewrite Ltrain; lia | split; [rewrite Ltest; lia | split]].
    + intros earlier Hlt. apply Hearlier. lia.
    + intros later Hle Hlater.
      assert (later = iteration) by lia. subst later. exact Hstored.
Qed.

(** The iterations that are stored already are replayed. *)
Lemma TrainModel_replays size :
  forall fuel (iteration : nat) (context context' : TFoldContext),
  length (MetricValuesOnTrain context) = size ->
  length (MetricValuesOnTest context) = size ->
  (iteration <= size)%nat ->
  Z.of_nat size < upToIteration ->
  (Z.to_nat (upToIteration - Z.of_nat iteration) <= fuel)%nat ->
  train fuel upToIteration (Z.of_nat iteration) context = CvReturned context' ->
  metricPeriod <> 0 /\
  length (MetricValuesOnTrain context') = Z.to_nat upToIteration /\
  length (MetricValuesOnTest context') = Z.to_nat upToIteration /\
  (forall earlier, (earlier < size)%nat ->
     nth_error (MetricValuesOnTrain context') earlier
     = nth_error (MetricValuesOnTrain context) earlier /\
     nth_error (MetricValuesOnTest context') earlier
     = nth_error (MetricValuesOnTest context) earlier) /\
  (forall later, (size <= later)%nat -> Z.of_nat later < upToIteration ->
     stored later context').
Proof.
  induction fuel as [| fuel IH];
    intros iteration context context' Htrain Htest Hle Hbelow Hfuel H; [lia |].
  destruct (Nat.eq_dec iteration size) as [-> | Hne].
  - exact (TrainModel_stores (S fuel) size context context' Htrain Htest Hbelow Hfuel H).
  - cbn [TrainModel] in H. unfold TrainUpToIterationCallback in H.
    rewrite history_sizes in H.
    replace (Z.of_nat iteration + 1 >? 0) with true in H by (symmetry; apply Z.gtb_lt; lia).
    cbn [negb] in H. cbv zeta in H.
    replace (Z.of_nat iteration + 1 - 1
             <? Z.of_nat (length (MetricValuesOnTest context))) with true in H
      by (symmetry; apply Z.ltb_lt; lia).
    cbn [cv_bind fst snd] in H.
    replace (Z.of_nat iteration + 1) with (Z.of_nat (S iteration)) in H by lia.
    exact (IH (S iteration) context context' Htrain Htest ltac:(lia) Hbelow ltac:(lia) H).
Qed.

(** X24. A fold has the rows of [size] iterations and is trained up to an
    iteration beyond them, within the iteration count.  When the training
    returns, the metric period is not 0, for a new row was stored, and the
    fold has the rows of exactly [upToIteration] iterations:
    the rows it had are replayed and left as they were, and every new row
    holds, where [CrossValidate] reads them, the metric values of its
    iteration. *)
Theorem TrainUpToIteration_stores_up_to size (context context' : TFoldContext) :
  length (MetricValuesOnTrain context) = size ->
  length (MetricValuesOnTest context) = size ->
  Z.of_nat size < upToIteration <= globalMaxIteration ->
  TrainUpToIteration TString metrics skipMetricOnTrain globalMaxIteration metricPeriod
    isErrorTrackerActive HistoryAfter upToIteration context = CvReturned context' ->
  metricPeriod <> 0 /\
  length (MetricValuesOnTrain context') = Z.to_nat upToIteration /\
  length (MetricValuesOnTest context') = Z.to_nat upToIteration /\
  (forall earlier, (earlier < size)%nat ->
     nth_error (MetricValuesOnTrain context') earlier
     = nth_error (MetricValuesOnTrain context) earlier /\
     nth_error (MetricValuesOnTest context') earlier
     = nth_error (MetricValuesOnTest context) earlier) /\
  (forall later, (size <= later)%nat -> Z.of_nat later < upToIteration ->
     MetricsOfIteration TString metrics skipMetricOnTrain globalMaxIteration metricPeriod
       isErrorTrackerActive HistoryAfter later context').
Proof.
  intros Htrain Htest [Hbelow Hmax] H. unfold TrainUpToIteration in H.
  apply (TrainModel_replays size (Z.to_nat globalMaxIteration) 0 context context'
           Htrain Htest); [lia | exact Hbelow | cbn; lia | exact H].
Qed.

End TrainUpToIterationCorrect.

Lemma TrainUpToIteration_stores_up_to_witness :
  (forall iteration, TimeHistorySize (IterationHistory iteration) = iteration + 1) /\
  length (MetricValuesOnTrain AfterFirstCallback) = 1%nat /\
  length (MetricValuesOnTest AfterFirstCallback) = 1%nat /\
  Z.of_nat 1 < 3 <= 10 /\
  TrainUpToIteration Z TwoMetrics [false; false] 10 2 true IterationHistory 3
    AfterFirstCallback = CvReturned TrainedUpToThree /\
  2 <> 0 /\
  length (MetricValuesOnTrain TrainedUpToThree) = Z.to_nat 3 /\
  length (MetricValuesOnTest TrainedUpToThree) = Z.to_nat 3 /\
  (forall earlier, (earlier < 1)%nat ->
     nth_error (MetricValuesOnTrain TrainedUpToThree) earlier
     = nth_error (MetricValuesOnTrain AfterFirstCallback) earlier /\
     nth_error (MetricValuesOnTest TrainedUpToThree) earlier
     = nth_error (MetricValuesOnTest AfterFirstCallback) earlier) /\
  (forall later, (1 <= later)%nat -> Z.of_nat later < 3 ->
     MetricsOfIteration Z TwoMetrics [false; false] 10 2 true IterationHistory later
       TrainedUpToThree).
Proof.
  assert (H0 : forall iteration, TimeHistorySize (IterationHistory iteration) = iteration + 1)
    by (intros iteration; reflexivity).
  assert (H1 : length (MetricValuesOnTrain AfterFirstCallback) = 1%nat) by reflexivity.
  assert (H2 : length (MetricValuesOnTest AfterFirstCallback) = 1%nat) by reflexivity.
  assert (H3 : Z.of_nat 1 < 3 <= 10) by (simpl; lia).
  assert (H4 : TrainUpToIteration Z TwoMetrics [false; false] 10 2 true IterationHistory 3
                 AfterFirstCallback = CvReturned TrainedUpToThree) by reflexivity.
  split; [exact H0 | split; [exact H1 | split; [exact H2 | split; [exact H3 |
  split; [exact H4 |]]]]].
  exact (TrainUpToIteration_stores_up_to Z TwoMetrics [false; false] 10 2 true
           IterationHistory H0 3 1%nat AfterFirstCallback TrainedUpToThree H1 H2 H3 H4).
Defined.
